(** * xiaohongshu-mcp-python: browser automation flows, verified

    A shallow embedding of the control flow of the repository:
    - [browser/cookies.py]   the cookie store ([CookieManager]);
    - [browser/driver.py]    the session scope ([BrowserManager.get_page]);
    - [xiaohongshu/login.py] the login-state detection chain;
    - [xiaohongshu/publish.py] the publish pipeline;
    - [publish.py], [server.py] the two callers and their request validation.

    The browser engine, the file system and the JSON library are external
    collaborators.  A Python coroutine becomes a finite tree of calls
    ([prog]): every call to a collaborator is a node whose continuation
    receives either the value returned or the exception raised.  The answers
    of the browser are given by an oracle on the history of calls, so every
    statement quantified over the oracle holds for every page behaviour. *)

From Stdlib Require Import String Ascii List ZArith NArith Bool Lia.
From Stdlib Require Import DecimalString.
Import ListNotations.
Open Scope string_scope.
Set Warnings "-register-all".

(* ================================================================== *)
(** ** Python values *)

(** A Python [str] is represented by its UTF-8 encoding.  Substring tests,
    concatenation and comparison with ASCII literals are the same on the
    encoding as on the characters; [len] and [strip] go through
    [utf8_decode].  Byte strings that are not well-formed UTF-8 have no
    Python counterpart; the decoder keeps each stray byte as one character. *)

Fixpoint utf8_decode (s : string) : list N :=
  match s with
  | EmptyString => []
  | String a r =>
      let b := N_of_ascii a in
      if (b <? 128)%N then b :: utf8_decode r
      else if ((192 <=? b) && (b <? 224))%N then
        match r with
        | String a1 r1 =>
            ((b - 192) * 64 + (N_of_ascii a1) mod 64)%N :: utf8_decode r1
        | EmptyString => [b]
        end
      else if ((224 <=? b) && (b <? 240))%N then
        match r with
        | String a1 (String a2 r2) =>
            ((b - 224) * 4096 + ((N_of_ascii a1) mod 64) * 64
             + (N_of_ascii a2) mod 64)%N :: utf8_decode r2
        | _ => b :: utf8_decode r
        end
      else if (240 <=? b)%N then
        match r with
        | String a1 (String a2 (String a3 r3)) =>
            ((b - 240) * 262144 + ((N_of_ascii a1) mod 64) * 4096
             + ((N_of_ascii a2) mod 64) * 64 + (N_of_ascii a3) mod 64)%N
            :: utf8_decode r3
        | _ => b :: utf8_decode r
        end
      else b :: utf8_decode r
  end.

(** [len(s)]: the number of characters. *)
Definition py_len (s : string) : nat := List.length (utf8_decode s).

(** [c.isspace()], the characters removed by [str.strip()]. *)
Definition py_isspace (c : N) : bool :=
  (((9 <=? c) && (c <=? 13)) || ((28 <=? c) && (c <=? 32))
   || (c =? 133) || (c =? 160) || (c =? 5760)
   || ((8192 <=? c) && (c <=? 8202))
   || (c =? 8232) || (c =? 8233) || (c =? 8239) || (c =? 8287)
   || (c =? 12288))%N.

Fixpoint lstrip (cs : list N) : list N :=
  match cs with
  | [] => []
  | c :: r => if py_isspace c then lstrip r else cs
  end.

(** [s.strip()], as a list of characters. *)
Definition py_strip (s : string) : list N :=
  rev (lstrip (rev (lstrip (utf8_decode s)))).

(** [not s.strip()]. *)
Definition strip_is_empty (s : string) : bool :=
  match py_strip s with [] => true | _ => false end.

(** [sub in s]. *)
Fixpoint py_in (sub s : string) : bool :=
  if String.prefix sub s then true
  else match s with
       | EmptyString => false
       | String _ r => py_in sub r
       end.

(** [s.lower()] restricted to ASCII letters.  It is used to test a file
    suffix and a URL against ASCII literals without the letter k; no
    character outside ASCII lower-cases to a letter of these literals, so
    the restriction does not change the tests. *)
Definition lower_ascii (a : ascii) : ascii :=
  let n := N_of_ascii a in
  if ((65 <=? n) && (n <=? 90))%N then ascii_of_N (n + 32) else a.

Fixpoint py_lower (s : string) : string :=
  match s with
  | EmptyString => EmptyString
  | String a r => String (lower_ascii a) (py_lower r)
  end.

(** [str(n)] for a natural number. *)
Definition str_of_nat (n : nat) : string :=
  NilEmpty.string_of_uint (Nat.to_uint n).

(** [any(p(x) for x in xs)] and membership in a list of strings. *)
Definition mem_string (s : string) (l : list string) : bool :=
  existsb (String.eqb s) l.

(* ------------------------------------------------------------------ *)
(** *** pathlib *)

(** Components of a POSIX path: split at [/], empty and [.] components
    dropped, as [pathlib.PurePosixPath] does. *)
Fixpoint split_slash (s : string) (cur : string) : list string :=
  match s with
  | EmptyString => [cur]
  | String a r =>
      if Ascii.eqb a "/"%char then cur :: split_slash r EmptyString
      else split_slash r (cur ++ String a EmptyString)
  end.

Definition path_parts (p : string) : list string :=
  filter (fun c => negb (String.eqb c EmptyString || String.eqb c "."))
         (split_slash p EmptyString).

(** [Path(p).name]. *)
Definition path_name (p : string) : string := last (path_parts p) EmptyString.

(** [name.rfind('.')], as [None] when there is no dot. *)
Fixpoint rfind_dot (s : string) (i : nat) (found : option nat) : option nat :=
  match s with
  | EmptyString => found
  | String a r =>
      rfind_dot r (S i) (if Ascii.eqb a "."%char then Some i else found)
  end.

Fixpoint str_drop (n : nat) (s : string) : string :=
  match n, s with
  | O, _ => s
  | S n', String _ r => str_drop n' r
  | S _, EmptyString => EmptyString
  end.

(** [Path(p).suffix]: with [i = name.rfind('.')], [name[i:]] when
    [0 < i < len(name) - 1], the empty string otherwise. *)
Definition path_suffix (p : string) : string :=
  let name := path_name p in
  match rfind_dot name 0 None with
  | Some i =>
      if ((0 <? i) && (S i <? String.length name))%nat
      then str_drop i name else EmptyString
  | None => EmptyString
  end.

(* ------------------------------------------------------------------ *)
(** *** JSON values: what [json.load] returns and [json.dump] accepts *)

Inductive json : Type :=
| JNull
| JBool (b : bool)
| JInt (z : Z)
| JFloat (repr : string)      (* a float, known by its [repr] *)
| JStr (s : string)
| JArr (l : list json)
| JObj (l : list (string * json)).

(** Exceptions.  Every exception of the model is an instance of Python's
    [Exception]; the handlers of the source tell apart Playwright's
    [TimeoutError], [asyncio.TimeoutError] and everything else. *)
Inductive exn_class := PlaywrightTimeout | AsyncioTimeout | OtherException.

Record exn := mkExn { exn_cls : exn_class; exn_msg : string }.

Definition Exception (msg : string) : exn := mkExn OtherException msg.

(** [str(e)]. *)
Definition str_of_exn (e : exn) : string := exn_msg e.

Inductive res (A : Type) : Type :=
| Ok (a : A)
| Err (e : exn).
Arguments Ok {A} a.
Arguments Err {A} e.

(** [len(v)]: defined on strings, lists and dicts, [TypeError] otherwise. *)
Definition json_len (v : json) : res nat :=
  match v with
  | JStr s => Ok (py_len s)
  | JArr l => Ok (List.length l)
  | JObj l => Ok (List.length l)
  | JNull => Err (Exception "object of type 'NoneType' has no len()")
  | JBool _ => Err (Exception "object of type 'bool' has no len()")
  | JInt _ => Err (Exception "object of type 'int' has no len()")
  | JFloat _ => Err (Exception "object of type 'float' has no len()")
  end.

(** Truth value of a JSON value in [if v:]. *)
Definition json_truthy (v : json) : bool :=
  match v with
  | JNull => false
  | JBool b => b
  | JInt z => negb (z =? 0)%Z
  | JFloat r => negb (String.eqb r "0.0" || String.eqb r "-0.0")
  | JStr s => negb (String.eqb s EmptyString)
  | JArr l => match l with [] => false | _ => true end
  | JObj l => match l with [] => false | _ => true end
  end.

(* ================================================================== *)
(** ** Calls to the collaborators *)

(** An element handle returned by the browser. *)
Definition elem := nat.

Inductive level := DEBUG | INFO | SUCCESS | WARNING | ERROR.

(** Everything a coroutine of the repository asks of the outside world. *)
Inductive call : Type :=
(* playwright: driver, browser, context *)
| PlaywrightStart                           (* async_playwright().__aenter__ *)
| PlaywrightStop                            (* async_playwright().__aexit__ *)
| Launch (headless : bool) (args : list string)
         (executable_path : option string)  (* chromium.launch *)
| NewContext (user_agent : string)          (* browser.new_context *)
| AddCookies (cookies : json)               (* context.add_cookies *)
| NewPage                                   (* context.new_page *)
| ContextCookies                            (* context.cookies *)
| PageClose                                 (* page.close *)
| ContextClose                              (* context.close *)
| BrowserClose                              (* browser.close *)
(* page *)
| Goto (url : string) (timeout : option Z)  (* page.goto *)
| WaitForLoadState (state : string)         (* page.wait_for_load_state *)
| QuerySelector (selector : string)         (* page.query_selector *)
| QuerySelectorAll (selector : string)      (* page.query_selector_all *)
| WaitForSelector (selector : string) (timeout : Z)
| PageContent                               (* page.content *)
| PageUrl                                   (* page.url *)
| PageTitle                                 (* page.title *)
(* element handles *)
| Click (el : elem)
| Fill (el : elem) (text : string)
| SetInputFiles (el : elem) (paths : list string)
| GetAttribute (el : elem) (name : string)
| TextContent (el : elem) (timeout_seconds : Z)
                                            (* wait_for(el.text_content()) *)
| ElemQuerySelector (el : elem) (selector : string)
(* asyncio *)
| Sleep (seconds : Z)                       (* asyncio.sleep *)
(* file system and json *)
| Stat (path : string)                      (* os.stat, under Path.exists
                                               and Path.is_file *)
| PathExists (path : string)                (* Path.exists *)
| PathIsFile (path : string)                (* Path.is_file *)
| OpenWrite (path : string)                 (* open(path, 'w') *)
| JsonDump (path : string) (v : json)       (* json.dump(v, f, indent=2, ...) *)
| OpenRead (path : string)                  (* open(path, 'r') *)
| JsonLoad (path : string)                  (* json.load(f) *)
| Unlink (path : string)                    (* Path.unlink *)
(* loguru *)
| Log (lvl : level) (msg : string).

(** The type of the value a call returns. *)
Definition ret (c : call) : Type :=
  match c with
  | ContextCookies => list json
  | QuerySelector _ | WaitForSelector _ _ | ElemQuerySelector _ _ => option elem
  | QuerySelectorAll _ => list elem
  | PageContent | PageUrl | PageTitle => string
  | GetAttribute _ _ | TextContent _ _ => option string
  | PathExists _ | PathIsFile _ => bool
  | JsonLoad _ => json
  | _ => unit
  end.

(** A coroutine: returns, raises, or performs a call and continues with
    its outcome. *)
Inductive prog (A : Type) : Type :=
| Ret (a : A)
| Raise (e : exn)
| Vis (c : call) (k : res (ret c) -> prog A).
Arguments Ret {A} a.
Arguments Raise {A} e.
Arguments Vis {A} c k.

(** [await c]: the value the call returns; its exception is raised here. *)
Definition perform_call (c : call) : prog (ret c) :=
  Vis c (fun r => match r with Ok v => Ret v | Err e => Raise e end).

Fixpoint bind {A B : Type} (p : prog A) (f : A -> prog B) : prog B :=
  match p with
  | Ret a => f a
  | Raise e => Raise e
  | Vis c k => Vis c (fun r => bind (k r) f)
  end.

(** [try: p  except Exception as e: h e]. *)
Fixpoint try_catch {A : Type} (p : prog A) (h : exn -> prog A) : prog A :=
  match p with
  | Ret a => Ret a
  | Raise e => h e
  | Vis c k => Vis c (fun r => try_catch (k r) h)
  end.

(** [try: p  finally: f].  An exception of [f] replaces the outcome of [p]. *)
Fixpoint try_finally {A : Type} (p : prog A) (f : prog unit) : prog A :=
  match p with
  | Ret a => bind f (fun _ => Ret a)
  | Raise e => bind f (fun _ => Raise e)
  | Vis c k => Vis c (fun r => try_finally (k r) f)
  end.

Declare Scope prog_scope.
Delimit Scope prog_scope with prog.
Notation "x <- p ;; q" := (bind p (fun x => q))
  (at level 61, p at next level, right associativity) : prog_scope.
Notation "p ;; q" := (bind p (fun _ => q))
  (at level 61, right associativity) : prog_scope.
Notation "'await' c" := (perform_call c) (at level 10) : prog_scope.
Open Scope prog_scope.

(** How a loop body or a [try] block inside a function ends: it falls
    through to the next statement, leaves the loop, or returns from the
    function. *)
Inductive ctl (R : Type) : Type :=
| Next
| Break
| Return (v : R).
Arguments Next {R}.
Arguments Break {R}.
Arguments Return {R} v.

(** [for x in xs: body x].  The loop itself ends with [Next] (exhausted or
    left by [break]) or with the [Return] of its body. *)
Fixpoint for_each {X R : Type} (xs : list X) (body : X -> prog (ctl R))
  : prog (ctl R) :=
  match xs with
  | [] => Ret Next
  | x :: xs' =>
      c <- body x ;;
      match c with
      | Next => for_each xs' body
      | Break => Ret Next
      | Return v => Ret (Return v)
      end
  end.

(** The statements after a block: skipped when the block returned. *)
Definition and_then {R : Type} (p : prog (ctl R)) (rest : prog R) : prog R :=
  c <- p ;;
  match c with
  | Return v => Ret v
  | _ => rest
  end.

Definition logger (lvl : level) (msg : string) : prog unit :=
  await (Log lvl msg).

Definition asyncio_sleep (seconds : Z) : prog unit := await (Sleep seconds).

(** Attribute access on the result of a lookup that may be [None]. *)
Definition attribute_of {A : Type} (o : option elem) (attr : string)
           (method : elem -> prog A) : prog A :=
  match o with
  | Some el => method el
  | None =>
      Raise (Exception ("'NoneType' object has no attribute '" ++ attr ++ "'"))
  end.

(** [Path(p).exists()] and [Path(p).is_file()] on a path given by the
    user: pathlib calls [os.stat] and answers from its result.  It turns
    the errors of a missing path (ENOENT, ENOTDIR, EBADF, ELOOP) into
    [False]; any other [OSError] of the [stat] (a name that is too long, a
    directory that may not be searched) is raised to the caller. *)
Definition path_exists (path : string) : prog bool :=
  await (Stat path) ;;
  await (PathExists path).

Definition path_is_file (path : string) : prog bool :=
  await (Stat path) ;;
  await (PathIsFile path).

(* ================================================================== *)
(** ** The world the calls run in *)

Inductive node :=
| RegularFile (content : string)
| Directory.

Definition fs := string -> option node.

Definition fs_set (f : fs) (path : string) (n : option node) : fs :=
  fun p => if String.eqb p path then n else f p.

(** The world: the files, the calls performed so far (oldest first) and the
    log records written so far. *)
Record world := mkWorld {
  files : fs;
  calls : list call;
  logs : list (level * string)
}.

(** The environment: how the collaborators answer.
    - [browser h c]: the answer of the browser engine to [c] after the calls
      [h];
    - [io_fault h c]: the operating-system error, if any, that the file
      operation [c] meets after the calls [h];
    - [json_dumps v]: the text [json.dump] writes for [v] and the exception
      it then raises, if any;  [json_loads s]: what [json.load] makes of
      [s]. *)
Record env := mkEnv {
  browser : list call -> forall c : call, res (ret c);
  io_fault : list call -> call -> option exn;
  json_dumps : json -> string * option exn;
  json_loads : string -> res json
}.

Definition record (c : call) (w : world) : world :=
  mkWorld (files w) (calls w ++ [c]) (logs w).

Definition with_files (f : fs) (w : world) : world :=
  mkWorld f (calls w) (logs w).

Definition add_log (lvl : level) (msg : string) (w : world) : world :=
  mkWorld (files w) (calls w) (logs w ++ [(lvl, msg)]).

Definition fault_or {A : Type} (E : env) (c : call) (w : world)
           (k : res A * world) : res A * world :=
  match io_fault E (calls w) c with
  | Some e => (Err e, record c w)
  | None => k
  end.

(** The calls answered by the model itself: logging, sleeping and the file
    system.  [None] for the calls that go to the browser. *)
Definition local_effect (E : env) (c : call) (w : world)
  : option (res (ret c) * world) :=
  match c as c0 return option (res (ret c0) * world) with
  | Log lvl msg => Some (Ok tt, add_log lvl msg w)
  | Sleep s => Some (Ok tt, record (Sleep s) w)
  | Stat p => Some (fault_or E (Stat p) w (Ok tt, record (Stat p) w))
  | PathExists p =>
      Some (Ok (match files w p with Some _ => true | None => false end),
            record (PathExists p) w)
  | PathIsFile p =>
      Some (Ok (match files w p with
                | Some (RegularFile _) => true
                | _ => false
                end),
            record (PathIsFile p) w)
  | OpenWrite p =>
      Some (fault_or E (OpenWrite p) w
        match files w p with
        | Some Directory =>
            (Err (Exception ("[Errno 21] Is a directory: '" ++ p ++ "'")),
             record (OpenWrite p) w)
        | _ =>
            (Ok tt,
             record (OpenWrite p) (with_files (fs_set (files w) p
                                     (Some (RegularFile EmptyString))) w))
        end)
  | JsonDump p v =>
      Some (fault_or E (JsonDump p v) w
        match files w p with
        | Some (RegularFile old) =>
            let '(text, raised) := json_dumps E v in
            (match raised with Some e => Err e | None => Ok tt end,
             record (JsonDump p v)
                    (with_files (fs_set (files w) p
                                   (Some (RegularFile (old ++ text)))) w))
        | _ =>
            (Err (Exception "I/O operation on closed file."),
             record (JsonDump p v) w)
        end)
  | OpenRead p =>
      Some (fault_or E (OpenRead p) w
        match files w p with
        | Some (RegularFile _) => (Ok tt, record (OpenRead p) w)
        | Some Directory =>
            (Err (Exception ("[Errno 21] Is a directory: '" ++ p ++ "'")),
             record (OpenRead p) w)
        | None =>
            (Err (Exception ("[Errno 2] No such file or directory: '"
                             ++ p ++ "'")),
             record (OpenRead p) w)
        end)
  | JsonLoad p =>
      Some (fault_or E (JsonLoad p) w
        match files w p with
        | Some (RegularFile s) => (json_loads E s, record (JsonLoad p) w)
        | _ =>
            (Err (Exception "I/O operation on closed file."),
             record (JsonLoad p) w)
        end)
  | Unlink p =>
      Some (fault_or E (Unlink p) w
        match files w p with
        | Some (RegularFile _) =>
            (Ok tt, record (Unlink p) (with_files (fs_set (files w) p None) w))
        | Some Directory =>
            (Err (Exception ("[Errno 21] Is a directory: '" ++ p ++ "'")),
             record (Unlink p) w)
        | None =>
            (Err (Exception ("[Errno 2] No such file or directory: '"
                             ++ p ++ "'")),
             record (Unlink p) w)
        end)
  | _ => None
  end.

(** One call: answered by the model or by the browser oracle. *)
Definition perform (E : env) (c : call) (w : world) : res (ret c) * world :=
  match local_effect E c w with
  | Some rw => rw
  | None => (browser E (calls w) c, record c w)
  end.

(** Running a coroutine to its end. *)
Fixpoint run {A : Type} (E : env) (p : prog A) (w : world) : res A * world :=
  match p with
  | Ret a => (Ok a, w)
  | Raise e => (Err e, w)
  | Vis c k => let '(r, w') := perform E c w in run E (k r) w'
  end.

(** A value already computed, or the exception its computation raised. *)
Definition lift_res {A : Type} (r : res A) : prog A :=
  match r with Ok a => Ret a | Err e => Raise e end.

(** The page handle the session scope yields. *)
Inductive Page : Type := ThePage.

(* ================================================================== *)
(** ** browser/cookies.py *)

Module CookieManager.

Record t := mk { cookie_file : string }.

(** [CookieManager()]: the store on the default file, with [~] for
    [Path.home()], once its constructor returned.  The constructor also
    creates the parent directory, which the file system of the model does
    not represent: a constructor that raises is outside the model.

    The store tests its own file with [Path.exists] inside the [try] of
    each method: an error of the [stat] under that test would end in the
    handler of the method, like an error of the read or of the removal.
    The model has no such error for the store's own file; it has one for
    the image paths, which the user gives (see [path_exists]). *)
Definition default : t := mk "~/.xiaohongshu_mcp/cookies.json".

(** [save_cookies]: the failure is logged and raised again. *)
Definition save_cookies (self : t) (cookies : list json) : prog unit :=
  try_catch
    (await (OpenWrite (cookie_file self)) ;;
     await (JsonDump (cookie_file self) (JArr cookies)) ;;
     logger INFO ("Cookies已保存到: " ++ cookie_file self))
    (fun e =>
       logger ERROR ("保存cookies失败: " ++ str_of_exn e) ;;
       Raise e).

(** [with open(self.cookie_file, 'r') as f: json.load(f)]. *)
Definition read_cookie_file (self : t) : prog json :=
  await (OpenRead (cookie_file self)) ;;
  await (JsonLoad (cookie_file self)).

Definition load_cookies (self : t) : prog json :=
  try_catch
    (present <- await (PathExists (cookie_file self)) ;;
     if negb present then
       logger WARNING ("Cookie文件不存在: " ++ cookie_file self) ;;
       Ret (JArr [])
     else
       cookies <- read_cookie_file self ;;
       n <- lift_res (json_len cookies) ;;
       logger INFO ("成功加载 " ++ str_of_nat n ++ " 个cookies") ;;
       Ret cookies)
    (fun e =>
       logger ERROR ("加载cookies失败: " ++ str_of_exn e) ;;
       Ret (JArr [])).

Definition clear_cookies (self : t) : prog unit :=
  try_catch
    (present <- await (PathExists (cookie_file self)) ;;
     if present then
       await (Unlink (cookie_file self)) ;;
       logger INFO "Cookies已清除"
     else Ret tt)
    (fun e => logger ERROR ("清除cookies失败: " ++ str_of_exn e)).

End CookieManager.

(* ================================================================== *)
(** ** browser/driver.py *)

Module BrowserManager.

Record t := mk {
  headless : bool;
  chrome_path : option string;
  cookie_manager : CookieManager.t
}.

Definition launch_args : list string :=
  ["--no-sandbox"; "--disable-setuid-sandbox"; "--disable-dev-shm-usage";
   "--disable-blink-features=AutomationControlled"].

Definition user_agent : string :=
  "Mozilla/5.0 (Macintosh; Intel Mac OS X 10_15_7) " ++
  "AppleWebKit/537.36 (KHTML, like Gecko) " ++
  "Chrome/120.0.0.0 Safari/537.36".

(** [BrowserManager(headless, chrome_path)], once its constructor returned:
    the constructor builds the cookie store and with it creates the
    directory of the cookie file.  The callers are modelled from the
    built manager on; what they do when the constructor raises is not
    represented. *)
Definition new (headless : bool) (chrome_path : option string) : t :=
  mk headless chrome_path CookieManager.default.

(** [if self.chrome_path: launch_options["executable_path"] = ...] *)
Definition executable_path (self : t) : option string :=
  match chrome_path self with
  | Some p => if String.eqb p EmptyString then None else Some p
  | None => None
  end.

(** The statements of [get_page] between the launch and the [yield]: the
    context, the stored cookies, the page. *)
Definition open_context (self : t) : prog unit :=
  await (NewContext user_agent) ;;
  cookies <- CookieManager.load_cookies (cookie_manager self) ;;
  (if json_truthy cookies then
     await (AddCookies cookies) ;;
     n <- lift_res (json_len cookies) ;;
     logger INFO ("已加载 " ++ str_of_nat n ++ " 个cookies")
   else Ret tt) ;;
  await NewPage.

(** Everything [get_page] does before the [yield]: the scope is entered
    when this returns. *)
Definition session_entry (self : t) : prog unit :=
  await PlaywrightStart ;;
  await (Launch (headless self) launch_args (executable_path self)) ;;
  open_context self.

(** [if current_cookies: self.cookie_manager.save_cookies(...)]. *)
Definition save_if_any (self : t) (current_cookies : list json) : prog unit :=
  match current_cookies with
  | [] => Ret tt
  | _ :: _ =>
      CookieManager.save_cookies (cookie_manager self) current_cookies
  end.

(** The inner [finally] block of [get_page]. *)
Definition save_and_close (self : t) : prog unit :=
  current_cookies <- await ContextCookies ;;
  save_if_any self current_cookies ;;
  await PageClose ;;
  await ContextClose.

(** [async with self.get_page() as page: body page]. *)
Definition get_page {A : Type} (self : t) (body : Page -> prog A)
  : prog A :=
  await PlaywrightStart ;;
  try_finally
    (await (Launch (headless self) launch_args (executable_path self)) ;;
     try_finally
       (open_context self ;;
        try_finally (body ThePage) (save_and_close self))
       (await BrowserClose))
    (await PlaywrightStop).

Definition save_current_cookies (self : t) (page : Page) : prog unit :=
  cookies <- await ContextCookies ;;
  match cookies with
  | [] => Ret tt
  | _ :: _ =>
      CookieManager.save_cookies (cookie_manager self) cookies ;;
      logger INFO ("手动保存了 " ++ str_of_nat (List.length cookies)
                   ++ " 个cookies")
  end.

End BrowserManager.

(* ================================================================== *)
(** ** xiaohongshu/login.py *)

Module XiaohongshuLogin.

Record t := mk {
  page : Page;
  base_url : string;
  login_indicator : string
}.

Definition new (page : Page) : t :=
  mk page "https://www.xiaohongshu.com/explore"
     ".main-container .user .link-wrapper .channel".

Definition user_indicators : list string :=
  [".user-avatar"; "[class*='user']"; "[class*='avatar']"; ".header-user";
   "[data-testid*='user']"].

Definition login_keywords : list string :=
  ["个人主页"; "我的"; "设置"; "退出登录"; "发布"; "创作中心"].

(** Method 1: the primary indicator. *)
Definition check_primary (self : t) : prog (ctl bool) :=
  try_catch
    (login_element <- await (QuerySelector (login_indicator self)) ;;
     match login_element with
     | Some _ =>
         logger INFO "✅ 通过主要指示器检测到已登录状态" ;;
         Ret (Return true)
     | None => Ret Next
     end)
    (fun e =>
       logger DEBUG ("主要指示器检查失败: " ++ str_of_exn e) ;;
       Ret Next).

(** Method 2: the user and avatar selectors, in order. *)
Definition check_user_indicators : prog (ctl bool) :=
  for_each user_indicators (fun indicator =>
    try_catch
      (element <- await (QuerySelector indicator) ;;
       match element with
       | Some _ =>
           logger INFO ("✅ 通过用户指示器 " ++ indicator
                        ++ " 检测到已登录状态") ;;
           Ret (Return true)
       | None => Ret Next
       end)
      (fun _ => Ret Next)).

(** Method 3: keywords in the page markup. *)
Definition check_content : prog (ctl bool) :=
  try_catch
    (content <- await PageContent ;;
     if existsb (fun keyword => py_in keyword content) login_keywords then
       logger INFO "✅ 通过页面内容检测到已登录状态" ;;
       Ret (Return true)
     else Ret Next)
    (fun e =>
       logger DEBUG ("页面内容检查失败: " ++ str_of_exn e) ;;
       Ret Next).

(** Method 4: the URL of a login page. *)
Definition check_url : prog (ctl bool) :=
  try_catch
    (current_url <- await PageUrl ;;
     if py_in "login" (py_lower current_url)
        || py_in "signin" (py_lower current_url) then
       logger INFO "❌ 页面重定向到登录页，确认未登录" ;;
       Ret (Return false)
     else Ret Next)
    (fun _ => Ret Next).

Definition _check_login_with_multiple_methods (self : t) : prog bool :=
  and_then (check_primary self)
 (and_then check_user_indicators
 (and_then check_content
 (and_then check_url
    (logger INFO "❌ 所有方法都未检测到登录状态" ;;
     Ret false)))).

Definition check_login_status (self : t) : prog bool :=
  try_catch
    (logger INFO "正在检查登录状态..." ;;
     await (Goto (base_url self) (Some 15000%Z)) ;;
     await (WaitForLoadState "domcontentloaded") ;;
     asyncio_sleep 2 ;;
     _check_login_with_multiple_methods self)
    (fun e =>
       logger ERROR ("检查登录状态时出错: " ++ str_of_exn e) ;;
       Ret false).

Definition login (self : t) : prog bool :=
  try_catch
    (logger INFO "开始登录流程..." ;;
     await (Goto (base_url self) None) ;;
     await (WaitForLoadState "networkidle") ;;
     asyncio_sleep 2 ;;
     logged_in <- check_login_status self ;;
     if logged_in then
       logger INFO "已经处于登录状态，无需重新登录" ;;
       Ret true
     else
       logger INFO "等待用户扫码登录..." ;;
       logger INFO "请在浏览器中扫描二维码完成登录" ;;
       try_catch
         (await (WaitForSelector (login_indicator self) 300000) ;;
          logger SUCCESS "🎉 检测到登录成功！正在保存登录状态..." ;;
          Ret true)
         (fun e =>
            match exn_cls e with
            | PlaywrightTimeout =>
                logger ERROR "❌ 登录超时，请检查是否完成扫码" ;;
                Ret false
            | _ => Raise e
            end))
    (fun e =>
       logger ERROR ("登录过程中出错: " ++ str_of_exn e) ;;
       Ret false).

Definition logout (self : t) : prog bool :=
  try_catch
    (logger INFO "开始登出流程..." ;;
     Ret true)
    (fun e =>
       logger ERROR ("登出时出错: " ++ str_of_exn e) ;;
       Ret false).

End XiaohongshuLogin.

(** [enumerate(xs)]. *)
Definition enumerate {X : Type} (xs : list X) : list (nat * X) :=
  combine (seq 0 (List.length xs)) xs.

(** A value that may be [None], inside an f-string. *)
Definition str_of_opt (o : option string) : string :=
  match o with Some s => s | None => "None" end.

(** [all(g)] where [g] is a generator expression with an [await] inside.
    Such an expression is an asynchronous generator; [all] asks for an
    iterable and raises [TypeError] before any element is computed. *)
Definition all_of_async_generator : prog bool :=
  Raise (Exception "'async_generator' object is not iterable").

(* ================================================================== *)
(** ** xiaohongshu/publish.py *)

Module XiaohongshuPublish.

Record t := mk {
  page : Page;
  publish_url : string
}.

Definition new (page : Page) : t :=
  mk page "https://creator.xiaohongshu.com/publish/publish?source=official".

Definition _validate_images (image_paths : list string) : prog bool :=
  match image_paths with
  | [] =>
      logger ERROR "图片列表不能为空" ;;
      Ret false
  | _ :: _ =>
      and_then
        (for_each image_paths (fun path =>
           present <- path_exists path ;;
           if negb present then
             logger ERROR ("图片文件不存在: " ++ path) ;;
             Ret (Return false)
           else
             regular <- path_is_file path ;;
             if negb regular then
               logger ERROR ("路径不是文件: " ++ path) ;;
               Ret (Return false)
             else Ret Next))
        (logger INFO ("验证通过，共 "
                      ++ str_of_nat (List.length image_paths)
                      ++ " 个图片文件") ;;
         Ret true)
  end.

Definition specific_selectors : list string :=
  ["[data-value='image']"; "[class*='image']";
   "div.creator-tab:nth-child(2)"].

Definition _click_upload_tab : prog unit :=
  try_catch
    (logger INFO "查找上传图文选项卡..." ;;
     and_then
       (for_each specific_selectors (fun selector =>
          try_catch
            (element <- await (QuerySelector selector) ;;
             match element with
             | Some el =>
                 await (Click el) ;;
                 logger INFO ("✅ 通过选择器 " ++ selector
                              ++ " 成功点击选项卡") ;;
                 asyncio_sleep 1 ;;
                 Ret (Return tt)
             | None => Ret Next
             end)
            (fun _ => Ret Next)))
       (tab_elements <- await (QuerySelectorAll "div.creator-tab") ;;
        logger INFO ("找到 " ++ str_of_nat (List.length tab_elements)
                     ++ " 个选项卡元素") ;;
        and_then
          (for_each (enumerate tab_elements) (fun '(i, element) =>
             try_catch
               (logger DEBUG ("检查选项卡 " ++ str_of_nat (i + 1)
                              ++ "...") ;;
                text <- await (TextContent element 1) ;;
                match text with
                | Some txt =>
                    if negb (String.eqb txt EmptyString) && py_in "上传图文" txt
                    then
                      logger INFO ("✅ 找到并点击上传图文选项卡 (#"
                                   ++ str_of_nat (i + 1) ++ ")") ;;
                      await (Click element) ;;
                      asyncio_sleep 1 ;;
                      Ret (Return tt)
                    else Ret Next
                | None => Ret Next
                end)
               (fun e =>
                  match exn_cls e with
                  | AsyncioTimeout =>
                      logger DEBUG ("选项卡 " ++ str_of_nat (i + 1)
                                    ++ " 超时，跳过") ;;
                      Ret Next
                  | _ =>
                      logger DEBUG ("选项卡 " ++ str_of_nat (i + 1)
                                    ++ " 错误: " ++ str_of_exn e) ;;
                      Ret Next
                  end)))
          (logger INFO "未找到上传图文选项卡，可能已经在正确页面")))
    (fun e =>
       logger WARNING ("点击选项卡时出错: " ++ str_of_exn e
                       ++ "，继续执行")).

Definition _navigate_to_publish_page (self : t) : prog unit :=
  logger INFO "导航到小红书发布页面..." ;;
  await (Goto (publish_url self) (Some 60000%Z)) ;;
  await (WaitForLoadState "domcontentloaded") ;;
  logger INFO "等待上传区域出现..." ;;
  try_catch
    (await (WaitForSelector "div.upload-content" 15000) ;;
     logger INFO "✅ upload-content 元素已出现")
    (fun e =>
       match exn_cls e with
       | PlaywrightTimeout =>
           Raise (Exception
             "upload-content 元素等待超时，发布页面可能未正确加载")
       | _ => Raise e
       end) ;;
  asyncio_sleep 1 ;;
  _click_upload_tab ;;
  asyncio_sleep 1.

Definition edit_indicators : list string :=
  ["div.d-input input"; ".d-input input"; "input[placeholder*='标题']";
   "textarea"; ".ql-editor"; "[contenteditable='true']"; ".publish-form";
   ".edit-content"].

Definition _wait_for_upload_complete : prog unit :=
  logger INFO "等待图片上传完成并进入编辑界面..." ;;
  asyncio_sleep 3 ;;
  and_then
    (for_each (seq 0 15) (fun attempt =>
       logger INFO ("检查编辑界面是否就绪... (尝试 "
                    ++ str_of_nat (attempt + 1) ++ "/15)") ;;
       found <- for_each edit_indicators (fun indicator =>
         try_catch
           (element <- await (QuerySelector indicator) ;;
            match element with
            | Some _ =>
                logger INFO ("✅ 检测到编辑界面元素: " ++ indicator) ;;
                logger INFO "✅ 图片上传完成，编辑界面已就绪" ;;
                Ret (Return tt)
            | None => Ret Next
            end)
           (fun _ => Ret Next)) ;;
       match found with
       | Return v => Ret (Return v)
       | _ =>
           inputs <- await (QuerySelectorAll "input") ;;
           file_inputs_only <- all_of_async_generator ;;
           if negb file_inputs_only then
             logger INFO "✅ 页面已离开纯上传状态" ;;
             Ret Break
           else
             asyncio_sleep 1 ;;
             Ret Next
       end))
    (logger INFO "✅ 等待上传完成阶段结束，继续执行...").

Definition _upload_images (image_paths : list string) : prog unit :=
  logger INFO ("开始上传 " ++ str_of_nat (List.length image_paths)
               ++ " 个图片...") ;;
  try_catch
    (logger INFO "等待上传输入框出现..." ;;
     upload_input <- await (WaitForSelector ".upload-input" 10000) ;;
     logger INFO "✅ 找到上传输入框" ;;
     attribute_of upload_input "set_input_files"
       (fun el => await (SetInputFiles el image_paths)) ;;
     logger INFO ("✅ 已设置 " ++ str_of_nat (List.length image_paths)
                  ++ " 个文件进行上传") ;;
     _wait_for_upload_complete)
    (fun e =>
       match exn_cls e with
       | PlaywrightTimeout =>
           Raise (Exception "等待上传输入框超时，请检查页面是否正确加载")
       | _ => Raise (Exception ("上传图片失败: " ++ str_of_exn e))
       end).

Definition title_selectors : list string :=
  ["div.d-input input"; ".d-input input"; "input[placeholder*='标题']";
   "input[placeholder*='title']"; ".title-input"; "[class*='title'] input";
   "textarea[placeholder*='标题']"; "input[type='text']"].

Definition _fill_title (title : string) : prog unit :=
  try_catch
    (current_url <- await PageUrl ;;
     page_title <- await PageTitle ;;
     logger INFO ("当前页面URL: " ++ current_url) ;;
     logger INFO ("当前页面标题: " ++ page_title) ;;
     (* the loop leaves [title_input] set when it breaks *)
     title_input <- for_each (enumerate title_selectors)
       (fun '(i, selector) =>
          try_catch
            (logger INFO ("尝试标题选择器 " ++ str_of_nat (i + 1) ++ "/"
                          ++ str_of_nat (List.length title_selectors)
                          ++ ": " ++ selector) ;;
             title_input <- await (WaitForSelector selector 3000) ;;
             match title_input with
             | Some el =>
                 logger INFO ("✅ 找到标题输入框: " ++ selector) ;;
                 Ret (Return el)
             | None => Ret Next
             end)
            (fun e =>
               match exn_cls e with
               | PlaywrightTimeout =>
                   logger DEBUG ("选择器 " ++ selector ++ " 未找到") ;;
                   Ret Next
               | _ => Raise e
               end)) ;;
     match title_input with
     | Return el =>
         await (Fill el title) ;;
         logger INFO ("✅ 标题填写完成: " ++ title) ;;
         asyncio_sleep 1
     | _ =>
         logger WARNING
           "未找到标题输入框，查找页面中的所有input元素..." ;;
         inputs <- await (QuerySelectorAll "input") ;;
         logger INFO ("页面中共有 " ++ str_of_nat (List.length inputs)
                      ++ " 个input元素") ;;
         for_each (R := unit) (enumerate inputs) (fun '(i, input_elem) =>
           try_catch
             (placeholder <- await (GetAttribute input_elem "placeholder") ;;
              class_name <- await (GetAttribute input_elem "class") ;;
              input_type <- await (GetAttribute input_elem "type") ;;
              logger INFO ("Input " ++ str_of_nat (i + 1) ++ ": type="
                           ++ str_of_opt input_type ++ ", placeholder='"
                           ++ str_of_opt placeholder ++ "', class='"
                           ++ str_of_opt class_name ++ "'") ;;
              Ret Next)
             (fun _ => Ret Next)) ;;
         Raise (Exception "所有标题选择器都未找到")
     end)
    (fun e => Raise (Exception ("填写标题失败: " ++ str_of_exn e))).

(** The inner loop of [_find_textbox_by_placeholder]: up to [n] steps
    from [current] to its ancestors. *)
Fixpoint walk_up (n : nat) (current : elem) : prog (ctl (option elem)) :=
  match n with
  | O => Ret Next
  | S n' =>
      parent <- await (ElemQuerySelector current "xpath=..") ;;
      match parent with
      | None => Ret Next
      | Some par =>
          role <- await (GetAttribute par "role") ;;
          match role with
          | Some r =>
              if String.eqb r "textbox" then Ret (Return (Some par))
              else walk_up n' par
          | None => walk_up n' par
          end
      end
  end.

Definition _find_textbox_by_placeholder : prog (option elem) :=
  try_catch
    (p_elements <- await (QuerySelectorAll "p") ;;
     and_then
       (for_each p_elements (fun element =>
          placeholder <- await (GetAttribute element "data-placeholder") ;;
          match placeholder with
          | Some ph =>
              if negb (String.eqb ph EmptyString) && py_in "输入正文描述" ph
              then walk_up 5 element
              else Ret Next
          | None => Ret Next
          end))
       (Ret None))
    (fun _ => Ret None).

Definition _find_content_element : prog (option elem) :=
  try_catch
    (and_then
       (try_catch
          (element <- await (WaitForSelector "div.ql-editor" 3000) ;;
           match element with
           | Some el =>
               logger DEBUG "使用ql-editor方式找到内容输入框" ;;
               Ret (Return (Some el))
           | None => Ret Next
           end)
          (fun _ => Ret Next))
    (and_then
       (try_catch
          (element <- _find_textbox_by_placeholder ;;
           match element with
           | Some el =>
               logger DEBUG "使用placeholder方式找到内容输入框" ;;
               Ret (Return (Some el))
           | None => Ret Next
           end)
          (fun _ => Ret Next))
    (and_then
       (try_catch
          (element <- await (WaitForSelector "textarea" 3000) ;;
           match element with
           | Some el =>
               logger DEBUG "使用textarea方式找到内容输入框" ;;
               Ret (Return (Some el))
           | None => Ret Next
           end)
          (fun _ => Ret Next))
       (logger ERROR "所有方式都未找到内容输入框" ;;
        Ret None))))
    (fun e =>
       logger ERROR ("查找内容输入框时出错: " ++ str_of_exn e) ;;
       Ret None).

Definition _fill_description (content : string) : prog unit :=
  try_catch
    (content_element <- _find_content_element ;;
     match content_element with
     | Some el =>
         await (Fill el content) ;;
         logger INFO "✅ 正文内容填写完成" ;;
         asyncio_sleep 1
     | None => Raise (Exception "未找到内容输入框")
     end)
    (fun e => Raise (Exception ("填写正文失败: " ++ str_of_exn e))).

Definition _fill_content (title content : string) : prog unit :=
  logger INFO "填写标题和内容..." ;;
  try_catch
    (_fill_title title ;;
     _fill_description content)
    (fun e => Raise (Exception ("填写内容失败: " ++ str_of_exn e))).

Definition submit_selector : string := "div.submit div.d-button-content".

Definition _submit_publish : prog unit :=
  logger INFO "提交发布..." ;;
  try_catch
    (asyncio_sleep 1 ;;
     logger INFO "等待提交按钮..." ;;
     submit_button <- await (WaitForSelector submit_selector 10000) ;;
     logger INFO "✅ 找到提交按钮" ;;
     attribute_of submit_button "click" (fun el => await (Click el)) ;;
     logger INFO "✅ 已点击发布按钮" ;;
     asyncio_sleep 3 ;;
     logger INFO "✅ 发布请求已提交")
    (fun e =>
       match exn_cls e with
       | PlaywrightTimeout => Raise (Exception "等待提交按钮超时")
       | _ => Raise (Exception ("提交发布失败: " ++ str_of_exn e))
       end).

Definition publish_content (self : t) (title content : string)
           (image_paths : list string) : prog bool :=
  try_catch
    (logger INFO "开始发布内容..." ;;
     valid <- _validate_images image_paths ;;
     if negb valid then Ret false
     else
       _navigate_to_publish_page self ;;
       _upload_images image_paths ;;
       _fill_content title content ;;
       _submit_publish ;;
       logger SUCCESS "🎉 内容发布成功！" ;;
       Ret true)
    (fun e =>
       logger ERROR ("发布内容时出错: " ++ str_of_exn e) ;;
       Ret false).

End XiaohongshuPublish.

(* ================================================================== *)
(** ** publish.py: the command-line caller *)

Module Cli.

(** The parsed command line. *)
Record args := mkArgs {
  title : string;
  content : string;
  images : list string;
  chrome_path : option string;
  headless : bool;
  dry_run : bool
}.

Definition image_suffixes : list string :=
  [".jpg"; ".jpeg"; ".png"; ".gif"; ".webp"].

Definition validate_args (a : args) : prog bool :=
  logger INFO "验证发布参数..." ;;
  if strip_is_empty (title a) then
    logger ERROR "标题不能为空" ;;
    Ret false
  else if (40 <? py_len (title a))%nat then
    logger ERROR "标题长度不能超过40个字符" ;;
    Ret false
  else if strip_is_empty (content a) then
    logger ERROR "正文内容不能为空" ;;
    Ret false
  else
    match images a with
    | [] =>
        logger ERROR "必须提供至少一个图片" ;;
        Ret false
    | _ :: _ =>
        and_then
          (for_each (images a) (fun image_path =>
             present <- path_exists image_path ;;
             if negb present then
               logger ERROR ("图片文件不存在: " ++ image_path) ;;
               Ret (Return false)
             else
               regular <- path_is_file image_path ;;
               if negb regular then
                 logger ERROR ("路径不是文件: " ++ image_path) ;;
                 Ret (Return false)
               else if negb (mem_string (py_lower (path_suffix image_path))
                                        image_suffixes) then
                 logger ERROR ("不支持的图片格式: " ++ image_path) ;;
                 Ret (Return false)
               else Ret Next))
          (logger INFO "✅ 参数验证通过" ;;
           Ret true)
    end.

(** [logger.info(f"内容: {content[:50]}..." if len(content) > 50 else ...)]:
    the first 50 characters are cut on the encoding at a character
    boundary. *)
Fixpoint take_chars (n : nat) (s : string) : string :=
  match n with
  | O => EmptyString
  | S n' =>
      match s with
      | EmptyString => EmptyString
      | String a r =>
          let b := N_of_ascii a in
          let width :=
            if (b <? 128)%N then 1
            else if ((192 <=? b) && (b <? 224))%N then 2
            else if ((224 <=? b) && (b <? 240))%N then 3
            else if (240 <=? b)%N then 4 else 1 in
          substring 0 width s ++ take_chars n' (str_drop width s)
      end
  end.

Definition content_preview (content : string) : string :=
  if (50 <? py_len content)%nat
  then "内容: " ++ take_chars 50 content ++ "..."
  else "内容: " ++ content.

(** [main_async], as the exit status of the process: [sys.exit(n)] ends
    the coroutine with status [n] after the enclosing [finally] blocks,
    and is not caught by [except Exception].  The list of the image paths
    is logged as Python prints a list of strings that need no escape. *)
Definition main_async (a : args) : prog Z :=
  valid <- validate_args a ;;
  if negb valid then Ret 1%Z
  else if dry_run a then
    logger INFO "✅ 参数验证通过（预检模式）" ;;
    Ret 0%Z
  else
    (if negb (headless a)
     then logger INFO "使用有界面模式，便于观察发布过程"
     else Ret tt) ;;
    let browser_manager :=
      BrowserManager.new (headless a) (chrome_path a) in
    try_catch
      (BrowserManager.get_page browser_manager (fun page =>
         let login_handler := XiaohongshuLogin.new page in
         is_logged_in <- XiaohongshuLogin.check_login_status login_handler ;;
         if negb is_logged_in then
           logger ERROR "❌ 未登录，请先运行: uv run xiaohongshu-login" ;;
           Ret 1%Z
         else
           logger SUCCESS "✅ 登录状态正常" ;;
           let publish_handler := XiaohongshuPublish.new page in
           logger INFO "开始发布内容..." ;;
           logger INFO ("标题: " ++ title a) ;;
           logger INFO (content_preview (content a)) ;;
           logger INFO ("图片: ['" ++ String.concat "', '" (images a)
                        ++ "']") ;;
           success <- XiaohongshuPublish.publish_content publish_handler
                        (title a) (content a) (images a) ;;
           if success then
             logger SUCCESS "🎉 发布成功！" ;;
             Ret 0%Z
           else
             logger ERROR "❌ 发布失败" ;;
             Ret 1%Z))
      (fun e =>
         logger ERROR ("发布过程中发生错误: " ++ str_of_exn e) ;;
         Ret 1%Z).

End Cli.

(* ================================================================== *)
(** ** server.py: the tool caller *)

Module Server.

Definition browser_manager (headless : bool) (chrome_path : option string)
  : BrowserManager.t :=
  BrowserManager.new headless chrome_path.

Definition xiaohongshu_login (headless : bool)
           (chrome_path : option string) : prog string :=
  try_catch
    (logger INFO "开始小红书登录流程..." ;;
     BrowserManager.get_page (browser_manager headless chrome_path)
       (fun page =>
          let login_handler := XiaohongshuLogin.new page in
          success <- XiaohongshuLogin.login login_handler ;;
          if success then
            logger SUCCESS "🎉 登录成功！" ;;
            Ret "✅ 小红书登录成功"
          else
            logger ERROR "❌ 登录失败" ;;
            Ret "❌ 小红书登录失败"))
    (fun e =>
       let error_msg := "登录过程中发生错误: " ++ str_of_exn e in
       logger ERROR error_msg ;;
       Ret ("❌ " ++ error_msg)).

Definition xiaohongshu_check_status (headless : bool)
           (chrome_path : option string) : prog string :=
  try_catch
    (logger INFO "检查小红书登录状态..." ;;
     BrowserManager.get_page (browser_manager headless chrome_path)
       (fun page =>
          let login_handler := XiaohongshuLogin.new page in
          is_logged_in <-
            XiaohongshuLogin.check_login_status login_handler ;;
          if is_logged_in then
            logger SUCCESS "✅ 已登录" ;;
            Ret "✅ 小红书已登录"
          else
            logger INFO "❌ 未登录" ;;
            Ret "❌ 小红书未登录，请先执行登录操作"))
    (fun e =>
       let error_msg := "检查登录状态时发生错误: " ++ str_of_exn e in
       logger ERROR error_msg ;;
       Ret ("❌ " ++ error_msg)).

Definition xiaohongshu_publish (title content : string)
           (image_paths : list string) (headless : bool)
           (chrome_path : option string) : prog string :=
  try_catch
    (if strip_is_empty title then Ret "❌ 标题不能为空"
     else if (40 <? py_len title)%nat then
       Ret "❌ 标题长度不能超过40个字符"
     else if strip_is_empty content then Ret "❌ 正文内容不能为空"
     else
       match image_paths with
       | [] => Ret "❌ 必须提供至少一个图片"
       | _ :: _ =>
           logger INFO "开始发布小红书内容..." ;;
           logger INFO ("标题: " ++ title) ;;
           logger INFO (Cli.content_preview content) ;;
           logger INFO ("图片: ['" ++ String.concat "', '" image_paths
                        ++ "']") ;;
           BrowserManager.get_page (browser_manager headless chrome_path)
             (fun page =>
                let login_handler := XiaohongshuLogin.new page in
                is_logged_in <-
                  XiaohongshuLogin.check_login_status login_handler ;;
                if negb is_logged_in then
                  Ret "❌ 未登录，请先执行登录操作"
                else
                  let publish_handler := XiaohongshuPublish.new page in
                  success <-
                    XiaohongshuPublish.publish_content publish_handler
                      title content image_paths ;;
                  if success then
                    logger SUCCESS "🎉 发布成功！" ;;
                    Ret "🎉 小红书内容发布成功！"
                  else
                    logger ERROR "❌ 发布失败" ;;
                    Ret "❌ 小红书内容发布失败")
       end)
    (fun e =>
       let error_msg := "发布过程中发生错误: " ++ str_of_exn e in
       logger ERROR error_msg ;;
       Ret ("❌ " ++ error_msg)).

End Server.

(* ================================================================== *)
(** ** login.py: the command-line login *)

Module LoginCli.

(** The parsed command line. *)
Record args := mkArgs {
  chrome_path : option string;
  headless : bool
}.

(** [main_async], as the exit status of the process (see [Cli.main_async]):
    a plain [return] ends with status 0. *)
Definition main_async (a : args) : prog Z :=
  (* headless = False if not args.headless else args.headless *)
  let headless0 := if negb (headless a) then false else headless a in
  (if headless0 then
     logger WARNING
       "登录过程建议使用有界面模式，将自动切换到有界面模式"
   else Ret tt) ;;
  (* if headless: headless = False *)
  let headless1 := if headless0 then false else headless0 in
  let browser_manager := BrowserManager.new headless1 (chrome_path a) in
  try_catch
    (BrowserManager.get_page browser_manager (fun page =>
       let login_handler := XiaohongshuLogin.new page in
       is_logged_in <- XiaohongshuLogin.check_login_status login_handler ;;
       logger INFO ("当前登录状态: "
                    ++ (if is_logged_in then "已登录" else "未登录")) ;;
       if is_logged_in then
         logger SUCCESS "✅ 已经处于登录状态，无需重新登录" ;;
         Ret 0%Z
       else
         logger INFO "开始登录流程..." ;;
         success <- XiaohongshuLogin.login login_handler ;;
         if success then
           final_status <-
             XiaohongshuLogin.check_login_status login_handler ;;
           if final_status then
             BrowserManager.save_current_cookies browser_manager page ;;
             logger SUCCESS
               "✅ 登录成功！Cookies已保存，浏览器即将关闭..." ;;
             asyncio_sleep 2 ;;
             Ret 0%Z
           else
             logger ERROR "❌ 登录流程完成但仍未检测到登录状态" ;;
             Ret 1%Z
         else
           logger ERROR "❌ 登录失败" ;;
           Ret 1%Z))
    (fun e =>
       logger ERROR ("登录过程中发生错误: " ++ str_of_exn e) ;;
       Ret 1%Z).

End LoginCli.

(* ================================================================== *)
(** ** A concrete environment for the examples *)

(** A JSON codec to run the examples with: the layout of
    [json.dump(v, f, indent=2, ensure_ascii=False)] and a reader for it.
    The statements below hold for every codec; this one only instantiates
    them. *)
Module RefJson.

Definition nl : string := String (ascii_of_nat 10) EmptyString.
Definition dquote : ascii := ascii_of_nat 34.
Definition backslash : ascii := ascii_of_nat 92.

Definition escape_char (a : ascii) : string :=
  if Ascii.eqb a dquote then String backslash (String dquote EmptyString)
  else if Ascii.eqb a backslash
  then String backslash (String backslash EmptyString)
  else if Ascii.eqb a (ascii_of_nat 10) then String backslash "n"
  else if Ascii.eqb a (ascii_of_nat 13) then String backslash "r"
  else if Ascii.eqb a (ascii_of_nat 9) then String backslash "t"
  else String a EmptyString.

Fixpoint escape (s : string) : string :=
  match s with
  | EmptyString => EmptyString
  | String a r => escape_char a ++ escape r
  end.

Definition quote (s : string) : string :=
  String dquote (escape s ++ String dquote EmptyString).

Definition str_of_Z (z : Z) : string :=
  NilZero.string_of_int (Z.to_int z).

Fixpoint dump (indent : string) (v : json) : string :=
  let inner := indent ++ "  " in
  match v with
  | JNull => "null"
  | JBool true => "true"
  | JBool false => "false"
  | JInt z => str_of_Z z
  | JFloat r => r
  | JStr s => quote s
  | JArr [] => "[]"
  | JArr l =>
      "[" ++ nl ++ inner
      ++ String.concat ("," ++ nl ++ inner) (map (dump inner) l)
      ++ nl ++ indent ++ "]"
  | JObj [] => "{}"
  | JObj l =>
      "{" ++ nl ++ inner
      ++ String.concat ("," ++ nl ++ inner)
           (map (fun kv => quote (fst kv) ++ ": " ++ dump inner (snd kv)) l)
      ++ nl ++ indent ++ "}"
  end.

Definition dumps (v : json) : string * option exn := (dump EmptyString v, None).

Definition is_ws (a : ascii) : bool :=
  Ascii.eqb a " "%char || Ascii.eqb a (ascii_of_nat 10)
  || Ascii.eqb a (ascii_of_nat 13) || Ascii.eqb a (ascii_of_nat 9).

Fixpoint skip_ws (s : string) : string :=
  match s with
  | String a r => if is_ws a then skip_ws r else s
  | EmptyString => s
  end.

Definition digit_of (a : ascii) : option Z :=
  let n := N_of_ascii a in
  if ((48 <=? n) && (n <=? 57))%N then Some (Z.of_N n - 48)%Z else None.

Fixpoint read_digits (s : string) (acc : Z) : Z * string :=
  match s with
  | String a r =>
      match digit_of a with
      | Some d => read_digits r (acc * 10 + d)
      | None => (acc, s)
      end
  | EmptyString => (acc, s)
  end.

(** The characters of a string literal up to its closing quote. *)
Fixpoint read_string (s : string) (acc : string) : option (string * string) :=
  match s with
  | EmptyString => None
  | String a r =>
      if Ascii.eqb a dquote then Some (acc, r)
      else if Ascii.eqb a backslash then
        match r with
        | String b r' =>
            let c :=
              if Ascii.eqb b "n"%char then Some (ascii_of_nat 10)
              else if Ascii.eqb b "r"%char then Some (ascii_of_nat 13)
              else if Ascii.eqb b "t"%char then Some (ascii_of_nat 9)
              else if Ascii.eqb b dquote || Ascii.eqb b backslash
                      || Ascii.eqb b "/"%char then Some b
              else None in
            match c with
            | Some c' => read_string r' (acc ++ String c' EmptyString)
            | None => None
            end
        | EmptyString => None
        end
      else read_string r (acc ++ String a EmptyString)
  end.

Fixpoint parse (fuel : nat) (s : string) : option (json * string) :=
  match fuel with
  | O => None
  | S fuel' =>
      let parse_items :=
        fix items (n : nat) (t : string) (acc : list json)
          : option (list json * string) :=
          match n with
          | O => None
          | S n' =>
              match parse fuel' t with
              | Some (v, t1) =>
                  match skip_ws t1 with
                  | String c t2 =>
                      if Ascii.eqb c ","%char
                      then items n' t2 (acc ++ [v])%list
                      else if Ascii.eqb c "]"%char
                      then Some ((acc ++ [v])%list, t2)
                      else None
                  | EmptyString => None
                  end
              | None => None
              end
          end in
      let parse_members :=
        fix members (n : nat) (t : string) (acc : list (string * json))
          : option (list (string * json) * string) :=
          match n with
          | O => None
          | S n' =>
              match skip_ws t with
              | String q t0 =>
                  if Ascii.eqb q dquote then
                    match read_string t0 EmptyString with
                    | Some (key, t1) =>
                        match skip_ws t1 with
                        | String c t2 =>
                            if Ascii.eqb c ":"%char then
                              match parse fuel' t2 with
                              | Some (v, t3) =>
                                  match skip_ws t3 with
                                  | String d t4 =>
                                      if Ascii.eqb d ","%char
                                      then members n' t4 (acc ++ [(key, v)])%list
                                      else if Ascii.eqb d "}"%char
                                      then Some ((acc ++ [(key, v)])%list, t4)
                                      else None
                                  | EmptyString => None
                                  end
                              | None => None
                              end
                            else None
                        | EmptyString => None
                        end
                    | None => None
                    end
                  else None
              | EmptyString => None
              end
          end in
      match skip_ws s with
      | EmptyString => None
      | String a r =>
          if Ascii.eqb a dquote then
            match read_string r EmptyString with
            | Some (str, t) => Some (JStr str, t)
            | None => None
            end
          else if Ascii.eqb a "["%char then
            match skip_ws r with
            | String c t =>
                if Ascii.eqb c "]"%char then Some (JArr [], t)
                else match parse_items fuel' r [] with
                     | Some (l, t') => Some (JArr l, t')
                     | None => None
                     end
            | EmptyString => None
            end
          else if Ascii.eqb a "{"%char then
            match skip_ws r with
            | String c t =>
                if Ascii.eqb c "}"%char then Some (JObj [], t)
                else match parse_members fuel' r [] with
                     | Some (l, t') => Some (JObj l, t')
                     | None => None
                     end
            | EmptyString => None
            end
          else if String.prefix "null" (String a r)
          then Some (JNull, str_drop 4 (String a r))
          else if String.prefix "true" (String a r)
          then Some (JBool true, str_drop 4 (String a r))
          else if String.prefix "false" (String a r)
          then Some (JBool false, str_drop 5 (String a r))
          else if Ascii.eqb a "-"%char then
            match r with
            | String d _ =>
                match digit_of d with
                | Some _ =>
                    let '(z, t) := read_digits r 0 in Some (JInt (- z), t)
                | None => None
                end
            | EmptyString => None
            end
          else
            match digit_of a with
            | Some _ =>
                let '(z, t) := read_digits (String a r) 0 in Some (JInt z, t)
            | None => None
            end
      end
  end.

Definition loads (s : string) : res json :=
  match parse (S (String.length s)) s with
  | Some (v, rest) =>
      match skip_ws rest with
      | EmptyString => Ok v
      | _ => Err (Exception "Extra data")
      end
  | None => Err (Exception "Expecting value")
  end.

End RefJson.

(** A browser in which every call succeeds: every lookup finds element 0,
    the page is empty and the context holds no cookie. *)
Definition answer_ok (c : call) : res (ret c) :=
  match c as c0 return res (ret c0) with
  | ContextCookies => Ok []
  | QuerySelector _ => Ok (Some 0)
  | WaitForSelector _ _ => Ok (Some 0)
  | ElemQuerySelector _ _ => Ok (Some 0)
  | QuerySelectorAll _ => Ok []
  | PageContent => Ok EmptyString
  | PageUrl => Ok EmptyString
  | PageTitle => Ok EmptyString
  | GetAttribute _ _ => Ok None
  | TextContent _ _ => Ok None
  | PathExists _ => Ok false
  | PathIsFile _ => Ok false
  | JsonLoad _ => Ok JNull
  | _ => Ok tt
  end.

Definition no_fault : list call -> call -> option exn := fun _ _ => None.

Definition env_ok : env :=
  mkEnv (fun _ => answer_ok) no_fault RefJson.dumps RefJson.loads.

Definition empty_fs : fs := fun _ => None.

Definition world0 : world := mkWorld empty_fs [] [].

(** A cookie store on the file [cookies.json], a cookie record, and worlds
    in which that file holds text that is not JSON, or is a directory. *)
Definition store0 : CookieManager.t := CookieManager.mk "cookies.json".

Definition cookie0 : json :=
  JObj [("name", JStr "web_session"); ("value", JStr "0400abc");
        ("domain", JStr ".xiaohongshu.com"); ("path", JStr "/");
        ("expires", JInt 1790000000); ("httpOnly", JBool true);
        ("secure", JBool false); ("sameSite", JStr "Lax")].

Definition world_with (path : string) (n : node) : world :=
  mkWorld (fs_set empty_fs path (Some n)) [] [].

Definition world_bad_json : world :=
  world_with "cookies.json" (RegularFile "{oops").

(** The calls that change a file. *)
Definition is_file_write (c : call) : bool :=
  match c with
  | OpenWrite _ | JsonDump _ _ | Unlink _ => true
  | _ => false
  end.

(** The operating system lets the file at [path] be read. *)
Definition reads_ok (E : env) (path : string) : Prop :=
  forall h, io_fault E h (OpenRead path) = None
            /\ io_fault E h (JsonLoad path) = None.

(** No close operation of the session raises. *)
Definition closes_ok (E : env) : Prop :=
  forall h, browser E h PageClose = Ok tt
            /\ browser E h ContextClose = Ok tt
            /\ browser E h BrowserClose = Ok tt
            /\ browser E h PlaywrightStop = Ok tt.

(** What a [finally] block makes of the outcome [r] of its [try] block. *)
Definition after_finally {A : Type} (f : res unit * world) (r : res A)
  : res A * world :=
  match f with
  | (Ok _, w) => (r, w)
  | (Err e, w) => (Err e, w)
  end.

(** A session manager on [store0], a context that holds one cookie, and an
    operating system that refuses to open files for writing. *)
Definition manager0 : BrowserManager.t :=
  BrowserManager.mk false None store0.

Definition answer_one_cookie (c : call) : res (ret c) :=
  match c as c0 return res (ret c0) with
  | ContextCookies => Ok [cookie0]
  | c0 => answer_ok c0
  end.

Definition permission_denied : exn :=
  Exception "[Errno 13] Permission denied: 'cookies.json'".

Definition fault_on_open_write : list call -> call -> option exn :=
  fun _ c => match c with
             | OpenWrite _ => Some permission_denied
             | _ => None
             end.

Definition env_one_cookie : env :=
  mkEnv (fun _ => answer_one_cookie) no_fault RefJson.dumps RefJson.loads.

Definition env_read_only : env :=
  mkEnv (fun _ => answer_one_cookie) fault_on_open_write
        RefJson.dumps RefJson.loads.

(** A caller body that raises its own exception. *)
Definition body_boom : Page -> prog unit :=
  fun _ => Raise (Exception "boom").

(** *** The detection chain, as the specification words it

    An ordered list of probes evaluated first-match-wins.  A probe matches
    when its lookup returns an element, or when the page markup holds one of
    the keywords; a probe that raises does not match.  The URL probe never
    matches: it only decides which line is logged. *)

Definition login_probes (self : XiaohongshuLogin.t) : list call :=
  QuerySelector (XiaohongshuLogin.login_indicator self)
  :: map QuerySelector XiaohongshuLogin.user_indicators
  ++ [PageContent; PageUrl].

Definition is_match (c : call) : res (ret c) -> bool :=
  match c as c0 return res (ret c0) -> bool with
  | QuerySelector _ =>
      fun r => match r with Ok (Some _) => true | _ => false end
  | PageContent =>
      fun r => match r with
               | Ok content =>
                   existsb (fun keyword => py_in keyword content)
                           XiaohongshuLogin.login_keywords
               | Err _ => false
               end
  | _ => fun _ => false
  end.

(** The probes made, in order, from the history [h] on, and whether one
    matched. *)
Fixpoint first_match (E : env) (h : list call) (probes : list call)
  : list call * bool :=
  match probes with
  | [] => ([], false)
  | c :: rest =>
      if is_match c (browser E h c) then ([c], true)
      else let '(made, found) := first_match E (h ++ [c]) rest in
           (c :: made, found)
  end.

(** What a stage of a chain does from the world [w]: it returns [v]
    when one of its probes matches and falls through otherwise, and the
    calls it makes are those [first_match] lists. *)
Definition stage {R : Type} (E : env) (v : R) (p : prog (ctl R))
           (w : world) (probes : list call) : Prop :=
  exists w1,
    run E p w =
    (Ok (if snd (first_match E (calls w) probes) then Return v else Next), w1)
    /\ calls w1 = (calls w ++ fst (first_match E (calls w) probes))%list.

(** A browser without network: every navigation raises. *)
Definition answer_offline (c : call) : res (ret c) :=
  match c as c0 return res (ret c0) with
  | Goto _ _ => Err (Exception "net::ERR_INTERNET_DISCONNECTED")
  | c0 => answer_ok c0
  end.

Definition env_offline : env :=
  mkEnv (fun _ => answer_offline) no_fault RefJson.dumps RefJson.loads.

(** [emits P p]: every call the coroutine [p] can make, on any answers,
    satisfies [P]. *)
Inductive emits {A : Type} (P : call -> Prop) : prog A -> Prop :=
| emits_Ret (a : A) : emits P (Ret a)
| emits_Raise (e : exn) : emits P (Raise e)
| emits_Vis (c : call) (k : res (ret c) -> prog A) :
    P c -> (forall r, emits P (k r)) -> emits P (Vis c k).

(** The calls that fill a field or look the submit button up. *)
Definition fills_or_submits (c : call) : bool :=
  match c with
  | Fill _ _ => true
  | WaitForSelector selector _ =>
      String.eqb selector XiaohongshuPublish.submit_selector
  | _ => false
  end.

Definition quiet (c : call) : Prop := fills_or_submits c = false.


(** A world with two image files, a publish flow on the session page, a
    page whose file input never appears, and a page on which no editor
    element is ever found. *)
Definition world_images : world :=
  mkWorld (fs_set (fs_set empty_fs "/tmp/a.png" (Some (RegularFile "PNG")))
                  "/tmp/a.bmp" (Some (RegularFile "BM")))
          [] [].

Definition publisher0 : XiaohongshuPublish.t :=
  XiaohongshuPublish.new ThePage.



Definition answer_no_editor (c : call) : res (ret c) :=
  match c as c0 return res (ret c0) with
  | QuerySelector selector =>
      if mem_string selector XiaohongshuPublish.edit_indicators
      then Ok None else Ok (Some 0)
  | c0 => answer_ok c0
  end.

Definition env_no_editor : env :=
  mkEnv (fun _ => answer_no_editor) no_fault RefJson.dumps RefJson.loads.

(** *** The Publish Request, as a predicate

    What [validate_args] accepts: a title that is not blank and has at most
    40 characters, a content that is not blank, and a non-empty list of
    paths, each an existing regular file with one of the image suffixes. *)

Definition image_ok (f : fs) (path : string) : bool :=
  match f path with
  | Some (RegularFile _) =>
      mem_string (py_lower (path_suffix path)) Cli.image_suffixes
  | _ => false
  end.

Definition request_ok (f : fs) (a : Cli.args) : bool :=
  negb (strip_is_empty (Cli.title a))
  && (py_len (Cli.title a) <=? 40)%nat
  && negb (strip_is_empty (Cli.content a))
  && match Cli.images a with [] => false | _ :: _ => true end
  && forallb (image_ok f) (Cli.images a).

(** The calls that only look at the file system. *)
Definition is_path_test (c : call) : bool :=
  match c with
  | Stat _ | PathExists _ | PathIsFile _ => true
  | _ => false
  end.

(** The operating system answers every [stat] of the paths [ps]. *)
Definition stat_ok (E : env) (ps : list string) : Prop :=
  forall h p, In p ps -> io_fault E h (Stat p) = None.

(** An image path whose name the file system refuses as too long, and the
    request that names it. *)
Definition long_name : string :=
  "/tmp/aaaaaaaaaaaaaaaaaaaaaaaaaaaaaaaaaaaaaaaaaaaaaaaaaaaaaaaaaaaaaaaaaaaaaa"
  ++ "aaaaaaaaaaaaaaaaaaaaaaaaaaaaaaaaaaaaaaaaaaaaaaaaaaaaaaaaaaaaaaaaaaaaaaaa"
  ++ "aaaaaaaaaaaaaaaaaaaaaaaaaaaaaaaaaaaaaaaaaaaaaaaaaaaaaaaaaaaaaaaaaaaaaaaa"
  ++ "aaaaaaaaaaaaaaaaaaaaaaaaaaaaaaaaaaaaaaaaaaaaaaaaaaaaaaaaaaaaaaaa.png".

Definition name_too_long : exn :=
  Exception ("[Errno 36] File name too long: '" ++ long_name ++ "'").

Definition fault_on_long_name : list call -> call -> option exn :=
  fun _ c => match c with
             | Stat p => if String.eqb p long_name
                         then Some name_too_long else None
             | _ => None
             end.

Definition env_long_name : env :=
  mkEnv (fun _ => answer_ok) fault_on_long_name RefJson.dumps RefJson.loads.

Definition args_long : Cli.args :=
  Cli.mkArgs "title" "content" [long_name] None false false.

(** A request with an existing [.bmp] image, and one with a missing file. *)
Definition args_bmp : Cli.args :=
  Cli.mkArgs "title" "content" ["/tmp/a.bmp"] None false false.


(** *** More of the code: vocabulary of the further properties *)

(** [extends w' w]: the calls of [w'] are those of [w], followed by
    more. *)
Definition extends (w' w : world) : Prop :=
  exists l, calls w' = (calls w ++ l)%list.

(** The message of the exception [_submit_publish] raises for [e]. *)
Definition submit_failure_msg (e : exn) : string :=
  match exn_cls e with
  | PlaywrightTimeout => "等待提交按钮超时"
  | _ => "提交发布失败: " ++ exn_msg e
  end.

(** No candidate selector of the title field ever finds an element: each
    wait ends with the timeout of Playwright, or with no element. *)
Definition title_never_found (E : env) : Prop :=
  forall (h : list call) (s : string),
    In s XiaohongshuPublish.title_selectors ->
    match browser E h (WaitForSelector s 3000) with
    | Ok (Some _) => False
    | Ok None => True
    | Err e => exn_cls e = PlaywrightTimeout
    end.

(** A page on which no awaited element ever appears, and a machine on
    which the browser cannot be launched. *)
Definition answer_no_field (c : call) : res (ret c) :=
  match c as c0 return res (ret c0) with
  | WaitForSelector _ _ =>
      Err (mkExn PlaywrightTimeout "Timeout 3000ms exceeded.")
  | c0 => answer_ok c0
  end.

Definition env_no_field : env :=
  mkEnv (fun _ => answer_no_field) no_fault RefJson.dumps RefJson.loads.

Definition answer_no_browser (c : call) : res (ret c) :=
  match c as c0 return res (ret c0) with
  | Launch _ _ _ => Err (Exception "Executable doesn't exist")
  | c0 => answer_ok c0
  end.

Definition env_no_browser : env :=
  mkEnv (fun _ => answer_no_browser) no_fault RefJson.dumps RefJson.loads.

(** A cookie file that holds a JSON object instead of a list. *)
Definition world_object_json : world :=
  world_with "cookies.json" (RegularFile "{}").

(** What [_validate_images] accepts: a non-empty list of existing regular
    files. *)
Definition regular_file (f : fs) (path : string) : bool :=
  match f path with
  | Some (RegularFile _) => true
  | _ => false
  end.

Definition images_usable (f : fs) (paths : list string) : bool :=
  match paths with
  | [] => false
  | _ :: _ => forallb (regular_file f) paths
  end.



(** The calls of the exit of the session scope. *)
Definition is_session_exit (c : call) : bool :=
  match c with
  | ContextCookies | OpenWrite _ | JsonDump _ _
  | PageClose | ContextClose | BrowserClose | PlaywrightStop
  | Log _ _ => true
  | _ => false
  end.

Definition session_exit (c : call) : Prop := is_session_exit c = true.

(* ================================================================== *)
(** ** Running coroutines: the equations of [run] *)

Section RunEquations.

Variable E : env.

Lemma run_bind {A B : Type} (p : prog A) (f : A -> prog B) (w : world) :
  run E (bind p f) w =
  match run E p w with
  | (Ok a, w') => run E (f a) w'
  | (Err e, w') => (Err e, w')
  end.
Proof.
  revert w. induction p as [a | e | c k IH]; intros w; simpl; try reflexivity.
  destruct (perform E c w) as [r w']. apply IH.
Qed.

Lemma run_try_catch {A : Type} (p : prog A) (h : exn -> prog A) (w : world) :
  run E (try_catch p h) w =
  match run E p w with
  | (Ok a, w') => (Ok a, w')
  | (Err e, w') => run E (h e) w'
  end.
Proof.
  revert w. induction p as [a | e | c k IH]; intros w; simpl; try reflexivity.
  destruct (perform E c w) as [r w']. apply IH.
Qed.

Lemma run_try_finally {A : Type} (p : prog A) (f : prog unit) (w : world) :
  run E (try_finally p f) w =
  let '(r, w') := run E p w in
  match run E f w' with
  | (Ok _, w'') => (r, w'')
  | (Err e, w'') => (Err e, w'')
  end.
Proof.
  revert w. induction p as [a | e | c k IH]; intros w; simpl.
  - rewrite run_bind. destruct (run E f w) as [[[]|e] w']; reflexivity.
  - rewrite run_bind. destruct (run E f w) as [[[]|e'] w']; reflexivity.
  - destruct (perform E c w) as [r w']. apply IH.
Qed.

Lemma run_await (c : call) (w : world) :
  run E (await c) w = perform E c w.
Proof.
  unfold perform_call. simpl.
  destruct (perform E c w) as [[v | e] w']; reflexivity.
Qed.

Lemma run_logger (lvl : level) (msg : string) (w : world) :
  run E (logger lvl msg) w = (Ok tt, add_log lvl msg w).
Proof. reflexivity. Qed.

Lemma run_sleep (s : Z) (w : world) :
  run E (asyncio_sleep s) w = (Ok tt, record (Sleep s) w).
Proof. reflexivity. Qed.

Lemma run_and_then {R : Type} (p : prog (ctl R)) (rest : prog R) (w : world) :
  run E (and_then p rest) w =
  match run E p w with
  | (Ok (Return v), w') => (Ok v, w')
  | (Ok _, w') => run E rest w'
  | (Err e, w') => (Err e, w')
  end.
Proof.
  unfold and_then. rewrite run_bind.
  destruct (run E p w) as [[[ | | v] | e] w']; reflexivity.
Qed.

Lemma run_browser_call (c : call) (w : world) :
local_effect E c w = None ->
run E (await c) w = (browser E (calls w) c, record c w).
Proof. intros H. rewrite run_await. unfold perform. rewrite H. reflexivity. Qed.

Lemma perform_calls (c : call) (w : world) :
calls (snd (perform E c w)) =
match c with Log _ _ => calls w | _ => (calls w ++ [c])%list end.
Proof.
destruct c; unfold perform, local_effect, fault_or; cbn [snd calls record];
  try reflexivity;
  repeat match goal with
         | |- context [match ?x with _ => _ end] => destruct x
         end; reflexivity.
Qed.

Lemma run_calls_extend {A : Type} (p : prog A) (w : world) :
exists l, calls (snd (run E p w)) = (calls w ++ l)%list.
Proof.
revert w. induction p as [a | e | c k IH]; intros w; cbn [run].
- exists []. cbn. now rewrite app_nil_r.
- exists []. cbn. now rewrite app_nil_r.
- pose proof (perform_calls c w) as Hc.
  destruct (perform E c w) as [r w1]. cbn [snd] in Hc.
  destruct (IH r w1) as [l Hl]. rewrite Hl, Hc.
  destruct c; try (exists (l); reflexivity);
    eexists; rewrite <- app_assoc; reflexivity.
Qed.

End RunEquations.

(** One step of a browser call: its answer is the oracle's. *)
Ltac browser_step :=
  match goal with
  | |- context [@run ?T ?E0 (perform_call ?c) ?w] =>
      change (@run T E0 (perform_call c) w)
        with (@run (ret c) E0 (perform_call c) w);
      rewrite (run_browser_call E0 c w) by reflexivity;
      cbn [calls record]
  end.

Lemma fs_set_same (f : fs) (p : string) (n : option node) :
  fs_set f p n p = n.
Proof. unfold fs_set. rewrite String.eqb_refl. reflexivity. Qed.

(* ================================================================== *)
(** ** The cookie store *)

Section CookieStore.

Variable E : env.
Variable self : CookieManager.t.

Let path := CookieManager.cookie_file self.

Lemma load_cookies_absent (w : world) :
  files w path = None ->
  run E (CookieManager.load_cookies self) w =
  (Ok (JArr []),
   add_log WARNING ("Cookie文件不存在: " ++ path) (record (PathExists path) w)).
Proof.
  intros Habs. unfold CookieManager.load_cookies.
  rewrite run_try_catch, run_bind, run_await. cbn.
  fold path. rewrite Habs. reflexivity.
Qed.

Lemma load_cookies_read_failure (w w2 : world) (e : exn) :
  files w path <> None ->
  run E (CookieManager.read_cookie_file self) (record (PathExists path) w) = (Err e, w2) ->
  run E (CookieManager.load_cookies self) w =
  (Ok (JArr []), add_log ERROR ("加载cookies失败: " ++ exn_msg e) w2).
Proof.
  intros Hpres Hread. unfold CookieManager.load_cookies.
  rewrite run_try_catch, run_bind, run_await.
  unfold perform, local_effect. fold path.
  destruct (files w path) as [n|] eqn:Hf; [clear Hpres | congruence].
  cbv [negb]. rewrite run_bind, Hread. reflexivity.
Qed.

(** C6.  [load_cookies] never raises: in every environment and every
    world it returns a value.  When the cookie file is absent it returns
    the empty list after a warning, without an error record; when opening
    or parsing the file raises, the exception is logged as an error and
    the empty list is returned. *)
Theorem load_cookies_never_raises (w : world) :
  (exists v w', run E (CookieManager.load_cookies self) w = (Ok v, w')) /\
  (files w path = None ->
   run E (CookieManager.load_cookies self) w =
   (Ok (JArr []),
    add_log WARNING ("Cookie文件不存在: " ++ path)
            (record (PathExists path) w))) /\
  (forall e w2,
     files w path <> None ->
     run E (CookieManager.read_cookie_file self) (record (PathExists path) w) = (Err e, w2) ->
     run E (CookieManager.load_cookies self) w =
     (Ok (JArr []), add_log ERROR ("加载cookies失败: " ++ exn_msg e) w2)).
Proof.
  split; [| split].
  - unfold CookieManager.load_cookies. rewrite run_try_catch.
    destruct (run E _ w) as [[v|e] w'].
    + eauto.
    + rewrite run_bind, run_logger. cbn. eauto.
  - apply load_cookies_absent.
  - intros e w2. apply load_cookies_read_failure.
Qed.

(** A save that returns leaves in the cookie file exactly the text that
    [json.dump] produced for the list. *)
Lemma save_cookies_success (L : list json) (w w1 : world) :
  run E (CookieManager.save_cookies self L) w = (Ok tt, w1) ->
  files w1 path = Some (RegularFile (fst (json_dumps E (JArr L)))).
Proof.
  unfold CookieManager.save_cookies.
  rewrite run_try_catch, run_bind, run_await. fold path.
  unfold perform at 1, local_effect, fault_or.
  destruct (io_fault E (calls w) (OpenWrite path)) as [e|].
  { rewrite run_bind, run_logger. cbn. discriminate. }
  destruct (files w path) as [[c|]|] eqn:Hf.
  all: try (rewrite run_bind, run_logger; cbn; discriminate).
  all: rewrite run_bind, run_await.
  all: unfold perform at 1, local_effect, fault_or.
  all: match goal with
       | |- context [io_fault E ?h ?c] => destruct (io_fault E h c)
       end.
  all: try (rewrite run_bind, run_logger; cbn; discriminate).
  all: cbn [files record with_files].
  all: rewrite fs_set_same.
  all: destruct (json_dumps E (JArr L)) as [text [e|]].
  all: try (rewrite run_bind, run_logger; cbn; discriminate).
  all: rewrite run_logger; intros H; inversion H; subst.
  all: cbn [files add_log record with_files fst].
  all: rewrite fs_set_same; reflexivity.
Qed.

Lemma load_cookies_reads_back (v : json) (n : nat) (text : string)
      (w1 : world) :
  files w1 path = Some (RegularFile text) ->
  reads_ok E path ->
  json_loads E text = Ok v ->
  json_len v = Ok n ->
  exists w2, run E (CookieManager.load_cookies self) w1 = (Ok v, w2).
Proof.
  intros Hf Hr Hj Hn. unfold CookieManager.load_cookies.
  rewrite run_try_catch, run_bind, run_await.
  unfold perform at 1, local_effect. fold path. rewrite Hf. cbv [negb].
  rewrite run_bind. unfold CookieManager.read_cookie_file. fold path.
  rewrite run_bind, run_await.
  unfold perform at 1, local_effect, fault_or.
  rewrite (proj1 (Hr _)). cbn [files record]. rewrite Hf.
  rewrite run_await. unfold perform, local_effect, fault_or.
  rewrite (proj2 (Hr _)). cbn [files record]. rewrite Hf, Hj, Hn.
  cbn [lift_res]. rewrite run_bind. cbn [run].
  rewrite run_bind, run_logger. cbn [run]. eexists. reflexivity.
Qed.

(** C5.  Saving a list of cookie records and then loading gives the list
    back.  The save is one that returned (a failed save raises); between
    the save and the load nothing else runs; the operating system lets the
    file be read; and the JSON library reads back what it wrote for this
    list. *)
Theorem save_then_load_roundtrip (L : list json) (w w1 : world) :
  run E (CookieManager.save_cookies self L) w = (Ok tt, w1) ->
  reads_ok E path ->
  json_loads E (fst (json_dumps E (JArr L))) = Ok (JArr L) ->
  exists w2,
    run E (CookieManager.load_cookies self) w1 = (Ok (JArr L), w2).
Proof.
  intros Hsave Hread Hcodec.
  apply (load_cookies_reads_back (JArr L) (List.length L)
           (fst (json_dumps E (JArr L)))); auto.
  eapply save_cookies_success; eauto.
Qed.

End CookieStore.

Lemma load_cookies_never_raises_witness :
  run env_ok (CookieManager.load_cookies store0) world_bad_json =
  (Ok (JArr []),
   add_log ERROR "加载cookies失败: Expecting value"
     (record (JsonLoad "cookies.json")
        (record (OpenRead "cookies.json")
           (record (PathExists "cookies.json") world_bad_json)))).
Proof.
  apply (proj2 (proj2 (load_cookies_never_raises env_ok store0 world_bad_json))
           (Exception "Expecting value")).
  - vm_compute. discriminate.
  - vm_compute. reflexivity.
Defined.

Lemma save_then_load_roundtrip_witness :
  exists w2,
    run env_ok (CookieManager.load_cookies store0)
        (snd (run env_ok (CookieManager.save_cookies store0 [cookie0]) world0))
    = (Ok (JArr [cookie0]), w2).
Proof.
  apply (save_then_load_roundtrip env_ok store0 [cookie0] world0).
  - vm_compute. reflexivity.
  - intros h. split; reflexivity.
  - vm_compute. reflexivity.
Defined.

(* ================================================================== *)
(** ** The session scope *)

Section Session.
Variable E : env.
Variable self : BrowserManager.t.

Lemma get_page_entered {A : Type} (body : Page -> prog A) (w w0 : world) :
  run E (BrowserManager.session_entry self) w = (Ok tt, w0) ->
  run E (BrowserManager.get_page self body) w =
  let '(r, w1) := run E (body ThePage) w0 in
  let '(r1, w2) := after_finally (run E (BrowserManager.save_and_close self) w1) r in
  let '(r2, w3) :=
    after_finally (run E (await BrowserClose : prog unit) w2) r1 in
  after_finally (run E (await PlaywrightStop : prog unit) w3) r2.
Proof.
  unfold BrowserManager.session_entry, BrowserManager.get_page.
  rewrite !run_bind.
  destruct (run E (await PlaywrightStart) w) as [[[]|e] wa]; [|discriminate].
  rewrite run_try_finally, !run_bind.
  destruct (run E (await (Launch _ _ _)) wa) as [[[]|e] wb]; [|discriminate].
  intros Hopen. rewrite run_try_finally, run_bind, Hopen, run_try_finally.
  destruct (run E (body ThePage) w0) as [r w1].
  unfold after_finally.
  destruct (run E (BrowserManager.save_and_close self) w1) as [[[]|e1] w2];
    cbv beta iota zeta;
    destruct (run E (await BrowserClose) w2) as [[[]|e2] w3];
    cbv beta iota zeta;
    destruct (run E (await PlaywrightStop) w3) as [[[]|e3] w4]; reflexivity.
Qed.

Lemma save_and_close_run (w1 : world) :
  run E (BrowserManager.save_and_close self) w1 =
  match browser E (calls w1) ContextCookies with
  | Err e => (Err e, record ContextCookies w1)
  | Ok cs =>
      match run E (BrowserManager.save_if_any self cs) (record ContextCookies w1) with
      | (Err e, w2) => (Err e, w2)
      | (Ok _, w2) =>
          run E (await PageClose ;; (await ContextClose : prog unit)) w2
      end
  end.
Proof.
  unfold BrowserManager.save_and_close. rewrite run_bind, run_browser_call by reflexivity.
  destruct (browser E (calls w1) ContextCookies) as [cs|e]; [|reflexivity].
  rewrite run_bind. reflexivity.
Qed.


(** C10.  Cookies are written to disk only when the context holds some.
    On the exit of the session scope with an empty cookie list the files
    are those the caller's body left, and the calls of the exit are the
    cookie read and the close operations only: no file is opened or
    written.  [save_current_cookies] with an empty cookie list does nothing
    but read the cookies; with a non-empty list it opens the cookie file
    for writing. *)
Theorem cookies_written_only_when_present :
  (forall (A : Type) (body : Page -> prog A) (w w0 w1 : world) (r : res A),
     run E (BrowserManager.session_entry self) w = (Ok tt, w0) ->
     run E (body ThePage) w0 = (r, w1) ->
     browser E (calls w1) ContextCookies = Ok [] ->
     let w' := snd (run E (BrowserManager.get_page self body) w) in
     files w' = files w1 /\
     calls w' =
       (calls w1 ++ [ContextCookies; PageClose]
        ++ match browser E (calls w1 ++ [ContextCookies]) PageClose with
           | Ok _ => [ContextClose]
           | Err _ => []
           end
        ++ [BrowserClose; PlaywrightStop])%list) /\
  (forall (page : Page) (w : world),
     browser E (calls w) ContextCookies = Ok [] ->
     run E (BrowserManager.save_current_cookies self page) w =
     (Ok tt, record ContextCookies w)) /\
  (forall (page : Page) (w : world) (c : json) (cs : list json),
     browser E (calls w) ContextCookies = Ok (c :: cs) ->
     exists r w2,
       run E (BrowserManager.save_current_cookies self page) w = (r, w2) /\
       exists rest,
         calls w2 =
         (calls w ++ ContextCookies
            :: OpenWrite (CookieManager.cookie_file
                            (BrowserManager.cookie_manager self)) :: rest)%list).
Proof.
  split; [| split].
  - intros A body w w0 w1 r Hentry Hbody Hcookies.
    rewrite (get_page_entered body w w0 Hentry), Hbody.
    rewrite save_and_close_run, Hcookies.
    cbn [BrowserManager.save_if_any run].
    rewrite run_bind. browser_step.
    destruct (browser E (calls w1 ++ [ContextCookies]) PageClose) as [[]|e1];
      [browser_step; destruct (browser E _ ContextClose) as [[]|e2] |];
      cbn [after_finally];
      browser_step; destruct (browser E _ BrowserClose) as [[]|e3];
      cbn [after_finally];
      browser_step; destruct (browser E _ PlaywrightStop) as [[]|e4];
      cbn [after_finally snd files calls record];
      rewrite <- ?app_assoc; split; reflexivity.
  - intros page w Hcookies. unfold BrowserManager.save_current_cookies.
    rewrite run_bind, run_browser_call by reflexivity. rewrite Hcookies.
    reflexivity.
  - intros page w c cs Hcookies. unfold BrowserManager.save_current_cookies.
    rewrite run_bind, run_browser_call by reflexivity. rewrite Hcookies.
    match goal with
    | |- context [run E ?p ?w0] =>
        destruct (run_calls_extend E p w0) as [l Hl];
        destruct (run E p w0) as [r w2] eqn:Hrun
    end.
    exists r, w2. split; [reflexivity|].
    cbn [snd] in Hl. revert Hrun.
    unfold CookieManager.save_cookies. cbn [bind try_catch perform_call run].
    pose proof (perform_calls E
                  (OpenWrite (CookieManager.cookie_file
                                (BrowserManager.cookie_manager self)))
                  (record ContextCookies w)) as Hc.
    destruct (perform E (OpenWrite _) (record ContextCookies w)) as [r1 w3].
    cbn [snd calls record] in Hc. intros Hrun.
    match type of Hrun with
    | run E ?p ?w0 = _ => destruct (run_calls_extend E p w0) as [l' Hl']
    end.
    rewrite Hrun in Hl'. cbn [snd] in Hl'. rewrite Hl', Hc.
    exists l'. rewrite <- !app_assoc. reflexivity.
Qed.

Lemma save_and_close_calls (w1 : world) :
  exists l, calls (snd (run E (BrowserManager.save_and_close self) w1))
            = (calls w1 ++ ContextCookies :: l)%list.
Proof.
  unfold BrowserManager.save_and_close. rewrite run_bind, run_await.
  pose proof (perform_calls E ContextCookies w1) as Hc.
  destruct (perform E ContextCookies w1) as [[cs|e] w3]; cbn [snd] in Hc;
    cbv beta iota zeta.
  - match goal with
    | |- context [run E ?p ?w0] => destruct (run_calls_extend E p w0) as [l Hl]
    end.
    cbv beta iota delta [ret] in *.
    rewrite Hl, Hc. exists l. rewrite <- app_assoc. reflexivity.
  - exists []. cbn [snd]. exact Hc.
Qed.

Lemma save_cookies_raises (L : list json) (w w2 : world) (e : exn) :
  run E (CookieManager.save_cookies (BrowserManager.cookie_manager self) L) w
  = (Err e, w2) ->
  exists l, logs w2 = (l ++ [(ERROR, ("保存cookies失败: " ++ exn_msg e)%string)])%list.
Proof.
  unfold CookieManager.save_cookies. rewrite run_try_catch.
  destruct (run E _ w) as [[[]|e0] wb]; [discriminate|].
  rewrite run_bind, run_logger. cbn [run]. intros H. inversion H; subst.
  exists (logs wb). reflexivity.
Qed.

End Session.

Section SessionExit.
Variable E : env.
Variable self : BrowserManager.t.

(** [save_cookies] opens the cookie file for writing first, whatever
    follows; when it returns it has made that call and the dump, and
    nothing else. *)
Lemma save_cookies_opens (L : list json) (w : world) :
  exists rest,
    calls (snd (run E (CookieManager.save_cookies
                         (BrowserManager.cookie_manager self) L) w)) =
    (calls w ++ OpenWrite (CookieManager.cookie_file
                             (BrowserManager.cookie_manager self)) :: rest)%list.
Proof.
  unfold CookieManager.save_cookies.
  rewrite run_try_catch, run_bind, run_await.
  pose proof (perform_calls E
                (OpenWrite (CookieManager.cookie_file
                              (BrowserManager.cookie_manager self))) w) as Ho.
  destruct (perform E (OpenWrite _) w) as [[[]|e] wa]; cbn [snd] in Ho.
  - match goal with
    | |- context [run E ?p wa] =>
        destruct (run_calls_extend E p wa) as [l Hl];
        destruct (run E p wa) as [[[]|e] wb]
    end; cbn [snd] in *.
    + exists l. rewrite Hl, Ho, <- app_assoc. reflexivity.
    + rewrite run_bind, run_logger. cbn [run snd calls add_log].
      exists l. rewrite Hl, Ho, <- app_assoc. reflexivity.
  - rewrite run_bind, run_logger. cbn [run snd calls add_log].
    exists []. exact Ho.
Qed.

Lemma save_cookies_calls (L : list json) (w w1 : world) :
  run E (CookieManager.save_cookies (BrowserManager.cookie_manager self) L) w
  = (Ok tt, w1) ->
  calls w1 =
  (calls w ++ [OpenWrite (CookieManager.cookie_file
                            (BrowserManager.cookie_manager self));
               JsonDump (CookieManager.cookie_file
                           (BrowserManager.cookie_manager self)) (JArr L)])%list.
Proof.
  unfold CookieManager.save_cookies.
  rewrite run_try_catch, run_bind, run_await.
  pose proof (perform_calls E
                (OpenWrite (CookieManager.cookie_file
                              (BrowserManager.cookie_manager self))) w) as Ho.
  destruct (perform E (OpenWrite _) w) as [[[]|e] wa]; cbn [snd] in Ho.
  2:{ rewrite run_bind, run_logger. cbn [run]. discriminate. }
  rewrite run_bind, run_await.
  pose proof (perform_calls E
                (JsonDump (CookieManager.cookie_file
                             (BrowserManager.cookie_manager self)) (JArr L))
                wa) as Hd.
  destruct (perform E (JsonDump _ _) wa) as [[[]|e] wb]; cbn [snd] in Hd.
  2:{ rewrite run_bind, run_logger. cbn [run]. discriminate. }
  rewrite run_logger. intros H. inversion H; subst.
  cbn [calls add_log]. rewrite Hd, Ho, <- app_assoc. reflexivity.
Qed.


(** C1, as the code has it.  Once the scope is entered, whether the body
    returns or raises: the exit reads the context cookies first and ends
    with the browser close and the stop of the driver, in every case.  A
    non-empty cookie list is saved: the cookie file is opened for writing
    right after the read, and when the save returns the file holds the
    text [json.dump] produced for the list and the calls of the save are
    the opening and the dump.  An empty list is not saved: no file
    changes.  When no close operation raises and the cookies are read and
    (if any) saved without an exception, page close, context close and
    browser close are invoked in that order and the outcome is the body's
    own.  When saving the cookies raises, the exception is logged and
    raised again: it replaces the outcome of the body, and page close and
    context close are skipped. *)
Theorem session_exit_closes {A : Type} (body : Page -> prog A)
        (w w0 w1 : world) (r : res A) :
  run E (BrowserManager.session_entry self) w = (Ok tt, w0) ->
  run E (body ThePage) w0 = (r, w1) ->
  let out := run E (BrowserManager.get_page self body) w in
  let path :=
    CookieManager.cookie_file (BrowserManager.cookie_manager self) in
  (exists mid,
     calls (snd out) =
     (calls w1 ++ ContextCookies :: mid ++ [BrowserClose; PlaywrightStop])%list)
  /\
  (closes_ok E ->
   forall cs w2,
     browser E (calls w1) ContextCookies = Ok cs ->
     run E (BrowserManager.save_if_any self cs) (record ContextCookies w1)
     = (Ok tt, w2) ->
     fst out = r /\
     calls (snd out) =
     (calls w2 ++ [PageClose; ContextClose; BrowserClose; PlaywrightStop])%list)
  /\
  (closes_ok E ->
   forall cs e w2,
     browser E (calls w1) ContextCookies = Ok cs ->
     run E (BrowserManager.save_if_any self cs) (record ContextCookies w1)
     = (Err e, w2) ->
     fst out = Err e /\
     calls (snd out) = (calls w2 ++ [BrowserClose; PlaywrightStop])%list /\
     exists l,
       logs (snd out) =
       (l ++ [(ERROR, ("保存cookies失败: " ++ exn_msg e)%string)])%list)
  /\
  (forall c cs,
     browser E (calls w1) ContextCookies = Ok (c :: cs) ->
     exists rest,
       calls (snd out) =
       (calls w1 ++ [ContextCookies; OpenWrite path] ++ rest
        ++ [BrowserClose; PlaywrightStop])%list)
  /\
  (closes_ok E ->
   forall c cs w2,
     browser E (calls w1) ContextCookies = Ok (c :: cs) ->
     run E (BrowserManager.save_if_any self (c :: cs))
         (record ContextCookies w1) = (Ok tt, w2) ->
     calls (snd out) =
     (calls w1 ++ [ContextCookies; OpenWrite path;
                   JsonDump path (JArr (c :: cs));
                   PageClose; ContextClose; BrowserClose;
                   PlaywrightStop])%list
     /\ files (snd out) path =
        Some (RegularFile (fst (json_dumps E (JArr (c :: cs))))))
  /\
  (closes_ok E ->
   browser E (calls w1) ContextCookies = Ok [] ->
   calls (snd out) =
   (calls w1 ++ [ContextCookies; PageClose; ContextClose; BrowserClose;
                 PlaywrightStop])%list
   /\ files (snd out) = files w1).
Proof.
  intros Hentry Hbody out path. subst out path.
  rewrite (get_page_entered E self body w w0 Hentry), Hbody.
  split; [| split; [| split; [| split; [| split]]]].
  - destruct (save_and_close_calls E self w1) as [l Hl].
    destruct (run E (BrowserManager.save_and_close self) w1) as [r1 w2].
    cbn [snd] in Hl.
    destruct r1 as [[]|e1]; cbn [after_finally];
      browser_step; destruct (browser E _ BrowserClose) as [[]|e3];
      cbn [after_finally];
      browser_step; destruct (browser E _ PlaywrightStop) as [[]|e4];
      cbn [after_finally calls record snd]; rewrite Hl;
      exists l; rewrite <- !app_assoc; reflexivity.
  - intros Hok cs w2 Hcookies Hsave.
    rewrite save_and_close_run, Hcookies, Hsave.
    rewrite run_bind. browser_step. rewrite (proj1 (Hok _)).
    browser_step. rewrite (proj1 (proj2 (Hok _))). cbn [after_finally].
    browser_step. rewrite (proj1 (proj2 (proj2 (Hok _)))). cbn [after_finally].
    browser_step. rewrite (proj2 (proj2 (proj2 (Hok _)))). cbn [after_finally].
    split; [reflexivity|]. cbn [snd calls record].
    rewrite <- !app_assoc. reflexivity.
  - intros Hok cs e w2 Hcookies Hsave.
    rewrite save_and_close_run, Hcookies, Hsave. cbn [after_finally].
    browser_step. rewrite (proj1 (proj2 (proj2 (Hok _)))). cbn [after_finally].
    browser_step. rewrite (proj2 (proj2 (proj2 (Hok _)))). cbn [after_finally].
    split; [reflexivity|]. cbn [snd calls record logs].
    split; [rewrite <- !app_assoc; reflexivity|].
    destruct cs as [|c cs]; [discriminate|].
    eapply save_cookies_raises. exact Hsave.
  - intros c cs Hcookies.
    rewrite save_and_close_run, Hcookies. cbn [BrowserManager.save_if_any].
    destruct (save_cookies_opens (c :: cs) (record ContextCookies w1))
      as [l Hl].
    destruct (run E (CookieManager.save_cookies _ (c :: cs))
                (record ContextCookies w1)) as [[[]|e1] w2];
      cbn [snd calls record] in Hl.
    + match goal with
      | |- context [run E ?p w2] =>
          destruct (run_calls_extend E p w2) as [l2 Hl2];
          destruct (run E p w2) as [r3 w3]
      end. cbn [snd] in Hl2.
      destruct r3 as [[]|e3]; cbn [after_finally];
        browser_step; destruct (browser E _ BrowserClose) as [[]|e4];
        cbn [after_finally];
        browser_step; destruct (browser E _ PlaywrightStop) as [[]|e5];
        cbn [after_finally calls record snd]; rewrite Hl2, Hl;
        exists (l ++ l2)%list; rewrite <- !app_assoc; reflexivity.
    + cbn [after_finally];
        browser_step; destruct (browser E _ BrowserClose) as [[]|e4];
        cbn [after_finally];
        browser_step; destruct (browser E _ PlaywrightStop) as [[]|e5];
        cbn [after_finally calls record snd]; rewrite Hl;
        exists l; rewrite <- !app_assoc; reflexivity.
  - intros Hok c cs w2 Hcookies Hsave.
    rewrite save_and_close_run, Hcookies, Hsave.
    rewrite run_bind. browser_step. rewrite (proj1 (Hok _)).
    browser_step. rewrite (proj1 (proj2 (Hok _))). cbn [after_finally].
    browser_step. rewrite (proj1 (proj2 (proj2 (Hok _)))). cbn [after_finally].
    browser_step. rewrite (proj2 (proj2 (proj2 (Hok _)))). cbn [after_finally].
    cbn [snd calls files record]. cbn [BrowserManager.save_if_any] in Hsave.
    split.
    + rewrite (save_cookies_calls _ _ _ Hsave). cbn [calls record].
      rewrite <- !app_assoc. reflexivity.
    + exact (save_cookies_success E _ _ _ _ Hsave).
  - intros Hok Hcookies.
    rewrite save_and_close_run, Hcookies. cbn [BrowserManager.save_if_any run].
    rewrite run_bind. browser_step. rewrite (proj1 (Hok _)).
    browser_step. rewrite (proj1 (proj2 (Hok _))). cbn [after_finally].
    browser_step. rewrite (proj1 (proj2 (proj2 (Hok _)))). cbn [after_finally].
    browser_step. rewrite (proj2 (proj2 (proj2 (Hok _)))). cbn [after_finally].
    cbn [snd calls files record]. rewrite <- !app_assoc.
    split; reflexivity.
Qed.

End SessionExit.

(** C1 as stated fails: with a cookie file that cannot be opened for
    writing, a body that raises [boom] ends with the permission error
    instead, and neither the page nor the context is closed. *)
Lemma session_exit_save_failure :
  let out :=
    run env_read_only (BrowserManager.get_page manager0 body_boom) world0 in
  fst out = Err permission_denied /\
  calls (snd out) =
    [PlaywrightStart;
     Launch false BrowserManager.launch_args None;
     NewContext BrowserManager.user_agent;
     PathExists "cookies.json"; NewPage;
     ContextCookies; OpenWrite "cookies.json";
     BrowserClose; PlaywrightStop] /\
  logs (snd out) =
    [(WARNING, "Cookie文件不存在: cookies.json");
     (ERROR, "保存cookies失败: [Errno 13] Permission denied: 'cookies.json'")].
Proof. vm_compute. repeat split. Qed.

Lemma session_exit_closes_witness :
  let out :=
    run env_one_cookie (BrowserManager.get_page manager0 body_boom) world0 in
  fst out = Err (Exception "boom")
  /\ calls (snd out) =
     [PlaywrightStart;
      Launch false BrowserManager.launch_args None;
      NewContext BrowserManager.user_agent;
      PathExists "cookies.json"; NewPage;
      ContextCookies; OpenWrite "cookies.json";
      JsonDump "cookies.json" (JArr [cookie0]);
      PageClose; ContextClose; BrowserClose; PlaywrightStop]
  /\ files (snd out) "cookies.json" =
     Some (RegularFile (fst (RefJson.dumps (JArr [cookie0])))).
Proof.
  pose proof (session_exit_closes env_one_cookie manager0 body_boom world0
                (snd (run env_one_cookie
                        (BrowserManager.session_entry manager0) world0))
                _ (Err (Exception "boom")) eq_refl eq_refl) as H.
  cbv zeta in H.
  destruct H as [_ [H2 [_ [_ [H5 _]]]]].
  assert (Hok : closes_ok env_one_cookie) by (intros h; repeat split).
  split.
  - exact (proj1 (H2 Hok [cookie0] _ eq_refl eq_refl)).
  - exact (H5 Hok cookie0 [] _ eq_refl eq_refl).
Defined.



Lemma cookies_written_only_when_present_witness :
  run env_ok (BrowserManager.save_current_cookies manager0 ThePage) world0
  = (Ok tt, record ContextCookies world0).
Proof.
  apply (proj1 (proj2 (cookies_written_only_when_present env_ok manager0))).
  reflexivity.
Defined.

(* ================================================================== *)
(** ** The login-state detection chain *)

Section Login.
Variable E : env.
Variable self : XiaohongshuLogin.t.

Lemma check_selector_stage (indicator : string) (msg : string) (w : world) :
  stage E true
    (try_catch
       (element <- await (QuerySelector indicator) ;;
        match element with
        | Some _ => logger INFO msg ;; Ret (Return true)
        | None => Ret Next
        end)
       (fun _ => Ret Next))
    w [QuerySelector indicator].
Proof.
  unfold stage. rewrite run_try_catch, run_bind. browser_step.
  cbn [first_match is_match].
  destruct (browser E (calls w) (QuerySelector indicator)) as [[el|]|e];
    cbn [fst snd]; eexists; (split; [reflexivity|]); reflexivity.
Qed.


Lemma check_primary_stage (w : world) :
  stage E true (XiaohongshuLogin.check_primary self) w
        [QuerySelector (XiaohongshuLogin.login_indicator self)].
Proof.
  unfold stage, XiaohongshuLogin.check_primary.
  rewrite run_try_catch, run_bind. browser_step.
  cbn [first_match is_match].
  destruct (browser E (calls w) (QuerySelector _)) as [[el|]|e];
    cbn [fst snd]; eexists; (split; [reflexivity|]); reflexivity.
Qed.

Lemma check_user_indicators_stage (sels : list string) (w : world) :
  stage E true
    (for_each sels (fun indicator =>
       try_catch
         (element <- await (QuerySelector indicator) ;;
          match element with
          | Some _ =>
              logger INFO ("✅ 通过用户指示器 " ++ indicator
                           ++ " 检测到已登录状态") ;;
              Ret (Return true)
          | None => Ret Next
          end)
         (fun _ => Ret Next)))
    w (map QuerySelector sels).
Proof.
  revert w. induction sels as [|a sels IH]; intros w.
  - exists w. cbn. rewrite app_nil_r. split; reflexivity.
  - unfold stage. cbn [for_each map]. rewrite run_bind.
    destruct (check_selector_stage a
                ("✅ 通过用户指示器 " ++ a ++ " 检测到已登录状态") w)
      as [w1 [Hrun Hcalls]].
    rewrite Hrun. cbn [first_match] in *.
    destruct (is_match (QuerySelector a) (browser E (calls w) (QuerySelector a))).
    + cbn [fst snd] in *. exists w1. split; [reflexivity | exact Hcalls].
    + cbn [fst snd] in Hcalls. cbv beta iota.
      destruct (IH w1) as [w2 [Hrun2 Hcalls2]]. rewrite Hcalls in *.
      destruct (first_match E (calls w ++ [QuerySelector a])
                  (map QuerySelector sels)) as [made found].
      cbn [fst snd] in *. exists w2. split; [exact Hrun2|].
      rewrite Hcalls2, <- app_assoc. reflexivity.
Qed.

Lemma check_content_stage (w : world) :
  stage E true XiaohongshuLogin.check_content w [PageContent].
Proof.
  unfold stage, XiaohongshuLogin.check_content.
  rewrite run_try_catch, run_bind. browser_step.
  cbn [first_match is_match].
  destruct (browser E (calls w) PageContent) as [content|e].
  - cbv beta iota.
    destruct (existsb (fun keyword => py_in keyword content)
                XiaohongshuLogin.login_keywords);
      cbn [fst snd]; eexists; (split; [reflexivity|]); reflexivity.
  - cbn [fst snd]; eexists; (split; [reflexivity|]); reflexivity.
Qed.

Lemma check_url_run (w : world) :
  exists c w1,
    run E XiaohongshuLogin.check_url w = (Ok c, w1)
    /\ (c = Next \/ c = Return false)
    /\ calls w1 = (calls w ++ [PageUrl])%list.
Proof.
  unfold XiaohongshuLogin.check_url.
  rewrite run_try_catch, run_bind. browser_step.
  destruct (browser E (calls w) PageUrl) as [url|e].
  - cbv beta iota.
    destruct (py_in "login" (py_lower url) || py_in "signin" (py_lower url));
      do 2 eexists; (split; [reflexivity|]); split; auto.
  - do 2 eexists; (split; [reflexivity|]); split; auto.
Qed.

Lemma first_match_app (h l1 l2 : list call) :
  first_match E h (l1 ++ l2) =
  if snd (first_match E h l1) then first_match E h l1
  else ((l1 ++ fst (first_match E (h ++ l1) l2))%list,
        snd (first_match E (h ++ l1) l2)).
Proof.
  revert h. induction l1 as [|c l1 IH]; intros h.
  - cbn. rewrite app_nil_r. now destruct (first_match E h l2).
  - cbn [app first_match].
    destruct (is_match c (browser E h c)); [reflexivity|].
    rewrite IH.
    destruct (first_match E (h ++ [c]) l1) as [made found]. cbn [fst snd].
    destruct found; [reflexivity|].
    rewrite <- app_assoc. reflexivity.
Qed.

Lemma and_then_stage (p : prog (ctl bool)) (rest : prog bool) (w : world)
      (probes : list call) :
  stage E true p w probes ->
  exists w1,
    calls w1 = (calls w ++ fst (first_match E (calls w) probes))%list /\
    run E (and_then p rest) w =
    if snd (first_match E (calls w) probes) then (Ok true, w1)
    else run E rest w1.
Proof.
  intros [w1 [Hrun Hcalls]]. exists w1. split; [exact Hcalls|].
  rewrite run_and_then, Hrun.
  destruct (snd (first_match E (calls w) probes)); reflexivity.
Qed.

Lemma first_match_all_made (h probes : list call) :
  snd (first_match E h probes) = false ->
  fst (first_match E h probes) = probes.
Proof.
  revert h. induction probes as [|c l IH]; intros h; cbn [first_match].
  - reflexivity.
  - destruct (is_match c (browser E h c)); [discriminate|].
    specialize (IH (h ++ [c])%list).
    destruct (first_match E (h ++ [c]) l) as [made found]. cbn [fst snd] in *.
    intros Hf. rewrite (IH Hf). reflexivity.
Qed.

Lemma chain_first_match (w : world) :
  exists w',
    run E (XiaohongshuLogin._check_login_with_multiple_methods self) w =
    (Ok (snd (first_match E (calls w) (login_probes self))), w')
    /\ calls w' =
       (calls w ++ fst (first_match E (calls w) (login_probes self)))%list.
Proof.
  unfold XiaohongshuLogin._check_login_with_multiple_methods, login_probes.
  change (?c :: ?l ++ ?r)%list with ([c] ++ l ++ r)%list.
  set (p1 := [QuerySelector (XiaohongshuLogin.login_indicator self)]).
  set (p2 := map QuerySelector XiaohongshuLogin.user_indicators).
  destruct (and_then_stage _
              (and_then XiaohongshuLogin.check_user_indicators
                 (and_then XiaohongshuLogin.check_content
                    (and_then XiaohongshuLogin.check_url
                       (logger INFO "❌ 所有方法都未检测到登录状态" ;;
                        Ret false))))
              w p1 (check_primary_stage w)) as [w1 [Hc1 Hr1]].
  rewrite Hr1, first_match_app.
  destruct (snd (first_match E (calls w) p1)) eqn:Hm1.
  { exists w1. rewrite Hm1. split; [reflexivity|exact Hc1]. }
  rewrite (first_match_all_made _ _ Hm1) in Hc1.
  destruct (and_then_stage _
              (and_then XiaohongshuLogin.check_content
                 (and_then XiaohongshuLogin.check_url
                    (logger INFO "❌ 所有方法都未检测到登录状态" ;;
                     Ret false)))
              w1 p2
              (check_user_indicators_stage XiaohongshuLogin.user_indicators w1))
    as [w2 [Hc2 Hr2]].
  unfold XiaohongshuLogin.check_user_indicators.
  rewrite Hr2, Hc1 in *. cbn [fst snd]. rewrite first_match_app.
  destruct (snd (first_match E (calls w ++ p1) p2)) eqn:Hm2.
  { exists w2. rewrite Hm2. split; [reflexivity|]. rewrite Hc2, <- app_assoc. reflexivity. }
  rewrite (first_match_all_made _ _ Hm2) in Hc2. cbn [fst snd].
  destruct (and_then_stage _
              (and_then XiaohongshuLogin.check_url
                 (logger INFO "❌ 所有方法都未检测到登录状态" ;;
                  Ret false))
              w2 [PageContent] (check_content_stage w2)) as [w3 [Hc3 Hr3]].
  rewrite Hr3, Hc2 in *. rewrite <- !app_assoc in *.
  change ([PageContent; PageUrl]) with ([PageContent] ++ [PageUrl])%list.
  rewrite first_match_app.
  destruct (snd (first_match E (calls w ++ p1 ++ p2) [PageContent])) eqn:Hm3.
  { exists w3. rewrite Hm3. split; [reflexivity|]. rewrite Hc3. reflexivity. }
  rewrite (first_match_all_made _ _ Hm3) in Hc3. cbn [fst snd first_match is_match].
  rewrite run_and_then.
  destruct (check_url_run w3) as [c [w4 [Hr4 [Hc Hc4]]]]. rewrite Hr4.
  destruct Hc as [-> | ->].
  - rewrite run_bind, run_logger. cbn [run]. eexists. split; [reflexivity|].
    cbn [calls add_log]. rewrite Hc4, Hc3, <- !app_assoc. reflexivity.
  - eexists. split; [reflexivity|].
    rewrite Hc4, Hc3, <- !app_assoc. reflexivity.
Qed.

Lemma is_match_err (c : call) (e : exn) : is_match c (Err e) = false.
Proof. destruct c; reflexivity. Qed.

(** C3.  When the primary indicator is found, the chain returns true after
    that single lookup: no later heuristic is consulted, whatever it would
    have answered.  In general the chain makes the probes of
    [login_probes] in that order and stops at the first match. *)
Theorem primary_indicator_short_circuits (w : world) :
  (forall el,
     browser E (calls w)
             (QuerySelector (XiaohongshuLogin.login_indicator self))
     = Ok (Some el) ->
     exists w',
       run E (XiaohongshuLogin._check_login_with_multiple_methods self) w
       = (Ok true, w')
       /\ calls w' =
          (calls w
           ++ [QuerySelector (XiaohongshuLogin.login_indicator self)])%list)
  /\
  (exists w',
     run E (XiaohongshuLogin._check_login_with_multiple_methods self) w =
     (Ok (snd (first_match E (calls w) (login_probes self))), w')
     /\ calls w' =
        (calls w ++ fst (first_match E (calls w) (login_probes self)))%list).
Proof.
  split; [| apply chain_first_match].
  intros el Hel. destruct (chain_first_match w) as [w' [Hrun Hcalls]].
  exists w'. revert Hrun Hcalls. unfold login_probes.
  cbn [first_match is_match]. rewrite Hel. cbn [fst snd]. auto.
Qed.

(** C7.  When the navigation to the landing page raises,
    [check_login_status] logs the error and returns false; it never
    raises.  A probe of the chain that raises is a probe that does not
    match: the chain goes on with the probes after it, and they decide the
    result. *)
Theorem check_login_status_absorbs_exceptions (w : world) :
  (forall e,
     browser E (calls w)
             (Goto (XiaohongshuLogin.base_url self) (Some 15000%Z)) = Err e ->
     run E (XiaohongshuLogin.check_login_status self) w =
     (Ok false,
      add_log ERROR ("检查登录状态时出错: " ++ exn_msg e)
        (record (Goto (XiaohongshuLogin.base_url self) (Some 15000%Z))
           (add_log INFO "正在检查登录状态..." w))))
  /\
  (exists b w', run E (XiaohongshuLogin.check_login_status self) w = (Ok b, w'))
  /\
  (forall pre c post e,
     login_probes self = (pre ++ c :: post)%list ->
     snd (first_match E (calls w) pre) = false ->
     browser E (calls w ++ pre) c = Err e ->
     exists w',
       run E (XiaohongshuLogin._check_login_with_multiple_methods self) w =
       (Ok (snd (first_match E (calls w ++ pre ++ [c]) post)), w')
       /\ calls w' =
          (calls w ++ pre ++ c
             :: fst (first_match E (calls w ++ pre ++ [c]) post))%list).
Proof.
  split; [| split].
  - intros e Hgoto. unfold XiaohongshuLogin.check_login_status.
    rewrite run_try_catch, run_bind, run_logger, run_bind.
    browser_step. cbn [calls add_log]. rewrite Hgoto.
    rewrite run_bind, run_logger. reflexivity.
  - unfold XiaohongshuLogin.check_login_status. rewrite run_try_catch.
    destruct (run E _ w) as [[b|e] w'].
    + eauto.
    + rewrite run_bind, run_logger. cbn [run]. eauto.
  - intros pre c post e Hsplit Hpre Herr.
    destruct (chain_first_match w) as [w' [Hrun Hcalls]].
    exists w'. revert Hrun Hcalls. rewrite Hsplit, first_match_app, Hpre.
    cbn [first_match fst snd]. rewrite Herr, is_match_err.
    rewrite <- !app_assoc. cbn [app].
    destruct (first_match E (calls w ++ pre ++ [c]) post) as [made found].
    cbn [fst snd]. auto.
Qed.

End Login.

Lemma primary_indicator_short_circuits_witness :
  exists w',
    run env_ok
        (XiaohongshuLogin._check_login_with_multiple_methods
           (XiaohongshuLogin.new ThePage)) world0
    = (Ok true, w')
    /\ calls w' =
       [QuerySelector ".main-container .user .link-wrapper .channel"].
Proof.
  apply (proj1 (primary_indicator_short_circuits env_ok
                  (XiaohongshuLogin.new ThePage) world0) 0).
  reflexivity.
Defined.

Lemma check_login_status_absorbs_exceptions_witness :
  run env_offline
      (XiaohongshuLogin.check_login_status (XiaohongshuLogin.new ThePage))
      world0
  = (Ok false,
     add_log ERROR "检查登录状态时出错: net::ERR_INTERNET_DISCONNECTED"
       (record (Goto "https://www.xiaohongshu.com/explore" (Some 15000%Z))
          (add_log INFO "正在检查登录状态..." world0))).
Proof.
  apply (proj1 (check_login_status_absorbs_exceptions env_offline
                  (XiaohongshuLogin.new ThePage) world0)
           (Exception "net::ERR_INTERNET_DISCONNECTED")).
  reflexivity.
Defined.

(* ================================================================== *)
(** ** The publish flow *)

Section Emits.
Context {A : Type} (P : call -> Prop).

Lemma emits_bind {B : Type} (p : prog A) (f : A -> prog B) :
  emits P p -> (forall a, emits P (f a)) -> emits P (bind p f).
Proof.
  intros Hp Hf. induction Hp; cbn [bind]; auto.
  - constructor.
  - constructor; auto.
Qed.

Lemma emits_try_catch (p : prog A) (h : exn -> prog A) :
  emits P p -> (forall e, emits P (h e)) -> emits P (try_catch p h).
Proof.
  intros Hp Hh. induction Hp; cbn [try_catch]; auto.
  - constructor.
  - constructor; auto.
Qed.

Lemma emits_await (c : call) : P c -> emits P (await c).
Proof. intros Hc. constructor; auto. intros [v|e]; constructor. Qed.

Lemma emits_run (E : env) (p : prog A) :
  emits P p ->
  forall w, exists l,
    calls (snd (run E p w)) = (calls w ++ l)%list /\ Forall P l.
Proof.
  induction 1 as [a | e | c k Hc Hk IH]; intros w; cbn [run].
  - exists []. cbn. rewrite app_nil_r. auto.
  - exists []. cbn. rewrite app_nil_r. auto.
  - pose proof (perform_calls E c w) as Hp.
    destruct (perform E c w) as [r w1]. cbn [snd] in Hp.
    destruct (IH r w1) as [l [Hl HP]]. rewrite Hl, Hp.
    destruct c; try (exists l; split; [reflexivity | exact HP]);
      (eexists; split; [rewrite <- app_assoc; reflexivity |]);
      constructor; auto.
Qed.
End Emits.

Lemma emits_for_each {X R : Type} (P : call -> Prop) (xs : list X)
      (body : X -> prog (ctl R)) :
  (forall x, emits P (body x)) -> emits P (for_each xs body).
Proof.
  intros Hb. induction xs as [|x xs IH]; cbn [for_each].
  - constructor.
  - apply emits_bind; auto. intros [| |v]; auto; constructor.
Qed.

Lemma emits_and_then {R : Type} (P : call -> Prop) (p : prog (ctl R))
      (rest : prog R) :
  emits P p -> emits P rest -> emits P (and_then p rest).
Proof.
  intros Hp Hr. unfold and_then. apply emits_bind; auto.
  intros [| |v]; auto; constructor.
Qed.

Ltac emits_tac :=
  repeat first
    [ apply emits_bind
    | apply emits_try_catch
    | apply emits_and_then
    | apply emits_for_each
    | match goal with
      | |- @emits ?T ?P (perform_call ?c) =>
          change (@emits (ret c) P (perform_call c));
          apply emits_await; reflexivity
      end
    | apply emits_Ret
    | apply emits_Raise
    | progress intros
    | match goal with
      | |- emits _ (match ?x with _ => _ end) => destruct x
      | |- emits _ (if ?x then _ else _) => destruct x
      | |- emits _ (let '(_, _) := ?x in _) => destruct x
      end
    | progress unfold logger, asyncio_sleep, attribute_of, lift_res ].

Lemma click_upload_tab_quiet : emits quiet XiaohongshuPublish._click_upload_tab.
Proof. unfold XiaohongshuPublish._click_upload_tab. emits_tac. Qed.



Section Publish.
Variable E : env.
Variable self : XiaohongshuPublish.t.



(** The run of [publish_content], stage by stage. *)
Lemma publish_content_run (title content : string) (paths : list string)
      (w : world) :
  run E (XiaohongshuPublish.publish_content self title content paths) w =
  let fail e w' :=
    (Ok false, add_log ERROR ("发布内容时出错: " ++ exn_msg e) w') in
  match run E (XiaohongshuPublish._validate_images paths)
            (add_log INFO "开始发布内容..." w) with
  | (Err e, w1) => fail e w1
  | (Ok false, w1) => (Ok false, w1)
  | (Ok true, w1) =>
  match run E (XiaohongshuPublish._navigate_to_publish_page self) w1 with
  | (Err e, w2) => fail e w2
  | (Ok _, w2) =>
  match run E (XiaohongshuPublish._upload_images paths) w2 with
  | (Err e, w3) => fail e w3
  | (Ok _, w3) =>
  match run E (XiaohongshuPublish._fill_content title content) w3 with
  | (Err e, w4) => fail e w4
  | (Ok _, w4) =>
  match run E XiaohongshuPublish._submit_publish w4 with
  | (Err e, w5) => fail e w5
  | (Ok _, w5) => (Ok true, add_log SUCCESS "🎉 内容发布成功！" w5)
  end end end end end.
Proof.
  unfold XiaohongshuPublish.publish_content.
  rewrite run_try_catch, run_bind, run_logger, run_bind.
  destruct (run E (XiaohongshuPublish._validate_images paths) _)
    as [[[|]|e] w1]; cbn [negb]; try reflexivity.
  rewrite run_bind.
  destruct (run E (XiaohongshuPublish._navigate_to_publish_page self) w1)
    as [[[]|e] w2]; try reflexivity.
  rewrite run_bind.
  destruct (run E (XiaohongshuPublish._upload_images paths) w2)
    as [[[]|e] w3]; try reflexivity.
  rewrite run_bind.
  destruct (run E (XiaohongshuPublish._fill_content title content) w3)
    as [[[]|e] w4]; try reflexivity.
  rewrite run_bind.
  destruct (run E XiaohongshuPublish._submit_publish w4)
    as [[[]|e] w5]; reflexivity.
Qed.


Lemma submit_publish_clicks (w4 w5 : world) :
  run E XiaohongshuPublish._submit_publish w4 = (Ok tt, w5) ->
  exists el,
    calls w5 =
    (calls w4 ++ [Sleep 1;
                  WaitForSelector XiaohongshuPublish.submit_selector 10000;
                  Click el; Sleep 3])%list.
Proof.
  unfold XiaohongshuPublish._submit_publish.
  rewrite run_bind, run_logger, run_try_catch, run_bind, run_sleep.
  rewrite run_bind, run_logger, run_bind. browser_step. cbn [calls add_log record].
  destruct (browser E _ (WaitForSelector _ _)) as [[el|]|e].
  - rewrite run_bind, run_logger, run_bind. cbn [attribute_of].
    browser_step. cbn [calls add_log record].
    destruct (browser E _ (Click el)) as [[]|e].
    + rewrite run_bind, run_logger, run_bind, run_sleep, run_logger.
      intros H. inversion H; subst. exists el.
      cbn [calls add_log record]. rewrite <- !app_assoc. reflexivity.
    + destruct (exn_cls e); cbn; discriminate.
  - rewrite run_bind, run_logger, run_bind. cbn; discriminate.
  - destruct (exn_cls e); cbn; discriminate.
Qed.

(** C9.  [publish_content] returns a boolean for every input and every
    behaviour of the page: it never raises.  It returns true only when the
    validation, the navigation, the upload, the filling and the submit
    stage each returned normally, the submit stage ending with the click on
    the submit button.  An exception raised by a stage is logged and turned
    into false. *)
Theorem publish_content_total (title content : string) (paths : list string)
        (w : world) :
  let publish :=
    run E (XiaohongshuPublish.publish_content self title content paths) w in
  let start := add_log INFO "开始发布内容..." w in
  let failed e w' :=
    (Ok false, add_log ERROR ("发布内容时出错: " ++ exn_msg e) w') in
  (exists b w', publish = (Ok b, w'))
  /\
  (forall w',
     publish = (Ok true, w') ->
     exists w1 w2 w3 w4 w5 el,
       run E (XiaohongshuPublish._validate_images paths) start = (Ok true, w1)
       /\ run E (XiaohongshuPublish._navigate_to_publish_page self) w1
          = (Ok tt, w2)
       /\ run E (XiaohongshuPublish._upload_images paths) w2 = (Ok tt, w3)
       /\ run E (XiaohongshuPublish._fill_content title content) w3
          = (Ok tt, w4)
       /\ run E XiaohongshuPublish._submit_publish w4 = (Ok tt, w5)
       /\ calls w5 =
          (calls w4
           ++ [Sleep 1;
               WaitForSelector XiaohongshuPublish.submit_selector 10000;
               Click el; Sleep 3])%list
       /\ w' = add_log SUCCESS "🎉 内容发布成功！" w5)
  /\
  (forall w1,
     run E (XiaohongshuPublish._validate_images paths) start = (Ok true, w1) ->
     (forall e w2,
        run E (XiaohongshuPublish._navigate_to_publish_page self) w1
        = (Err e, w2) ->
        publish = failed e w2)
     /\
     (forall w2,
        run E (XiaohongshuPublish._navigate_to_publish_page self) w1
        = (Ok tt, w2) ->
        (forall e w3,
           run E (XiaohongshuPublish._upload_images paths) w2 = (Err e, w3) ->
           publish = failed e w3)
        /\
        (forall w3,
           run E (XiaohongshuPublish._upload_images paths) w2 = (Ok tt, w3) ->
           (forall e w4,
              run E (XiaohongshuPublish._fill_content title content) w3
              = (Err e, w4) ->
              publish = failed e w4)
           /\
           (forall w4 e w5,
              run E (XiaohongshuPublish._fill_content title content) w3
              = (Ok tt, w4) ->
              run E XiaohongshuPublish._submit_publish w4 = (Err e, w5) ->
              publish = failed e w5)))).
Proof.
  intros publish start failed. subst publish start failed.
  rewrite publish_content_run. cbv zeta.
  split; [| split].
  - repeat match goal with
           | |- context [match run E ?p ?w0 with _ => _ end] =>
               destruct (run E p w0) as [[[]|?] ?]; cbv beta iota
           end; eauto.
  - intros w'.
    destruct (run E (XiaohongshuPublish._validate_images paths) _)
      as [[[|]|e] w1] eqn:Hv; try discriminate.
    destruct (run E (XiaohongshuPublish._navigate_to_publish_page self) w1)
      as [[[]|e] w2] eqn:Hn; try discriminate.
    destruct (run E (XiaohongshuPublish._upload_images paths) w2)
      as [[[]|e] w3] eqn:Hu; try discriminate.
    destruct (run E (XiaohongshuPublish._fill_content title content) w3)
      as [[[]|e] w4] eqn:Hf; try discriminate.
    destruct (run E XiaohongshuPublish._submit_publish w4)
      as [[[]|e] w5] eqn:Hsubmit; try discriminate.
    intros H. inversion H; subst.
    destruct (submit_publish_clicks w4 w5 Hsubmit) as [el Hel].
    exists w1, w2, w3, w4, w5, el. repeat split; auto.
  - intros w1 Hv. rewrite Hv. split.
    + intros e w2 Hn. rewrite Hn. reflexivity.
    + intros w2 Hn. rewrite Hn. split.
      * intros e w3 Hu. rewrite Hu. reflexivity.
      * intros w3 Hu. rewrite Hu. split.
        -- intros e w4 Hf. rewrite Hf. reflexivity.
        -- intros w4 e w5 Hf Hs. rewrite Hf, Hs. reflexivity.
Qed.


End Publish.

(* ------------------------------------------------------------------ *)
(** *** The wait for the editor *)

Section Wait.
Variable E : env.

Lemma edit_indicators_stage (sels : list string) (w : world) :
  stage E tt
    (for_each sels (fun indicator =>
       try_catch
         (element <- await (QuerySelector indicator) ;;
          match element with
          | Some _ =>
              logger INFO ("✅ 检测到编辑界面元素: " ++ indicator) ;;
              logger INFO "✅ 图片上传完成，编辑界面已就绪" ;;
              Ret (Return tt)
          | None => Ret Next
          end)
         (fun _ => Ret Next)))
    w (map QuerySelector sels).
Proof.
  revert w. induction sels as [|a sels IH]; intros w.
  - exists w. cbn. rewrite app_nil_r. split; reflexivity.
  - unfold stage. cbn [for_each map first_match]. rewrite run_bind.
    rewrite run_try_catch, run_bind. browser_step. cbn [is_match].
    destruct (browser E (calls w) (QuerySelector a)) as [[el|]|e].
    + cbn [fst snd]. eexists. split; reflexivity.
    + cbv beta iota. cbn [run].
      destruct (IH (record (QuerySelector a) w)) as [w2 [Hrun2 Hcalls2]].
      cbn [calls record] in *.
      destruct (first_match E (calls w ++ [QuerySelector a])
                  (map QuerySelector sels)) as [made found].
      cbn [fst snd] in *. exists w2. split; [exact Hrun2|].
      rewrite Hcalls2, <- app_assoc. reflexivity.
    + cbv beta iota. cbn [run].
      destruct (IH (record (QuerySelector a) w)) as [w2 [Hrun2 Hcalls2]].
      cbn [calls record] in *.
      destruct (first_match E (calls w ++ [QuerySelector a])
                  (map QuerySelector sels)) as [made found].
      cbn [fst snd] in *. exists w2. split; [exact Hrun2|].
      rewrite Hcalls2, <- app_assoc. reflexivity.
Qed.

(** X3.  The editor-readiness wait makes one pass over the indicators.  If one
    is found it returns; if none is found, the lookup of the inputs is
    followed by the [TypeError] of [all], so the second iteration is never
    reached. *)
Lemma wait_for_upload_complete_single_pass (w : world) :
  let h := (calls w ++ [Sleep 3])%list in
  let fm :=
    first_match E h (map QuerySelector XiaohongshuPublish.edit_indicators) in
  exists w',
    run E XiaohongshuPublish._wait_for_upload_complete w =
    (if snd fm then Ok tt
     else match browser E (h ++ fst fm) (QuerySelectorAll "input") with
          | Ok _ => Err (Exception "'async_generator' object is not iterable")
          | Err e => Err e
          end,
     w')
    /\ calls w' =
       (h ++ fst fm
          ++ (if snd fm then [] else [QuerySelectorAll "input"]))%list.
Proof.
  intros h fm. subst h fm.
  unfold XiaohongshuPublish._wait_for_upload_complete.
  rewrite run_bind, run_logger, run_bind, run_sleep, run_and_then.
  change (seq 0 15) with (0 :: seq 1 14). cbn [for_each].
  rewrite run_bind, run_bind, run_logger, run_bind.
  destruct (edit_indicators_stage XiaohongshuPublish.edit_indicators
              (add_log INFO ("检查编辑界面是否就绪... (尝试 "
                             ++ str_of_nat (0 + 1) ++ "/15)")
                 (record (Sleep 3)
                    (add_log INFO "等待图片上传完成并进入编辑界面..." w))))
    as [w1 [Hrun Hcalls]].
  cbn [calls add_log record] in *. rewrite Hrun.
  destruct (snd (first_match E (calls w ++ [Sleep 3])
                   (map QuerySelector XiaohongshuPublish.edit_indicators))).
  - cbn [run]. exists w1. split; [reflexivity|].
    rewrite Hcalls, app_nil_r. reflexivity.
  - rewrite run_bind. browser_step. rewrite Hcalls.
    destruct (browser E _ (QuerySelectorAll "input")) as [inputs|e].
    + cbn [run bind all_of_async_generator]. eexists. split; [reflexivity|].
      cbn [calls record]. rewrite Hcalls, <- !app_assoc. reflexivity.
    + cbn [run]. eexists. split; [reflexivity|].
      cbn [calls record]. rewrite Hcalls, <- !app_assoc. reflexivity.
Qed.
End Wait.

(** C8 at a failing input: on a page where no editor indicator is found,
    the wait raises after the first pass instead of polling 15 times and
    returning. *)
Lemma wait_for_upload_complete_raises_without_editor :
  let out :=
    run env_no_editor XiaohongshuPublish._wait_for_upload_complete world0 in
  fst out = Err (Exception "'async_generator' object is not iterable")
  /\ calls (snd out) =
     (Sleep 3 :: map QuerySelector XiaohongshuPublish.edit_indicators
      ++ [QuerySelectorAll "input"])%list.
Proof. vm_compute. split; reflexivity. Qed.

(** The same page fails the whole publish flow at the upload stage. *)
Lemma publish_fails_without_editor :
  let out :=
    run env_no_editor
        (XiaohongshuPublish.publish_content publisher0 "title" "content"
           ["/tmp/a.png"]) world_images in
  fst out = Ok false
  /\ last (logs (snd out)) (INFO, EmptyString) =
     (ERROR, "发布内容时出错: 上传图片失败: 'async_generator' object is not iterable").
Proof. vm_compute. split; reflexivity. Qed.

(* ================================================================== *)
(** ** The validation of a Publish Request *)

Section PathTests.
Variable E : env.

Lemma run_path_exists (p : string) (w : world) :
  io_fault E (calls w) (Stat p) = None ->
  run E (path_exists p) w =
  (Ok (match files w p with Some _ => true | None => false end),
   record (PathExists p) (record (Stat p) w)).
Proof.
  intros Hs. unfold path_exists. rewrite run_bind, run_await.
  unfold perform at 1, local_effect, fault_or. rewrite Hs.
  rewrite run_await. reflexivity.
Qed.

Lemma run_path_is_file (p : string) (w : world) :
  io_fault E (calls w) (Stat p) = None ->
  run E (path_is_file p) w =
  (Ok (match files w p with Some (RegularFile _) => true | _ => false end),
   record (PathIsFile p) (record (Stat p) w)).
Proof.
  intros Hs. unfold path_is_file. rewrite run_bind, run_await.
  unfold perform at 1, local_effect, fault_or. rewrite Hs.
  rewrite run_await. reflexivity.
Qed.

Lemma run_path_exists_fault (p : string) (w : world) (e : exn) :
  io_fault E (calls w) (Stat p) = Some e ->
  run E (path_exists p) w = (Err e, record (Stat p) w).
Proof.
  intros Hs. unfold path_exists. rewrite run_bind, run_await.
  unfold perform at 1, local_effect, fault_or. rewrite Hs. reflexivity.
Qed.

End PathTests.

Section Validate.
Variable E : env.

Lemma validate_images_loop (paths : list string) (w : world) :
  stat_ok E paths ->
  exists w',
    run E
      (for_each paths (fun image_path =>
         present <- path_exists image_path ;;
         if negb present then
           logger ERROR ("图片文件不存在: " ++ image_path) ;;
           Ret (Return false)
         else
           regular <- path_is_file image_path ;;
           if negb regular then
             logger ERROR ("路径不是文件: " ++ image_path) ;;
             Ret (Return false)
           else if negb (mem_string (py_lower (path_suffix image_path))
                                    Cli.image_suffixes) then
             logger ERROR ("不支持的图片格式: " ++ image_path) ;;
             Ret (Return false)
           else Ret Next)) w
    = (Ok (if forallb (image_ok (files w)) paths then Next else Return false),
       w')
    /\ files w' = files w
    /\ exists l, calls w' = (calls w ++ l)%list
                 /\ forallb is_path_test l = true.
Proof.
  revert w. induction paths as [|p paths IH]; intros w Hstat.
  - exists w. cbn. split; [reflexivity|]. split; [reflexivity|].
    exists []. rewrite app_nil_r. auto.
  - assert (Hrest : stat_ok E paths)
      by (intros h q Hq; apply Hstat; right; exact Hq).
    cbn [for_each forallb]. rewrite run_bind, run_bind.
    rewrite run_path_exists by (apply Hstat; left; reflexivity).
    unfold image_ok at 1.
    destruct (files w p) as [[content|]|] eqn:Hf; cbn [negb].
    + rewrite run_bind.
      rewrite run_path_is_file by (apply Hstat; left; reflexivity).
      cbn [files record]. rewrite Hf. cbn [negb].
      destruct (mem_string (py_lower (path_suffix p)) Cli.image_suffixes);
        cbn [negb andb].
      * cbn [run].
        destruct (IH (record (PathIsFile p) (record (Stat p)
                        (record (PathExists p) (record (Stat p) w)))) Hrest)
          as [w' [Hrun [Hfiles [l [Hl Hq]]]]].
        cbn [files record calls] in *. rewrite Hrun.
        exists w'. split.
        { destruct (forallb (image_ok (files w)) paths); reflexivity. }
        split; [exact Hfiles|].
        exists ([Stat p; PathExists p; Stat p; PathIsFile p] ++ l)%list.
        rewrite Hl, <- !app_assoc. split; [reflexivity|].
        rewrite forallb_app, Hq. reflexivity.
      * rewrite run_bind, run_logger. cbn [run].
        eexists. split; [reflexivity|]. split; [reflexivity|].
        exists [Stat p; PathExists p; Stat p; PathIsFile p].
        cbn [calls add_log record]. rewrite <- !app_assoc. auto.
    + rewrite run_bind.
      rewrite run_path_is_file by (apply Hstat; left; reflexivity).
      cbn [files record]. rewrite Hf. cbn [negb].
      rewrite run_bind, run_logger. cbn [run andb].
      eexists. split; [reflexivity|]. split; [reflexivity|].
      exists [Stat p; PathExists p; Stat p; PathIsFile p].
      cbn [calls add_log record]. rewrite <- !app_assoc. auto.
    + rewrite run_bind, run_logger. cbn [run andb].
      eexists. split; [reflexivity|]. split; [reflexivity|].
      exists [Stat p; PathExists p]. cbn [calls add_log record].
      rewrite <- !app_assoc. auto.
Qed.

(** X1.  When the operating system answers the [stat] of every image path,
    [validate_args] returns whether the request is a Publish Request; it
    only looks at the file system and changes no file. *)
Theorem validate_args_decides (a : Cli.args) (w : world) :
  stat_ok E (Cli.images a) ->
  exists w',
    run E (Cli.validate_args a) w = (Ok (request_ok (files w) a), w')
    /\ files w' = files w
    /\ exists l, calls w' = (calls w ++ l)%list
                 /\ forallb is_path_test l = true.
Proof.
  intros Hstat. unfold Cli.validate_args, request_ok.
  rewrite run_bind, run_logger.
  destruct (strip_is_empty (Cli.title a)); cbn [negb andb].
  { rewrite run_bind, run_logger. cbn [run]. eexists.
    split; [reflexivity|]. split; [reflexivity|].
    exists []. cbn. rewrite app_nil_r. auto. }
  destruct (40 <? py_len (Cli.title a))%nat eqn:Hlen.
  { apply Nat.ltb_lt in Hlen.
    assert (Hle : (py_len (Cli.title a) <=? 40)%nat = false)
      by (apply Nat.leb_gt; lia).
    rewrite Hle. rewrite run_bind, run_logger. cbn [run andb]. eexists.
    split; [reflexivity|]. split; [reflexivity|].
    exists []. cbn. rewrite app_nil_r. auto. }
  apply Nat.ltb_ge in Hlen.
  assert (Hle : (py_len (Cli.title a) <=? 40)%nat = true)
    by (apply Nat.leb_le; lia).
  rewrite Hle. cbn [andb].
  destruct (strip_is_empty (Cli.content a)); cbn [negb andb].
  { rewrite run_bind, run_logger. cbn [run]. eexists.
    split; [reflexivity|]. split; [reflexivity|].
    exists []. cbn. rewrite app_nil_r. auto. }
  destruct (Cli.images a) as [|p paths] eqn:Himg.
  { rewrite run_bind, run_logger. cbn [run]. eexists.
    split; [reflexivity|]. split; [reflexivity|].
    exists []. cbn. rewrite app_nil_r. auto. }
  rewrite run_and_then.
  destruct (validate_images_loop (p :: paths)
              (add_log INFO "验证发布参数..." w) Hstat)
    as [w' [Hrun [Hfiles [l [Hl Hq]]]]].
  rewrite Hrun. cbn [files add_log calls] in *.
  destruct (forallb (image_ok (files w)) (p :: paths)).
  - rewrite run_bind, run_logger. cbn [run]. eexists.
    split; [reflexivity|]. split; [exact Hfiles|].
    exists l. auto.
  - exists w'. split; [reflexivity|]. split; [exact Hfiles|]. exists l. auto.
Qed.

(** X2.  The order of the checks of [validate_args].  A blank title, a
    title of more than 40 characters, a blank content or an empty image
    list is refused before any path is looked at, whatever the file system
    would answer.  [validate_args] has no handler of its own and is called
    outside the [try] of [main_async]: an error of the operating system on
    the first image path leaves both as it is. *)
Theorem validate_args_order (a : Cli.args) (w : world) :
  let out := run E (Cli.validate_args a) w in
  (strip_is_empty (Cli.title a) = true
   \/ 40 < py_len (Cli.title a)
   \/ strip_is_empty (Cli.content a) = true
   \/ Cli.images a = [] ->
   fst out = Ok false
   /\ calls (snd out) = calls w
   /\ files (snd out) = files w)
  /\
  (forall p ps e,
     strip_is_empty (Cli.title a) = false ->
     py_len (Cli.title a) <= 40 ->
     strip_is_empty (Cli.content a) = false ->
     Cli.images a = p :: ps ->
     io_fault E (calls w) (Stat p) = Some e ->
     fst out = Err e
     /\ calls (snd out) = (calls w ++ [Stat p])%list
     /\ fst (run E (Cli.main_async a) w) = Err e).
Proof.
  intros out. subst out. split.
  - intros Hbad. unfold Cli.validate_args. rewrite run_bind, run_logger.
    destruct (strip_is_empty (Cli.title a)) eqn:Ht.
    { rewrite run_bind, run_logger. cbn. auto. }
    destruct (40 <? py_len (Cli.title a))%nat eqn:Hlen.
    { rewrite run_bind, run_logger. cbn. auto. }
    apply Nat.ltb_ge in Hlen.
    destruct (strip_is_empty (Cli.content a)) eqn:Hc.
    { rewrite run_bind, run_logger. cbn. auto. }
    destruct (Cli.images a) as [|p ps] eqn:Hi.
    { rewrite run_bind, run_logger. cbn. auto. }
    destruct Hbad as [H|[H|[H|H]]]; try discriminate. lia.
  - intros p ps e Ht Hlen Hc Hi Hfault.
    assert (Hv : run E (Cli.validate_args a) w =
                 (Err e, record (Stat p) (add_log INFO "验证发布参数..." w))).
    { unfold Cli.validate_args. rewrite run_bind, run_logger, Ht.
      assert (Hl : (40 <? py_len (Cli.title a))%nat = false)
        by (apply Nat.ltb_ge; lia).
      rewrite Hl, Hc, Hi. rewrite run_and_then. cbn [for_each].
      rewrite run_bind, run_bind.
      rewrite (run_path_exists_fault E p _ e) by exact Hfault.
      reflexivity. }
    rewrite Hv. cbn [fst snd calls record add_log].
    split; [reflexivity|]. split; [reflexivity|].
    unfold Cli.main_async. rewrite run_bind, Hv. reflexivity.
Qed.

End Validate.

Lemma validate_args_decides_witness :
  exists w',
    run env_ok (Cli.validate_args args_bmp) world_images = (Ok false, w')
    /\ files w' = files world_images
    /\ exists l, calls w' = (calls world_images ++ l)%list
                 /\ forallb is_path_test l = true.
Proof.
  apply (validate_args_decides env_ok args_bmp world_images).
  intros h p Hp. reflexivity.
Defined.

Lemma validate_args_order_witness :
  fst (run env_long_name (Cli.validate_args args_long) world_images)
  = Err name_too_long
  /\ calls (snd (run env_long_name (Cli.validate_args args_long)
                   world_images)) = [Stat long_name]
  /\ fst (run env_long_name (Cli.main_async args_long) world_images)
     = Err name_too_long.
Proof.
  apply (proj2 (validate_args_order env_long_name args_long world_images)
           long_name [] name_too_long).
  - reflexivity.
  - vm_compute. lia.
  - reflexivity.
  - reflexivity.
  - reflexivity.
Defined.

(** X4.  Whatever the paths of a non-empty image list are, the tool of the
    server opens the browser: no check of the images stands before the
    browser interaction. *)
Theorem server_publish_opens_browser_unchecked (E : env)
        (title content : string) (p : string) (ps : list string)
        (headless : bool) (chrome_path : option string) (w : world) :
  strip_is_empty title = false ->
  py_len title <= 40 ->
  strip_is_empty content = false ->
  exists l,
    calls (snd (run E (Server.xiaohongshu_publish title content (p :: ps)
                         headless chrome_path) w))
    = (calls w ++ PlaywrightStart :: l)%list.
Proof.
  intros Ht Hlen Hc. unfold Server.xiaohongshu_publish.
  rewrite Ht, Hc.
  assert (Hl : (40 <? py_len title)%nat = false) by (apply Nat.ltb_ge; lia).
  rewrite Hl. rewrite run_try_catch.
  repeat (rewrite run_bind, run_logger). unfold BrowserManager.get_page.
  rewrite run_bind. browser_step. cbn [calls add_log].
  destruct (browser E (calls w) PlaywrightStart) as [[]|e].
  - match goal with
    | |- context [run E ?q ?w1] =>
        destruct (run_calls_extend E q w1) as [l Hq];
        destruct (run E q w1) as [[v|e] w2]
    end; cbn [snd calls record add_log] in Hq.
    + exists l. cbn [snd]. rewrite Hq, <- app_assoc. reflexivity.
    + rewrite run_bind, run_logger. cbn [run snd calls add_log].
      exists l. rewrite Hq, <- app_assoc. reflexivity.
  - rewrite run_bind, run_logger. cbn [run snd calls add_log record].
    exists []. reflexivity.
Qed.

Lemma server_publish_opens_browser_unchecked_witness :
  exists l,
    calls (snd (run env_ok
                  (Server.xiaohongshu_publish "title" "content"
                     ["/tmp/missing.png"] false None) world_images))
    = PlaywrightStart :: l.
Proof.
  apply (server_publish_opens_browser_unchecked env_ok "title" "content"
           "/tmp/missing.png" [] false None world_images).
  - reflexivity.
  - vm_compute. lia.
  - reflexivity.
Defined.

(** C2 at a failing input.  The command-line validation rejects a request
    whose image is an existing [.bmp] file.  The tool of the server checks
    the title, the content and that the list is not empty, and nothing of
    the paths: for the same request it opens the browser, hands the [.bmp]
    file to the file input and reports success.  A request with a missing
    file is refused by [publish_content] only, after the browser was
    launched and the login check navigated. *)
Theorem server_publish_skips_image_checks :
  let cli := run env_ok (Cli.validate_args args_bmp) world_images in
  let tool :=
    run env_ok
        (Server.xiaohongshu_publish "title" "content" ["/tmp/a.bmp"]
           false None) world_images in
  let missing :=
    run env_ok
        (Server.xiaohongshu_publish "title" "content" ["/tmp/missing.png"]
           false None) world_images in
  fst cli = Ok false
  /\ logs (snd cli) =
     [(INFO, "验证发布参数..."); (ERROR, "不支持的图片格式: /tmp/a.bmp")]
  /\ fst tool = Ok "🎉 小红书内容发布成功！"
  /\ In (SetInputFiles 0 ["/tmp/a.bmp"]) (calls (snd tool))
  /\ fst missing = Ok "❌ 小红书内容发布失败"
  /\ In (Goto "https://www.xiaohongshu.com/explore" (Some 15000%Z))
        (calls (snd missing)).
Proof.
  vm_compute.
  repeat split; repeat (try (left; reflexivity); right).
Qed.

Lemma publish_content_total_witness :
  run env_offline
      (XiaohongshuPublish.publish_content publisher0 "title" "content"
         ["/tmp/a.png"]) world_images
  = (Ok false,
     add_log ERROR "发布内容时出错: net::ERR_INTERNET_DISCONNECTED"
       (snd (run env_offline
               (XiaohongshuPublish._navigate_to_publish_page publisher0)
               (snd (run env_offline
                       (XiaohongshuPublish._validate_images ["/tmp/a.png"])
                       (add_log INFO "开始发布内容..." world_images)))))).
Proof.
  apply (proj1 (proj2 (proj2 (publish_content_total env_offline publisher0
                                "title" "content" ["/tmp/a.png"] world_images))
                  _ eq_refl)
           (Exception "net::ERR_INTERNET_DISCONNECTED")).
  vm_compute. reflexivity.
Defined.



(* ================================================================== *)
(** ** More of the cookie store *)

Lemma fs_set_other (f : fs) (p q : string) (n : option node) :
  q <> p -> fs_set f p n q = f q.
Proof.
  intros Hne. unfold fs_set. destruct (String.eqb q p) eqn:Heq; [|reflexivity].
  apply String.eqb_eq in Heq. contradiction.
Qed.

Section CookieStoreMore.
Variable E : env.
Variable self : CookieManager.t.
Let path := CookieManager.cookie_file self.

(** X5.  [clear_cookies] never raises.  When the cookie file is absent it
    only tests for it.  When the file is there and can be removed, it is
    gone afterwards, every other file is as before, and [load_cookies] then
    returns the empty list.  When the removal fails, the failure is logged
    and the call returns normally. *)
Theorem clear_cookies_behaviour (w : world) :
  (exists w', run E (CookieManager.clear_cookies self) w = (Ok tt, w'))
  /\
  (files w path = None ->
   run E (CookieManager.clear_cookies self) w
   = (Ok tt, record (PathExists path) w))
  /\
  (forall content,
     files w path = Some (RegularFile content) ->
     io_fault E (calls w ++ [PathExists path]) (Unlink path) = None ->
     exists w1,
       run E (CookieManager.clear_cookies self) w = (Ok tt, w1)
       /\ files w1 path = None
       /\ (forall q, q <> path -> files w1 q = files w q)
       /\ exists w2,
           run E (CookieManager.load_cookies self) w1 = (Ok (JArr []), w2))
  /\
  (forall e,
     files w path <> None ->
     io_fault E (calls w ++ [PathExists path]) (Unlink path) = Some e ->
     run E (CookieManager.clear_cookies self) w
     = (Ok tt,
        add_log ERROR ("清除cookies失败: " ++ exn_msg e)
          (record (Unlink path) (record (PathExists path) w)))).
Proof.
  split; [| split; [| split]].
  - unfold CookieManager.clear_cookies. rewrite run_try_catch.
    destruct (run E _ w) as [[[]|e] w'].
    + eauto.
    + rewrite run_logger. eauto.
  - intros Habs. unfold CookieManager.clear_cookies.
    rewrite run_try_catch, run_bind, run_await.
    unfold perform, local_effect. fold path. rewrite Habs. reflexivity.
  - intros content Hf Hfault. unfold CookieManager.clear_cookies.
    rewrite run_try_catch, run_bind, run_await.
    unfold perform at 1, local_effect. fold path. rewrite Hf.
    rewrite run_bind, run_await.
    unfold perform, local_effect, fault_or. cbn [calls record files].
    rewrite Hfault, Hf. rewrite run_logger.
    eexists. split; [reflexivity|].
    cbn [files add_log record with_files]. split; [apply fs_set_same|].
    split; [intros q Hq; apply fs_set_other; exact Hq|].
    eexists. apply load_cookies_absent.
    cbn [files add_log record with_files]. apply fs_set_same.
  - intros e Hpres Hfault. unfold CookieManager.clear_cookies.
    rewrite run_try_catch, run_bind, run_await.
    unfold perform at 1, local_effect. fold path.
    destruct (files w path) as [n|] eqn:Hf; [|congruence].
    rewrite run_bind, run_await.
    unfold perform, local_effect, fault_or. cbn [calls record files].
    rewrite Hfault. rewrite run_logger. reflexivity.
Qed.

(** X6.  [load_cookies] returns whatever JSON value the cookie file holds,
    list or not, as long as the value has a length; for a value without a
    length (a number, a boolean, null) it returns the empty list. *)
Theorem load_cookies_returns_what_has_a_length (w : world) (text : string)
        (v : json) :
  files w path = Some (RegularFile text) ->
  reads_ok E path ->
  json_loads E text = Ok v ->
  exists w',
    run E (CookieManager.load_cookies self) w =
    (Ok (match json_len v with Ok _ => v | Err _ => JArr [] end), w').
Proof.
  intros Hf Hr Hj.
  destruct (json_len v) as [n|e] eqn:Hn.
  - eapply load_cookies_reads_back; eauto.
  - unfold CookieManager.load_cookies.
    rewrite run_try_catch, run_bind, run_await.
    unfold perform at 1, local_effect. fold path. rewrite Hf. cbv [negb].
    rewrite run_bind. unfold CookieManager.read_cookie_file. fold path.
    rewrite run_bind, run_await.
    unfold perform at 1, local_effect, fault_or.
    rewrite (proj1 (Hr _)). cbn [files record]. rewrite Hf.
    rewrite run_await. unfold perform, local_effect, fault_or.
    rewrite (proj2 (Hr _)). cbn [files record]. rewrite Hf, Hj, Hn.
    cbn [lift_res]. rewrite run_bind. cbn [run].
    rewrite run_bind, run_logger. cbn [run]. eexists. reflexivity.
Qed.

End CookieStoreMore.

Lemma clear_cookies_behaviour_witness :
  exists w1,
    run env_ok (CookieManager.clear_cookies store0) world_bad_json
    = (Ok tt, w1)
    /\ files w1 "cookies.json" = None
    /\ (forall q, q <> "cookies.json" -> files w1 q = files world_bad_json q)
    /\ exists w2,
        run env_ok (CookieManager.load_cookies store0) w1 = (Ok (JArr []), w2).
Proof.
  apply (proj1 (proj2 (proj2
           (clear_cookies_behaviour env_ok store0 world_bad_json))) "{oops");
    reflexivity.
Defined.

Lemma load_cookies_returns_what_has_a_length_witness :
  exists w',
    run env_ok (CookieManager.load_cookies store0) world_object_json
    = (Ok (JObj []), w').
Proof.
  apply (load_cookies_returns_what_has_a_length env_ok store0
           world_object_json "{}" (JObj [])).
  - reflexivity.
  - intros h. split; reflexivity.
  - reflexivity.
Defined.

(* ================================================================== *)
(** ** More of the session scope *)

Section SessionMore.
Variable E : env.
Variable self : BrowserManager.t.
Let store := BrowserManager.cookie_manager self.
Let path := CookieManager.cookie_file store.

Lemma load_cookies_read_world (v : json) (n : nat) (text : string)
      (w : world) :
  files w path = Some (RegularFile text) ->
  reads_ok E path ->
  json_loads E text = Ok v ->
  json_len v = Ok n ->
  run E (CookieManager.load_cookies store) w =
  (Ok v,
   add_log INFO ("成功加载 " ++ str_of_nat n ++ " 个cookies")
     (record (JsonLoad path) (record (OpenRead path)
        (record (PathExists path) w)))).
Proof.
  intros Hf Hr Hj Hn. unfold CookieManager.load_cookies.
  rewrite run_try_catch, run_bind, run_await.
  unfold perform at 1, local_effect. fold path. rewrite Hf. cbv [negb].
  rewrite run_bind. unfold CookieManager.read_cookie_file. fold path.
  rewrite run_bind, run_await.
  unfold perform at 1, local_effect, fault_or.
  rewrite (proj1 (Hr _)). cbn [files record]. rewrite Hf.
  rewrite run_await. unfold perform, local_effect, fault_or.
  rewrite (proj2 (Hr _)). cbn [files record]. rewrite Hf, Hj, Hn.
  cbn [lift_res]. rewrite run_bind. cbn [run].
  rewrite run_bind, run_logger. reflexivity.
Qed.

Lemma open_context_adds_cookies (w : world) (text : string) (c : json)
      (cs : list json) :
  browser E (calls w) (NewContext BrowserManager.user_agent) = Ok tt ->
  files w path = Some (RegularFile text) ->
  reads_ok E path ->
  json_loads E text = Ok (JArr (c :: cs)) ->
  exists rest,
    calls (snd (run E (BrowserManager.open_context self) w)) =
    (calls w ++ [NewContext BrowserManager.user_agent;
                 PathExists path; OpenRead path; JsonLoad path;
                 AddCookies (JArr (c :: cs))] ++ rest)%list.
Proof.
  intros Hctx Hf Hr Hj. unfold BrowserManager.open_context.
  rewrite run_bind. browser_step. rewrite Hctx.
  rewrite run_bind. fold store.
  rewrite (load_cookies_read_world (JArr (c :: cs)) (List.length (c :: cs))
             text); auto.
  cbn [json_truthy]. rewrite !run_bind. browser_step.
  cbn [calls add_log record].
  match goal with
  | |- context [match ?b with Ok _ => run E ?p ?w0 | Err e => _ end] =>
      destruct b as [[]|e];
      [ destruct (run_calls_extend E p w0) as [l Hl];
        destruct (run E p w0) as [[u|e] w1]; cbn [snd] in Hl |]
  end.
  - match goal with
    | |- context [run E ?p w1] =>
        destruct (run_calls_extend E p w1) as [l2 Hl2]
    end.
    cbv beta iota delta [ret] in *. rewrite Hl2, Hl.
    cbn [calls record add_log]. exists (l ++ l2)%list.
    rewrite <- !app_assoc. reflexivity.
  - cbn [snd]. rewrite Hl. cbn [calls record add_log]. exists l.
    rewrite <- !app_assoc. reflexivity.
  - cbn [snd calls record add_log]. exists [].
    rewrite <- !app_assoc. reflexivity.
Qed.

(** X7.  On entry the session hands the stored cookies to the new browser
    context: with a non-empty list in the cookie file, [add_cookies] is
    called with that list right after the file was read, before the page is
    created; this holds in particular for the list a successful
    [save_cookies] has just written, when the codec reads back what it
    wrote.  With no cookie file, the page is created without
    [add_cookies]. *)
Theorem stored_cookies_seed_the_context (w : world) :
  browser E (calls w) (NewContext BrowserManager.user_agent) = Ok tt ->
  (forall text c cs,
     files w path = Some (RegularFile text) ->
     reads_ok E path ->
     json_loads E text = Ok (JArr (c :: cs)) ->
     exists rest,
       calls (snd (run E (BrowserManager.open_context self) w)) =
       (calls w ++ [NewContext BrowserManager.user_agent;
                    PathExists path; OpenRead path; JsonLoad path;
                    AddCookies (JArr (c :: cs))] ++ rest)%list)
  /\
  (forall w0 c cs,
     run E (CookieManager.save_cookies store (c :: cs)) w0 = (Ok tt, w) ->
     reads_ok E path ->
     json_loads E (fst (json_dumps E (JArr (c :: cs)))) = Ok (JArr (c :: cs)) ->
     exists rest,
       calls (snd (run E (BrowserManager.open_context self) w)) =
       (calls w ++ [NewContext BrowserManager.user_agent;
                    PathExists path; OpenRead path; JsonLoad path;
                    AddCookies (JArr (c :: cs))] ++ rest)%list)
  /\
  (files w path = None ->
   calls (snd (run E (BrowserManager.open_context self) w)) =
   (calls w ++ [NewContext BrowserManager.user_agent;
                PathExists path; NewPage])%list).
Proof.
  intros Hctx. split; [| split].
  - intros text c cs Hf Hr Hj. eapply open_context_adds_cookies; eauto.
  - intros w0 c cs Hsave Hr Hj.
    eapply open_context_adds_cookies; eauto.
    eapply save_cookies_success; eauto.
  - intros Habs. unfold BrowserManager.open_context.
    rewrite run_bind. browser_step. rewrite Hctx.
    rewrite run_bind. fold store.
    rewrite (load_cookies_absent E store); [|exact Habs].
    cbn [json_truthy]. rewrite run_bind. cbn [run]. browser_step.
    cbn [calls add_log record snd]. rewrite <- !app_assoc. reflexivity.
Qed.

(** X8.  A failure while the session is set up.  When the launch of the
    browser fails, the driver is stopped and nothing else is called; the
    exception of the launch reaches the caller when the stop succeeds.
    When the creation of the context fails, the browser is closed and the
    driver stopped.  These are all the calls of the two cases: no cookie
    is read or written, and nothing is logged. *)
Theorem get_page_setup_failure {A : Type} (body : Page -> prog A)
        (w : world) (e : exn) :
  browser E (calls w) PlaywrightStart = Ok tt ->
  let launch :=
    Launch (BrowserManager.headless self) BrowserManager.launch_args
           (BrowserManager.executable_path self) in
  let out := run E (BrowserManager.get_page self body) w in
  (browser E (calls w ++ [PlaywrightStart]) launch = Err e ->
   calls (snd out) = (calls w ++ [PlaywrightStart; launch; PlaywrightStop])%list
   /\ logs (snd out) = logs w
   /\ (browser E (calls w ++ [PlaywrightStart; launch]) PlaywrightStop = Ok tt
       -> fst out = Err e))
  /\
  (browser E (calls w ++ [PlaywrightStart]) launch = Ok tt ->
   browser E (calls w ++ [PlaywrightStart; launch])
           (NewContext BrowserManager.user_agent) = Err e ->
   calls (snd out) =
   (calls w ++ [PlaywrightStart; launch;
                NewContext BrowserManager.user_agent;
                BrowserClose; PlaywrightStop])%list
   /\ logs (snd out) = logs w).
Proof.
  intros Hstart launch out. subst launch out.
  unfold BrowserManager.get_page. rewrite run_bind. browser_step.
  rewrite Hstart. rewrite run_try_finally, run_bind. browser_step.
  split.
  - intros Hlaunch. rewrite Hlaunch. browser_step.
    destruct (browser E _ PlaywrightStop) as [[]|e1] eqn:Hstop;
      cbn [fst snd calls logs record]; rewrite <- !app_assoc;
      (split; [reflexivity|]; split; [reflexivity|]).
    + reflexivity.
    + cbn [app] in Hstop. rewrite <- app_assoc in Hstop. cbn [app] in Hstop.
      rewrite Hstop. discriminate.
  - intros Hlaunch Hctx. rewrite Hlaunch.
    rewrite run_try_finally, run_bind. unfold BrowserManager.open_context.
    rewrite run_bind. browser_step. rewrite <- !app_assoc. cbn [app].
    rewrite Hctx. browser_step.
    destruct (browser E _ BrowserClose) as [[]|e1];
      browser_step;
      destruct (browser E _ PlaywrightStop) as [[]|e2];
      cbn [fst snd calls logs record]; rewrite <- !app_assoc;
      split; reflexivity.
Qed.

End SessionMore.

Lemma stored_cookies_seed_the_context_witness :
  calls (snd (run env_ok (BrowserManager.open_context manager0) world0)) =
  [NewContext BrowserManager.user_agent; PathExists "cookies.json"; NewPage].
Proof.
  apply (proj2 (proj2
           (stored_cookies_seed_the_context env_ok manager0 world0 eq_refl))).
  reflexivity.
Defined.

Lemma get_page_setup_failure_witness :
  let out := run env_no_browser
               (BrowserManager.get_page manager0 body_boom) world0 in
  calls (snd out) =
  [PlaywrightStart;
   Launch false BrowserManager.launch_args None;
   PlaywrightStop]
  /\ logs (snd out) = []
  /\ fst out = Err (Exception "Executable doesn't exist").
Proof.
  destruct (proj1 (get_page_setup_failure env_no_browser manager0 body_boom
                     world0 (Exception "Executable doesn't exist") eq_refl)
              eq_refl) as [Hcalls [Hlogs Hres]].
  split; [exact Hcalls|]. split; [exact Hlogs|]. apply Hres. reflexivity.
Defined.

(* ================================================================== *)
(** ** The login flow *)

Section LoginFlow.
Variable E : env.
Variable self : XiaohongshuLogin.t.

(** X9.  [login] returns a boolean and never raises.  A navigation that
    raises gives false, with the error logged.  After the navigation, a
    positive status check gives true at once, without waiting for a scan;
    a negative one makes the result that of the five-minute wait for the
    login indicator: true when it appears, false when the wait times out
    or raises. *)
Theorem login_outcomes (w : world) :
  let goto := Goto (XiaohongshuLogin.base_url self) None in
  let poll := WaitForSelector (XiaohongshuLogin.login_indicator self) 300000 in
  let started := add_log INFO "开始登录流程..." w in
  let loaded :=
    record (Sleep 2)
      (record (WaitForLoadState "networkidle") (record goto started)) in
  (exists b w', run E (XiaohongshuLogin.login self) w = (Ok b, w'))
  /\
  (forall e,
     browser E (calls w) goto = Err e ->
     run E (XiaohongshuLogin.login self) w =
     (Ok false,
      add_log ERROR ("登录过程中出错: " ++ exn_msg e) (record goto started)))
  /\
  (browser E (calls w) goto = Ok tt ->
   browser E (calls w ++ [goto]) (WaitForLoadState "networkidle") = Ok tt ->
   (forall w2,
      run E (XiaohongshuLogin.check_login_status self) loaded = (Ok true, w2) ->
      run E (XiaohongshuLogin.login self) w =
      (Ok true, add_log INFO "已经处于登录状态，无需重新登录" w2))
   /\
   (forall w2,
      run E (XiaohongshuLogin.check_login_status self) loaded = (Ok false, w2) ->
      let waiting :=
        add_log INFO "请在浏览器中扫描二维码完成登录"
          (add_log INFO "等待用户扫码登录..." w2) in
      run E (XiaohongshuLogin.login self) w =
      match browser E (calls w2) poll with
      | Ok _ =>
          (Ok true,
           add_log SUCCESS "🎉 检测到登录成功！正在保存登录状态..."
             (record poll waiting))
      | Err e =>
          (Ok false,
           add_log ERROR
             (match exn_cls e with
              | PlaywrightTimeout => "❌ 登录超时，请检查是否完成扫码"
              | _ => "登录过程中出错: " ++ exn_msg e
              end)
             (record poll waiting))
      end)).
Proof.
  intros goto poll started loaded. subst goto poll started loaded.
  split; [| split].
  - unfold XiaohongshuLogin.login. rewrite run_try_catch.
    destruct (run E _ w) as [[b|e] w'].
    + eauto.
    + rewrite run_bind, run_logger. cbn [run]. eauto.
  - intros e Hgoto. unfold XiaohongshuLogin.login.
    rewrite run_try_catch, run_bind, run_logger, run_bind. browser_step.
    cbn [calls add_log]. rewrite Hgoto. rewrite run_bind, run_logger.
    reflexivity.
  - intros Hgoto Hload. split.
    + intros w2 Hcheck. unfold XiaohongshuLogin.login.
      rewrite run_try_catch, run_bind, run_logger, run_bind. browser_step.
      cbn [calls add_log]. rewrite Hgoto. rewrite run_bind. browser_step.
      cbn [calls add_log]. rewrite Hload. rewrite run_bind, run_sleep.
      rewrite run_bind, Hcheck. rewrite run_bind, run_logger. reflexivity.
    + intros w2 Hcheck waiting. subst waiting. unfold XiaohongshuLogin.login.
      rewrite run_try_catch, run_bind, run_logger, run_bind. browser_step.
      cbn [calls add_log]. rewrite Hgoto. rewrite run_bind. browser_step.
      cbn [calls add_log]. rewrite Hload. rewrite run_bind, run_sleep.
      rewrite run_bind, Hcheck.
      rewrite run_bind, run_logger, run_bind, run_logger.
      rewrite run_try_catch, run_bind. browser_step. cbn [calls add_log].
      destruct (browser E (calls w2) (WaitForSelector _ _)) as [el|e].
      * rewrite run_bind, run_logger. reflexivity.
      * destruct e as [[| |] msg]; cbn [exn_cls exn_msg];
          rewrite ?run_bind, ?run_logger; reflexivity.
Qed.

End LoginFlow.

Lemma login_outcomes_witness :
  fst (run env_offline
         (XiaohongshuLogin.login (XiaohongshuLogin.new ThePage)) world0)
  = Ok false.
Proof.
  rewrite (proj1 (proj2
             (login_outcomes env_offline (XiaohongshuLogin.new ThePage)
                world0))
             (Exception "net::ERR_INTERNET_DISCONNECTED") eq_refl).
  reflexivity.
Defined.

(* ================================================================== *)
(** ** The publish page and its tabs *)

Section Extends.
Variable E : env.

Lemma extends_refl (w : world) : extends w w.
Proof. exists []. now rewrite app_nil_r. Qed.

Lemma extends_trans (w3 w2 w1 : world) :
  extends w3 w2 -> extends w2 w1 -> extends w3 w1.
Proof.
  intros [l2 H2] [l1 H1]. exists (l1 ++ l2)%list.
  rewrite H2, H1, app_assoc. reflexivity.
Qed.

Lemma run_extends {A : Type} (p : prog A) (w : world) :
  extends (snd (run E p w)) w.
Proof. apply run_calls_extend. Qed.

Lemma bind_extends {A B : Type} (p : prog A) (f : A -> prog B) (w : world) :
  extends (snd (run E (bind p f) w)) (snd (run E p w)).
Proof.
  rewrite run_bind. destruct (run E p w) as [[a|e] w1]; cbn [snd].
  - apply run_extends.
  - apply extends_refl.
Qed.

Lemma try_catch_extends {A : Type} (p : prog A) (h : exn -> prog A)
      (w : world) :
  extends (snd (run E (try_catch p h) w)) (snd (run E p w)).
Proof.
  rewrite run_try_catch. destruct (run E p w) as [[a|e] w1]; cbn [snd].
  - apply extends_refl.
  - apply run_extends.
Qed.

Lemma and_then_extends {R : Type} (p : prog (ctl R)) (rest : prog R)
      (w : world) :
  extends (snd (run E (and_then p rest) w)) (snd (run E p w)).
Proof. apply bind_extends. Qed.

Lemma extends_prefix (w' w1 w : world) (pre : list call) :
  extends w' w1 -> calls w1 = (calls w ++ pre)%list ->
  exists rest, calls w' = (calls w ++ pre ++ rest)%list.
Proof.
  intros [l Hl] Hpre. exists l. rewrite Hl, Hpre, app_assoc. reflexivity.
Qed.

End Extends.

Section Navigation.
Variable E : env.

Lemma click_upload_tab_returns (w : world) :
  exists w', run E XiaohongshuPublish._click_upload_tab w = (Ok tt, w').
Proof.
  unfold XiaohongshuPublish._click_upload_tab. rewrite run_try_catch.
  destruct (run E _ w) as [[[]|e] w'].
  - eauto.
  - rewrite run_logger. eauto.
Qed.

(** The loop over the specific selectors when none of them finds an
    element. *)
Lemma specific_selectors_not_found (sels : list string) (w : world) :
  snd (first_match E (calls w) (map QuerySelector sels)) = false ->
  run E
    (for_each sels (fun selector =>
       try_catch
         (element <- await (QuerySelector selector) ;;
          match element with
          | Some el =>
              await (Click el) ;;
              logger INFO ("✅ 通过选择器 " ++ selector
                           ++ " 成功点击选项卡") ;;
              asyncio_sleep 1 ;;
              Ret (Return tt)
          | None => Ret Next
          end)
         (fun _ => Ret Next))) w
  = (Ok Next,
     mkWorld (files w) (calls w ++ map QuerySelector sels) (logs w)).
Proof.
  revert w. induction sels as [|a sels IH]; intros w.
  - intros _. cbn. rewrite app_nil_r. destruct w; reflexivity.
  - cbn [map first_match is_match]. intros Hnone.
    cbn [for_each]. rewrite run_bind, run_try_catch, run_bind. browser_step.
    destruct (browser E (calls w) (QuerySelector a)) as [[el|]|e];
      [discriminate | |];
      cbn [run];
      (destruct (first_match E (calls w ++ [QuerySelector a])
                   (map QuerySelector sels)) as [made found] eqn:Hfm;
       cbn [snd] in Hnone; subst found;
       rewrite (IH (record (QuerySelector a) w));
       [ cbn [files calls logs record]; rewrite <- app_assoc; reflexivity
       | cbn [calls record]; rewrite Hfm; reflexivity ]).
Qed.

(** X10.  [_click_upload_tab] never raises.  It stops at the first specific
    selector that finds an element it can click; when that click raises it
    goes on to the next selector; when no selector finds an element and the
    page has no tab, it only logs that no tab was found. *)
Theorem tab_selection_is_not_fatal (w : world) :
  let started := add_log INFO "查找上传图文选项卡..." w in
  let first := QuerySelector "[data-value='image']" in
  (exists w', run E XiaohongshuPublish._click_upload_tab w = (Ok tt, w'))
  /\
  (forall el,
     browser E (calls w) first = Ok (Some el) ->
     browser E (calls w ++ [first]) (Click el) = Ok tt ->
     run E XiaohongshuPublish._click_upload_tab w =
     (Ok tt,
      record (Sleep 1)
        (add_log INFO "✅ 通过选择器 [data-value='image'] 成功点击选项卡"
           (record (Click el) (record first started)))))
  /\
  (forall el e,
     browser E (calls w) first = Ok (Some el) ->
     browser E (calls w ++ [first]) (Click el) = Err e ->
     exists rest,
       calls (snd (run E XiaohongshuPublish._click_upload_tab w)) =
       (calls w ++ [first; Click el; QuerySelector "[class*='image']"]
        ++ rest)%list)
  /\
  (snd (first_match E (calls w)
          (map QuerySelector XiaohongshuPublish.specific_selectors)) = false ->
   browser E (calls w ++ map QuerySelector
                           XiaohongshuPublish.specific_selectors)
           (QuerySelectorAll "div.creator-tab") = Ok [] ->
   run E XiaohongshuPublish._click_upload_tab w =
   (Ok tt,
    add_log INFO "未找到上传图文选项卡，可能已经在正确页面"
      (add_log INFO "找到 0 个选项卡元素"
         (record (QuerySelectorAll "div.creator-tab")
            (mkWorld (files w)
               (calls w ++ map QuerySelector
                             XiaohongshuPublish.specific_selectors)
               (logs started)))))).
Proof.
  intros started first. subst started first.
  split; [apply click_upload_tab_returns | split; [| split]].
  - intros el Hq Hc. unfold XiaohongshuPublish._click_upload_tab.
    rewrite run_try_catch, run_bind, run_logger, run_and_then.
    unfold XiaohongshuPublish.specific_selectors. cbn [for_each].
    rewrite run_bind, run_try_catch, run_bind. browser_step.
    cbn [calls add_log]. rewrite Hq. rewrite run_bind. browser_step.
    cbn [calls add_log]. rewrite Hc.
    rewrite run_bind, run_logger, run_bind, run_sleep. reflexivity.
  - intros el e Hq Hc. unfold XiaohongshuPublish._click_upload_tab.
    eapply extends_prefix;
      [eapply extends_trans; [apply try_catch_extends|] |].
    + rewrite run_bind, run_logger.
      eapply extends_trans; [apply and_then_extends|].
      unfold XiaohongshuPublish.specific_selectors. cbn [for_each].
      rewrite run_bind, run_try_catch, run_bind. browser_step.
      cbn [calls add_log]. rewrite Hq. rewrite run_bind. browser_step.
      cbn [calls add_log]. rewrite Hc. cbn [run].
      eapply extends_trans; [apply bind_extends|].
      eapply extends_trans; [apply try_catch_extends|].
      eapply extends_trans; [apply bind_extends|].
      browser_step. cbn [snd]. apply extends_refl.
    + cbn [calls record add_log]. rewrite <- !app_assoc. reflexivity.
  - intros Hnone Hall. unfold XiaohongshuPublish._click_upload_tab.
    rewrite run_try_catch, run_bind, run_logger, run_and_then.
    rewrite specific_selectors_not_found; [|exact Hnone].
    rewrite run_bind. browser_step. cbn [calls add_log] in *. rewrite Hall.
    rewrite run_bind, run_logger. cbn [enumerate for_each combine seq Datatypes.length].
    rewrite run_and_then. cbn [run]. rewrite run_logger. reflexivity.
Qed.

(** X11.  [_navigate_to_publish_page]: an exception of the navigation is
    raised as it is, and nothing more is called; a timeout of the wait for
    the upload area is raised with the message of the page not being
    loaded, any other exception of that wait as it is; once the upload
    area appeared the stage returns normally, whatever the tab
    selection meets, after a one-second sleep on each side of it. *)
Theorem navigation_outcomes (self : XiaohongshuPublish.t) (w : world) :
  let goto := Goto (XiaohongshuPublish.publish_url self) (Some 60000%Z) in
  let load := WaitForLoadState "domcontentloaded" in
  let area := WaitForSelector "div.upload-content" 15000 in
  let nav := run E (XiaohongshuPublish._navigate_to_publish_page self) w in
  (forall e,
     browser E (calls w) goto = Err e ->
     fst nav = Err e /\ calls (snd nav) = (calls w ++ [goto])%list)
  /\
  (browser E (calls w) goto = Ok tt ->
   browser E (calls w ++ [goto]) load = Ok tt ->
   (forall e,
      browser E (calls w ++ [goto; load]) area = Err e ->
      fst nav =
      Err (match exn_cls e with
           | PlaywrightTimeout =>
               Exception
                 "upload-content 元素等待超时，发布页面可能未正确加载"
           | _ => e
           end)
      /\ calls (snd nav) = (calls w ++ [goto; load; area])%list)
   /\
   (forall el,
      browser E (calls w ++ [goto; load]) area = Ok el ->
      fst nav = Ok tt
      /\ exists rest,
          calls (snd nav) =
          (calls w ++ [goto; load; area; Sleep 1] ++ rest ++ [Sleep 1])%list)).
Proof.
  intros goto load area nav. subst goto load area nav.
  unfold XiaohongshuPublish._navigate_to_publish_page.
  rewrite run_bind, run_logger, run_bind. browser_step. cbn [calls add_log].
  split.
  - intros e Hgoto. rewrite Hgoto. split; reflexivity.
  - intros Hgoto Hload. rewrite Hgoto.
    rewrite run_bind. browser_step. cbn [calls add_log record]. cbv beta iota delta [ret] in *. rewrite Hload.
    rewrite run_bind, run_logger, run_bind, run_try_catch, run_bind.
    browser_step. cbn [calls add_log record]. rewrite <- ?app_assoc. cbn [app].
    split.
    + intros e Harea. cbv beta iota delta [ret] in *. rewrite Harea.
      destruct e as [[| |] msg]; cbn [exn_cls run fst snd calls record add_log];
        rewrite <- ?app_assoc; split; reflexivity.
    + intros el Harea. cbv beta iota delta [ret] in *. rewrite Harea. rewrite run_logger.
      rewrite run_bind, run_sleep, run_bind.
      destruct (click_upload_tab_returns
                  (record (Sleep 1)
                     (add_log INFO "✅ upload-content 元素已出现"
                        (record (WaitForSelector "div.upload-content" 15000)
                           (add_log INFO "等待上传区域出现..."
                              (record (WaitForLoadState "domcontentloaded")
                                 (record
                                    (Goto (XiaohongshuPublish.publish_url self)
                                       (Some 60000%Z))
                                    (add_log INFO "导航到小红书发布页面..."
                                       w))))))))
        as [w1 Htab].
      pose proof (run_calls_extend E XiaohongshuPublish._click_upload_tab
                    (record (Sleep 1)
                     (add_log INFO "✅ upload-content 元素已出现"
                        (record (WaitForSelector "div.upload-content" 15000)
                           (add_log INFO "等待上传区域出现..."
                              (record (WaitForLoadState "domcontentloaded")
                                 (record
                                    (Goto (XiaohongshuPublish.publish_url self)
                                       (Some 60000%Z))
                                    (add_log INFO "导航到小红书发布页面..."
                                       w)))))))) as [l Hl].
      rewrite Htab in *. cbn [snd] in Hl. rewrite run_sleep.
      split; [reflexivity|]. exists l. cbn [snd calls record add_log] in *.
      rewrite Hl, <- ?app_assoc. reflexivity.
Qed.

End Navigation.

Lemma navigation_outcomes_witness :
  fst (run env_offline
         (XiaohongshuPublish._navigate_to_publish_page publisher0) world0)
  = Err (Exception "net::ERR_INTERNET_DISCONNECTED").
Proof.
  apply (proj1 (navigation_outcomes env_offline publisher0 world0)
           (Exception "net::ERR_INTERNET_DISCONNECTED")).
  reflexivity.
Defined.

(* ================================================================== *)
(** ** The fields and the submit button *)

Section Submit.
Variable E : env.

(** X16.  [_submit_publish]: a failed lookup of the submit button raises
    without a click, with the timeout message for a timeout; a lookup that
    returns no element raises the missing-attribute error; a click that
    raises is reported like a failed lookup, so a timeout of the click is
    reported as a timeout of the wait for the button; after a successful
    click the stage sleeps three seconds and returns. *)
Theorem submit_publish_outcomes (w : world) :
  let lookup := WaitForSelector XiaohongshuPublish.submit_selector 10000 in
  let submit := run E XiaohongshuPublish._submit_publish w in
  (forall e,
     browser E (calls w ++ [Sleep 1]) lookup = Err e ->
     fst submit = Err (Exception (submit_failure_msg e))
     /\ calls (snd submit) = (calls w ++ [Sleep 1; lookup])%list)
  /\
  (browser E (calls w ++ [Sleep 1]) lookup = Ok None ->
   fst submit =
   Err (Exception
          "提交发布失败: 'NoneType' object has no attribute 'click'")
   /\ calls (snd submit) = (calls w ++ [Sleep 1; lookup])%list)
  /\
  (forall el,
     browser E (calls w ++ [Sleep 1]) lookup = Ok (Some el) ->
     match browser E (calls w ++ [Sleep 1; lookup]) (Click el) with
     | Ok _ =>
         fst submit = Ok tt
         /\ calls (snd submit) =
            (calls w ++ [Sleep 1; lookup; Click el; Sleep 3])%list
     | Err e =>
         fst submit = Err (Exception (submit_failure_msg e))
         /\ calls (snd submit) =
            (calls w ++ [Sleep 1; lookup; Click el])%list
     end).
Proof.
  intros lookup submit. subst lookup submit.
  unfold XiaohongshuPublish._submit_publish.
  rewrite run_bind, run_logger, run_try_catch, run_bind, run_sleep.
  rewrite run_bind, run_logger, run_bind. browser_step.
  cbn [calls add_log record]. cbv beta iota delta [ret] in *.
  split; [|split].
  - intros e He. rewrite He. unfold submit_failure_msg.
    destruct (exn_cls e); cbn [run fst snd calls record add_log];
      rewrite <- ?app_assoc; split; reflexivity.
  - intros He. rewrite He. rewrite run_bind, run_logger, run_bind.
    cbn [attribute_of run bind fst snd exn_cls Exception calls record add_log].
    rewrite <- ?app_assoc; split; reflexivity.
  - intros el He. rewrite He. rewrite run_bind, run_logger, run_bind.
    cbn [attribute_of]. browser_step. cbn [calls add_log record].
    rewrite <- ?app_assoc. cbn [app]. cbv beta iota delta [ret] in *.
    destruct (browser E _ (Click el)) as [[]|e].
    + rewrite run_bind, run_logger, run_bind, run_sleep, run_logger.
      cbn [fst snd calls record add_log]. rewrite <- ?app_assoc.
      split; reflexivity.
    + unfold submit_failure_msg.
      destruct (exn_cls e); cbn [run fst snd calls record add_log];
        rewrite <- ?app_assoc; split; reflexivity.
Qed.

End Submit.

Ltac expose_first_candidate :=
  let l := eval cbv in (enumerate XiaohongshuPublish.title_selectors) in
  change (enumerate XiaohongshuPublish.title_selectors) with l;
  cbn [for_each].

Section Fill.
Variable E : env.

Lemma for_each_all_next {X R : Type} (xs : list X)
      (body : X -> prog (ctl R)) :
  (forall x w, exists w', run E (body x) w = (Ok Next, w')) ->
  forall w, exists w', run E (for_each xs body) w = (Ok Next, w').
Proof.
  intros Hb. induction xs as [|x xs IH]; intros w; cbn [for_each].
  - exists w. reflexivity.
  - rewrite run_bind. destruct (Hb x w) as [w1 H1]. rewrite H1. apply IH.
Qed.

(** The loop over the candidates when none of them finds the field. *)
Lemma title_loop_not_found (xs : list (nat * string)) (w : world) :
  (forall h i s, In (i, s) xs ->
     match browser E h (WaitForSelector s 3000) with
     | Ok (Some _) => False
     | Ok None => True
     | Err e => exn_cls e = PlaywrightTimeout
     end) ->
  exists w',
    run E
      (for_each xs (fun '(i, selector) =>
         try_catch
           (logger INFO ("尝试标题选择器 " ++ str_of_nat (i + 1) ++ "/"
                         ++ str_of_nat
                              (List.length XiaohongshuPublish.title_selectors)
                         ++ ": " ++ selector) ;;
            title_input <- await (WaitForSelector selector 3000) ;;
            match title_input with
            | Some el =>
                logger INFO ("✅ 找到标题输入框: " ++ selector) ;;
                Ret (Return el)
            | None => Ret Next
            end)
           (fun e =>
              match exn_cls e with
              | PlaywrightTimeout =>
                  logger DEBUG ("选择器 " ++ selector ++ " 未找到") ;;
                  Ret Next
              | _ => Raise e
              end))) w
    = (Ok Next, w')
    /\ calls w' =
       (calls w ++ map (fun x => WaitForSelector (snd x) 3000) xs)%list.
Proof.
  revert w. induction xs as [|[i s] xs IH]; intros w Hno.
  - exists w. cbn. rewrite app_nil_r. auto.
  - cbn [for_each map snd]. rewrite run_bind, run_try_catch, run_bind, run_logger.
    rewrite run_bind. browser_step. cbn [calls add_log].
    pose proof (Hno (calls w) i s (or_introl eq_refl)) as Hs.
    cbv beta iota delta [ret] in *.
    destruct (browser E (calls w) (WaitForSelector s 3000)) as [[el|]|e].
    + contradiction.
    + cbn [run].
      destruct (IH (record (WaitForSelector s 3000)
                      (add_log INFO
                         ("尝试标题选择器 " ++ str_of_nat (i + 1) ++ "/"
                          ++ str_of_nat
                               (List.length XiaohongshuPublish.title_selectors)
                          ++ ": " ++ s) w)))
        as [w' [Hrun Hcalls]].
      { intros h j t Hin. apply (Hno h j t). right. exact Hin. }
      exists w'. split; [exact Hrun|].
      rewrite Hcalls. cbn [calls record add_log]. rewrite <- app_assoc.
      reflexivity.
    + rewrite Hs. rewrite run_bind, run_logger. cbn [run].
      match goal with
      | |- context [run E _ ?w1] => destruct (IH w1) as [w' [Hrun Hcalls]]
      end.
      { intros h j t Hin. apply (Hno h j t). right. exact Hin. }
      exists w'. split; [exact Hrun|].
      rewrite Hcalls. cbn [calls record add_log]. rewrite <- app_assoc.
      reflexivity.
Qed.

Lemma in_enumerate {X : Type} (xs : list X) (i : nat) (x : X) :
  In (i, x) (enumerate xs) -> In x xs.
Proof.
  unfold enumerate. intros H. apply in_combine_r in H. exact H.
Qed.

Lemma title_diagnostics_quiet (title : string) (inputs : list elem) :
  emits quiet
    (for_each (R := unit) (enumerate inputs) (fun '(i, input_elem) =>
       try_catch
         (placeholder <- await (GetAttribute input_elem "placeholder") ;;
          class_name <- await (GetAttribute input_elem "class") ;;
          input_type <- await (GetAttribute input_elem "type") ;;
          logger INFO ("Input " ++ str_of_nat (i + 1) ++ ": type="
                       ++ str_of_opt input_type ++ ", placeholder='"
                       ++ str_of_opt placeholder ++ "', class='"
                       ++ str_of_opt class_name ++ "'") ;;
          Ret Next)
         (fun _ => Ret Next))).
Proof. emits_tac. Qed.

(** X12.  [_fill_title], once the page URL and title were read.  When the
    first candidate selector finds the field, the title is filled into it
    and no other candidate is tried; an exception of the fill is raised
    with the label of the stage.  An exception of a wait that is not a
    timeout ends the search at once.  When no candidate finds the field,
    the stage raises that all selectors failed, and has filled
    nothing. *)
Theorem fill_title_outcomes (title u t : string) (w : world) :
  let first := WaitForSelector "div.d-input input" 3000 in
  let fill := run E (XiaohongshuPublish._fill_title title) w in
  browser E (calls w) PageUrl = Ok u ->
  browser E (calls w ++ [PageUrl]) PageTitle = Ok t ->
  (forall el,
     browser E (calls w ++ [PageUrl; PageTitle]) first = Ok (Some el) ->
     match browser E (calls w ++ [PageUrl; PageTitle; first])
                   (Fill el title) with
     | Ok _ =>
         fst fill = Ok tt
         /\ calls (snd fill) =
            (calls w ++ [PageUrl; PageTitle; first; Fill el title; Sleep 1])%list
     | Err e =>
         fst fill = Err (Exception ("填写标题失败: " ++ exn_msg e))
         /\ calls (snd fill) =
            (calls w ++ [PageUrl; PageTitle; first; Fill el title])%list
     end)
  /\
  (forall e,
     browser E (calls w ++ [PageUrl; PageTitle]) first = Err e ->
     exn_cls e <> PlaywrightTimeout ->
     fst fill = Err (Exception ("填写标题失败: " ++ exn_msg e))
     /\ calls (snd fill) = (calls w ++ [PageUrl; PageTitle; first])%list)
  /\
  (title_never_found E ->
   forall inputs,
     browser E
       (calls w ++ [PageUrl; PageTitle]
        ++ map (fun s => WaitForSelector s 3000)
               XiaohongshuPublish.title_selectors)
       (QuerySelectorAll "input") = Ok inputs ->
     fst fill = Err (Exception "填写标题失败: 所有标题选择器都未找到")
     /\ exists l,
         calls (snd fill) = (calls w ++ l)%list /\ Forall quiet l).
Proof.
  intros first fill Hu Ht. subst first fill.
  unfold XiaohongshuPublish._fill_title.
  rewrite run_try_catch, run_bind. browser_step. rewrite Hu.
  rewrite run_bind. browser_step. cbv beta iota delta [ret] in *. rewrite Ht.
  rewrite run_bind, run_logger, run_bind, run_logger, run_bind.
  split; [|split].
  - intros el Hel.
    expose_first_candidate.
    rewrite run_bind, run_try_catch, run_bind, run_logger, run_bind.
    browser_step. cbn [calls add_log record]. rewrite <- ?app_assoc. cbn [app].
    cbv beta iota delta [ret] in *. rewrite Hel.
    rewrite run_bind, run_logger. cbn [run]. rewrite run_bind.
    browser_step. cbn [calls add_log record]. rewrite <- ?app_assoc. cbn [app].
    cbv beta iota delta [ret] in *.
    destruct (browser E _ (Fill el title)) as [[]|e].
    + rewrite run_bind, run_logger, run_sleep.
      cbn [fst snd calls add_log record]. rewrite <- ?app_assoc.
      split; reflexivity.
    + cbn [run fst snd calls add_log record]. rewrite <- ?app_assoc.
      split; reflexivity.
  - intros e He Hcls.
    expose_first_candidate.
    rewrite run_bind, run_try_catch, run_bind, run_logger, run_bind.
    browser_step. cbn [calls add_log record]. rewrite <- ?app_assoc. cbn [app].
    cbv beta iota delta [ret] in *. rewrite He.
    destruct e as [[| |] msg]; [exfalso; apply Hcls; reflexivity | |];
      cbn [exn_cls exn_msg run fst snd calls add_log record str_of_exn];
      rewrite <- ?app_assoc; split; reflexivity.
  - intros Hno inputs Hin.
    match goal with
    | |- context [run E (for_each ?xs _) ?w1] =>
        assert (Hloop := title_loop_not_found xs w1)
    end.
    cbv beta iota delta [ret] in Hloop.
    destruct Hloop as [w' [Hrun Hcalls]].
    { intros h i s Hi. apply Hno. apply (in_enumerate _ i). exact Hi. }
    rewrite Hrun. rewrite run_bind, run_logger, run_bind. browser_step.
    cbn [calls add_log record] in *. rewrite <- ?app_assoc in Hcalls.
    cbn [app] in Hcalls. rewrite Hcalls.
    cbv beta iota delta [ret] in *.
    change (map (fun x : nat * string => WaitForSelector (snd x) 3000)
              (enumerate XiaohongshuPublish.title_selectors))
      with (map (fun s => WaitForSelector s 3000)
              XiaohongshuPublish.title_selectors).
    cbn [app] in Hin. rewrite Hin.
    rewrite run_bind, run_logger, run_bind.
    assert (Hdiag := for_each_all_next (R := unit) (enumerate inputs)
                (fun '(i, input_elem) =>
       try_catch
         (placeholder <- await (GetAttribute input_elem "placeholder") ;;
          class_name <- await (GetAttribute input_elem "class") ;;
          input_type <- await (GetAttribute input_elem "type") ;;
          logger INFO ("Input " ++ str_of_nat (i + 1) ++ ": type="
                       ++ str_of_opt input_type ++ ", placeholder='"
                       ++ str_of_opt placeholder ++ "', class='"
                       ++ str_of_opt class_name ++ "'") ;;
          Ret Next)
         (fun _ => Ret Next))).
    lapply Hdiag; [clear Hdiag; intros Hdiag|].
    2:
    { intros [i x] w0. rewrite run_try_catch.
      destruct (run E _ w0) as [[c|e] w1] eqn:Hb.
      - exists w1. revert Hb. rewrite !run_bind.
        destruct (run E (await (GetAttribute x "placeholder")) w0)
          as [[a|e] wa]; [|discriminate].
        rewrite !run_bind.
        destruct (run E (await (GetAttribute x "class")) wa)
          as [[b|e] wb]; [|discriminate].
        rewrite !run_bind.
        destruct (run E (await (GetAttribute x "type")) wb)
          as [[d|e] wd]; [|discriminate].
        rewrite run_bind, run_logger. cbn [run]. intros H; inversion H.
        reflexivity.
      - exists w1. reflexivity. }
    assert (Hq := fun w0 => emits_run quiet E _
                      (title_diagnostics_quiet title inputs) w0).
    cbv beta iota delta [ret] in Hdiag, Hq.
    match goal with
    | |- context [run E (for_each (enumerate inputs) _) ?w3] =>
        destruct (Hdiag w3) as [w2 Hd]; destruct (Hq w3) as [l [Hl HP]]
    end.
    rewrite Hd in *. cbn [run fst snd] in *. split; [reflexivity|].
    rewrite Hl. cbn [calls add_log record]. rewrite Hcalls.
    eexists. split; [rewrite <- ?app_assoc; reflexivity|].
    apply Forall_app. split.
    + cbv [XiaohongshuPublish.title_selectors enumerate combine seq
           Datatypes.length map snd].
      repeat (constructor; [reflexivity|]). constructor.
    + constructor; [reflexivity | exact HP].
Qed.

(** Every failure of the filling stage names the stage and the field. *)
(** X15.  Every exception [_fill_content] raises names the stage and the
    field that failed: its message starts with the label of the filling
    stage, followed by the label of the title or of the description. *)
Theorem fill_content_failure_labels (title content : string) (w w' : world)
        (e : exn) :
  run E (XiaohongshuPublish._fill_content title content) w = (Err e, w') ->
  exists m,
    e = Exception ("填写内容失败: 填写标题失败: " ++ m)
    \/ e = Exception ("填写内容失败: 填写正文失败: " ++ m).
Proof.
  unfold XiaohongshuPublish._fill_content.
  rewrite run_bind, run_logger, run_try_catch, run_bind.
  unfold XiaohongshuPublish._fill_title at 1. rewrite run_try_catch.
  destruct (run E _ _) as [[[]|e1] w1].
  - unfold XiaohongshuPublish._fill_description. rewrite run_try_catch.
    destruct (run E _ w1) as [[[]|e2] w2]; cbn [run]; intros H;
      inversion H; subst. exists (exn_msg e2). right. reflexivity.
  - cbn [run]. intros H; inversion H; subst. exists (exn_msg e1).
    left. reflexivity.
Qed.


End Fill.

Section Content.
Variable E : env.

Lemma find_textbox_returns (w : world) :
  exists o w',
    run E XiaohongshuPublish._find_textbox_by_placeholder w = (Ok o, w').
Proof.
  unfold XiaohongshuPublish._find_textbox_by_placeholder.
  rewrite run_try_catch. destruct (run E _ w) as [[o|e] w']; cbn [run]; eauto.
Qed.

(** The walk from a paragraph to its ancestors: at most two calls a level;
    an element is returned only on the answer that its role is textbox. *)
Lemma walk_up_spec (n : nat) (current : elem) (w : world) :
  let out := run E (XiaohongshuPublish.walk_up n current) w in
  (exists l, calls (snd out) = (calls w ++ l)%list /\ List.length l <= 2 * n)
  /\ match fst out with
     | Ok (Return (Some par)) =>
         exists h,
           calls (snd out) = (h ++ [GetAttribute par "role"])%list
           /\ browser E h (GetAttribute par "role") = Ok (Some "textbox")
     | Ok (Return None) | Ok Break => False
     | _ => True
     end.
Proof.
  revert current w. induction n as [|n IH]; intros current w.
  - cbn. split; [|exact I]. exists []. rewrite app_nil_r. auto.
  - cbn [XiaohongshuPublish.walk_up]. rewrite run_bind. browser_step.
    cbv beta iota delta [ret] in *.
    destruct (browser E (calls w) (ElemQuerySelector current "xpath=.."))
      as [[par|]|e].
    + rewrite run_bind. browser_step. cbn [calls record].
      cbv beta iota delta [ret] in *.
      destruct (browser E _ (GetAttribute par "role")) as [[r|]|e] eqn:Hrole.
      * destruct (String.eqb r "textbox") eqn:Hr.
        -- apply String.eqb_eq in Hr. subst r. cbn [run fst snd calls record].
           split.
           ++ eexists. rewrite <- app_assoc. split; [reflexivity|].
              cbn. lia.
           ++ eexists. split; [reflexivity|]. exact Hrole.
        -- specialize (IH par (record (GetAttribute par "role")
                                 (record (ElemQuerySelector current "xpath=..") w))).
           cbv zeta in IH. destruct IH as [[l [Hl Hn]] Hres].
           split; [|exact Hres].
           exists ([ElemQuerySelector current "xpath=..";
                    GetAttribute par "role"] ++ l)%list.
           rewrite Hl. cbn [calls record]. rewrite <- !app_assoc.
           split; [reflexivity|]. cbn [List.length app]. lia.
      * specialize (IH par (record (GetAttribute par "role")
                              (record (ElemQuerySelector current "xpath=..") w))).
        cbv zeta in IH. destruct IH as [[l [Hl Hn]] Hres].
        split; [|exact Hres].
        exists ([ElemQuerySelector current "xpath=..";
                 GetAttribute par "role"] ++ l)%list.
        rewrite Hl. cbn [calls record]. rewrite <- !app_assoc.
        split; [reflexivity|]. cbn [List.length app]. lia.
      * cbn [run fst snd calls record]. split; [|exact I].
        eexists. rewrite <- app_assoc. split; [reflexivity|]. cbn. lia.
    + cbn [run fst snd calls record]. split; [|exact I].
      eexists. split; [reflexivity|]. cbn. lia.
    + cbn [run fst snd calls record]. split; [|exact I].
      eexists. split; [reflexivity|]. cbn. lia.
Qed.

Lemma textbox_loop_spec (ps : list elem) (w : world) :
  let out :=
    run E
      (for_each ps (fun element =>
         placeholder <- await (GetAttribute element "data-placeholder") ;;
         match placeholder with
         | Some ph =>
             if negb (String.eqb ph EmptyString) && py_in "输入正文描述" ph
             then XiaohongshuPublish.walk_up 5 element
             else Ret Next
         | None => Ret Next
         end)) w in
  (exists l, calls (snd out) = (calls w ++ l)%list
             /\ List.length l <= 11 * List.length ps)
  /\ match fst out with
     | Ok (Return (Some par)) =>
         exists h,
           calls (snd out) = (h ++ [GetAttribute par "role"])%list
           /\ browser E h (GetAttribute par "role") = Ok (Some "textbox")
     | Ok (Return None) | Ok Break => False
     | _ => True
     end.
Proof.
  revert w. induction ps as [|p ps IH]; intros w.
  - cbn. split; [|exact I]. exists []. rewrite app_nil_r. auto.
  - cbn [for_each]. rewrite run_bind, run_bind. browser_step.
    cbv beta iota delta [ret] in *.
    assert (Hskip :
      let out := run E
        (for_each ps (fun element =>
           placeholder <- await (GetAttribute element "data-placeholder") ;;
           match placeholder with
           | Some ph =>
               if negb (String.eqb ph EmptyString) && py_in "输入正文描述" ph
               then XiaohongshuPublish.walk_up 5 element
               else Ret Next
           | None => Ret Next
           end)) (record (GetAttribute p "data-placeholder") w) in
      (exists l, calls (snd out) = (calls w ++ l)%list
                 /\ List.length l <= 11 * List.length (p :: ps))
      /\ match fst out with
         | Ok (Return (Some par)) =>
             exists h,
               calls (snd out) = (h ++ [GetAttribute par "role"])%list
               /\ browser E h (GetAttribute par "role") = Ok (Some "textbox")
         | Ok (Return None) | Ok Break => False
         | _ => True
         end).
    { specialize (IH (record (GetAttribute p "data-placeholder") w)).
      cbv zeta in *. cbv beta iota delta [ret] in *. destruct IH as [[l [Hl Hn]] Hres]. split; [|exact Hres].
      exists (GetAttribute p "data-placeholder" :: l). rewrite Hl.
      cbn [calls record List.length]. rewrite <- app_assoc.
      split; [reflexivity|]. lia. }
    cbv beta iota delta [ret] in *. cbv zeta in Hskip.
    destruct (browser E (calls w) (GetAttribute p "data-placeholder"))
      as [[ph|]|e].
    + destruct (negb (String.eqb ph EmptyString) && py_in "输入正文描述" ph).
      * pose proof (walk_up_spec 5 p
                      (record (GetAttribute p "data-placeholder") w)) as Hw.
        cbv zeta in Hw. destruct Hw as [[l [Hl Hn]] Hres].
        destruct (run E (XiaohongshuPublish.walk_up 5 p) _)
          as [[[| |[par|]]|e] w1]; cbn [fst snd] in *;
          try contradiction.
        -- specialize (IH w1). cbv zeta in IH.
           destruct IH as [[l2 [Hl2 Hn2]] Hres2]. split; [|exact Hres2].
           exists (GetAttribute p "data-placeholder" :: l ++ l2)%list.
           rewrite Hl2, Hl. cbn [calls record List.length].
           rewrite <- !app_assoc. split; [reflexivity|].
           rewrite length_app. lia.
        -- cbn [run fst snd]. split; [|exact Hres].
           exists (GetAttribute p "data-placeholder" :: l)%list.
           rewrite Hl. cbn [calls record List.length].
           rewrite <- !app_assoc. split; [reflexivity|]. lia.
        -- cbn [run fst snd]. split; [|exact I].
           exists (GetAttribute p "data-placeholder" :: l)%list.
           rewrite Hl. cbn [calls record List.length].
           rewrite <- !app_assoc. split; [reflexivity|]. lia.
      * cbn [run]. exact Hskip.
    + cbn [run]. exact Hskip.
    + cbn [run fst snd calls record]. split; [|exact I].
      eexists. split; [reflexivity|]. cbn [List.length]. lia.
Qed.

(** X14.  [_find_textbox_by_placeholder] never raises.  An element it
    returns is one whose role attribute was just read as textbox.  It
    makes at most eleven calls for each paragraph of the page, and when
    the paragraphs cannot be listed it returns nothing after that one
    call. *)
Theorem find_textbox_by_placeholder_spec (w : world) :
  let paragraphs := QuerySelectorAll "p" in
  let out := run E XiaohongshuPublish._find_textbox_by_placeholder w in
  (exists o, fst out = Ok o)
  /\
  (forall par,
     fst out = Ok (Some par) ->
     exists h,
       calls (snd out) = (h ++ [GetAttribute par "role"])%list
       /\ browser E h (GetAttribute par "role") = Ok (Some "textbox"))
  /\
  (forall ps,
     browser E (calls w) paragraphs = Ok ps ->
     exists l,
       calls (snd out) = (calls w ++ paragraphs :: l)%list
       /\ List.length l <= 11 * List.length ps)
  /\
  (forall e,
     browser E (calls w) paragraphs = Err e ->
     out = (Ok None, record paragraphs w)).
Proof.
  intros paragraphs out. subst paragraphs out.
  split.
  { destruct (find_textbox_returns w) as [o [w' H]]. rewrite H. cbn [fst]. eauto. }
  unfold XiaohongshuPublish._find_textbox_by_placeholder.
  rewrite run_try_catch, run_bind. browser_step.
  cbv beta iota delta [ret] in *.
  destruct (browser E (calls w) (QuerySelectorAll "p")) as [ps|e].
  - rewrite run_and_then.
    pose proof (textbox_loop_spec ps (record (QuerySelectorAll "p") w)) as Hl.
    cbv zeta in Hl. cbv beta iota delta [ret] in *.
    destruct Hl as [[l [Hl Hn]] Hres].
    destruct (run E (for_each ps _) _) as [[[| |[par|]]|e] w1];
      cbn [fst snd run] in *; try contradiction.
    + split; [intros par Hp; discriminate|]. split; [|intros e; discriminate].
      intros ps' Hps. inversion Hps; subst ps'. exists l.
      rewrite Hl. cbn [calls record]. rewrite <- app_assoc.
      split; [reflexivity | exact Hn].
    + split; [intros par' Hp; inversion Hp; subst par'; exact Hres|].
      split; [|intros e; discriminate].
      intros ps' Hps. inversion Hps; subst ps'. exists l.
      rewrite Hl. cbn [calls record]. rewrite <- app_assoc.
      split; [reflexivity | exact Hn].
    + split; [intros par Hp; discriminate|]. split; [|intros e'; discriminate].
      intros ps' Hps. inversion Hps; subst ps'. exists l.
      rewrite Hl. cbn [calls record]. rewrite <- app_assoc.
      split; [reflexivity | exact Hn].
  - cbn [run fst snd]. split; [intros par Hp; discriminate|].
    split; [intros ps Hps; discriminate|].
    intros e' He. reflexivity.
Qed.

(** X13.  [_fill_description] with [_find_content_element].  When the
    rich-text editor is found, the content is filled into it, and no other
    lookup is made; an exception of the fill is raised with the label of
    the stage.  When the editor lookup raises and the page has no
    paragraph, the [textarea] lookup decides: its element is filled, and
    its failure makes the stage raise that no content field was found,
    having filled nothing. *)
Theorem fill_description_outcomes (content : string) (w : world) :
  let ql := WaitForSelector "div.ql-editor" 3000 in
  let paragraphs := QuerySelectorAll "p" in
  let area := WaitForSelector "textarea" 3000 in
  let fill := run E (XiaohongshuPublish._fill_description content) w in
  (forall el,
     browser E (calls w) ql = Ok (Some el) ->
     match browser E (calls w ++ [ql]) (Fill el content) with
     | Ok _ =>
         fst fill = Ok tt
         /\ calls (snd fill) =
            (calls w ++ [ql; Fill el content; Sleep 1])%list
     | Err e =>
         fst fill = Err (Exception ("填写正文失败: " ++ exn_msg e))
         /\ calls (snd fill) = (calls w ++ [ql; Fill el content])%list
     end)
  /\
  (forall e1,
     browser E (calls w) ql = Err e1 ->
     browser E (calls w ++ [ql]) paragraphs = Ok [] ->
     (forall e3,
        browser E (calls w ++ [ql; paragraphs]) area = Err e3 ->
        fst fill = Err (Exception "填写正文失败: 未找到内容输入框")
        /\ calls (snd fill) = (calls w ++ [ql; paragraphs; area])%list)
     /\
     (forall el,
        browser E (calls w ++ [ql; paragraphs]) area = Ok (Some el) ->
        exists rest,
          calls (snd fill) =
          (calls w ++ [ql; paragraphs; area; Fill el content] ++ rest)%list)).
Proof.
  intros ql paragraphs area fill. subst ql paragraphs area fill.
  unfold XiaohongshuPublish._fill_description,
    XiaohongshuPublish._find_content_element.
  rewrite run_try_catch, run_bind, run_try_catch, run_and_then.
  rewrite run_try_catch, run_bind. browser_step.
  cbv beta iota delta [ret] in *.
  split.
  - intros el Hel. rewrite Hel. rewrite run_bind, run_logger. cbn [run].
    rewrite run_bind. browser_step. cbn [calls add_log record].
    cbv beta iota delta [ret] in *.
    destruct (browser E _ (Fill el content)) as [[]|e].
    + rewrite run_bind, run_logger, run_sleep.
      cbn [fst snd calls add_log record]. rewrite <- ?app_assoc.
      split; reflexivity.
    + cbn [run fst snd calls add_log record str_of_exn].
      rewrite <- ?app_assoc. split; reflexivity.
  - intros e1 Hql Hps. rewrite Hql. cbn [run].
    rewrite run_and_then, run_try_catch, run_bind.
    unfold XiaohongshuPublish._find_textbox_by_placeholder.
    rewrite run_try_catch, run_bind. browser_step.
    cbn [calls record]. cbv beta iota delta [ret] in *. rewrite Hps.
    cbn [for_each and_then bind run].
    rewrite run_and_then, run_try_catch, run_bind. browser_step.
    cbn [calls record]. rewrite <- ?app_assoc. cbn [app].
    cbv beta iota delta [ret] in *.
    split.
    + intros e3 Harea. rewrite Harea. cbn [run].
      rewrite run_bind, run_logger.
      cbn [run fst snd calls add_log record str_of_exn exn_msg Exception].
      rewrite <- ?app_assoc. split; reflexivity.
    + intros el Harea. rewrite Harea. rewrite run_bind, run_logger.
      cbn [run]. rewrite run_bind. browser_step.
      cbn [calls add_log record]. rewrite <- ?app_assoc. cbn [app].
      cbv beta iota delta [ret] in *.
      destruct (browser E _ (Fill el content)) as [[]|e].
      * rewrite run_bind, run_logger, run_sleep.
        cbn [fst snd calls add_log record]. rewrite <- ?app_assoc.
        exists [Sleep 1]. reflexivity.
      * cbn [run fst snd calls add_log record]. rewrite <- ?app_assoc.
        exists []. reflexivity.
Qed.

End Content.

Lemma submit_publish_outcomes_witness :
  fst (run env_no_field XiaohongshuPublish._submit_publish world0)
  = Err (Exception "等待提交按钮超时").
Proof.
  apply (proj1 (submit_publish_outcomes env_no_field world0)
           (mkExn PlaywrightTimeout "Timeout 3000ms exceeded.")).
  reflexivity.
Defined.

Lemma fill_title_outcomes_witness :
  fst (run env_no_field (XiaohongshuPublish._fill_title "title") world0)
  = Err (Exception "填写标题失败: 所有标题选择器都未找到")
  /\ exists l,
      calls (snd (run env_no_field (XiaohongshuPublish._fill_title "title")
                    world0)) = l
      /\ Forall quiet l.
Proof.
  apply (proj2 (proj2
           (fill_title_outcomes env_no_field "title" EmptyString EmptyString
              world0 eq_refl eq_refl))
           (fun h s _ => eq_refl) []).
  reflexivity.
Defined.

Lemma fill_content_failure_labels_witness :
  exists m,
    Exception "填写内容失败: 填写标题失败: 所有标题选择器都未找到"
    = Exception ("填写内容失败: 填写标题失败: " ++ m)
    \/ Exception "填写内容失败: 填写标题失败: 所有标题选择器都未找到"
       = Exception ("填写内容失败: 填写正文失败: " ++ m).
Proof.
  apply (fill_content_failure_labels env_no_field "title" "content" world0
           (snd (run env_no_field
                   (XiaohongshuPublish._fill_content "title" "content")
                   world0))).
  vm_compute. reflexivity.
Defined.

Lemma fill_description_outcomes_witness :
  fst (run env_ok (XiaohongshuPublish._fill_description "content") world0)
  = Ok tt
  /\ calls (snd (run env_ok (XiaohongshuPublish._fill_description "content")
                   world0))
     = [WaitForSelector "div.ql-editor" 3000; Fill 0 "content"; Sleep 1].
Proof.
  apply (proj1 (fill_description_outcomes env_ok "content" world0) 0).
  reflexivity.
Defined.

(* ================================================================== *)
(** ** The image check, the commands and the tools *)

Section ImageCheck.
Variable E : env.

Lemma publisher_images_loop (paths : list string) (w : world) :
  stat_ok E paths ->
  exists w',
    run E
      (for_each paths (fun path =>
         present <- path_exists path ;;
         if negb present then
           logger ERROR ("图片文件不存在: " ++ path) ;;
           Ret (Return false)
         else
           regular <- path_is_file path ;;
           if negb regular then
             logger ERROR ("路径不是文件: " ++ path) ;;
             Ret (Return false)
           else Ret Next)) w
    = (Ok (if forallb (regular_file (files w)) paths
           then Next else Return false), w')
    /\ files w' = files w
    /\ exists l, calls w' = (calls w ++ l)%list
                 /\ forallb is_path_test l = true.
Proof.
  revert w. induction paths as [|p paths IH]; intros w Hstat.
  - exists w. cbn. split; [reflexivity|]. split; [reflexivity|].
    exists []. rewrite app_nil_r. auto.
  - assert (Hrest : stat_ok E paths)
      by (intros h q Hq; apply Hstat; right; exact Hq).
    cbn [for_each forallb]. rewrite run_bind, run_bind.
    rewrite run_path_exists by (apply Hstat; left; reflexivity).
    unfold regular_file at 1.
    destruct (files w p) as [[content|]|] eqn:Hf; cbn [negb].
    + rewrite run_bind.
      rewrite run_path_is_file by (apply Hstat; left; reflexivity).
      cbn [files record]. rewrite Hf. cbn [negb andb run].
      destruct (IH (record (PathIsFile p) (record (Stat p)
                      (record (PathExists p) (record (Stat p) w)))) Hrest)
        as [w' [Hrun [Hfiles [l [Hl Hq]]]]].
      cbn [files record calls] in *. rewrite Hrun.
      exists w'. split.
      { destruct (forallb (regular_file (files w)) paths); reflexivity. }
      split; [exact Hfiles|].
      exists ([Stat p; PathExists p; Stat p; PathIsFile p] ++ l)%list.
      rewrite Hl, <- !app_assoc. split; [reflexivity|].
      rewrite forallb_app, Hq. reflexivity.
    + rewrite run_bind.
      rewrite run_path_is_file by (apply Hstat; left; reflexivity).
      cbn [files record]. rewrite Hf. cbn [negb].
      rewrite run_bind, run_logger. cbn [run andb].
      eexists. split; [reflexivity|]. split; [reflexivity|].
      exists [Stat p; PathExists p; Stat p; PathIsFile p].
      cbn [calls add_log record]. rewrite <- !app_assoc. auto.
    + rewrite run_bind, run_logger. cbn [run andb].
      eexists. split; [reflexivity|]. split; [reflexivity|].
      exists [Stat p; PathExists p]. cbn [calls add_log record].
      rewrite <- !app_assoc. auto.
Qed.

Lemma validate_images_run (paths : list string) (w : world) :
  stat_ok E paths ->
  exists w',
    run E (XiaohongshuPublish._validate_images paths) w
    = (Ok (images_usable (files w) paths), w')
    /\ files w' = files w
    /\ exists l, calls w' = (calls w ++ l)%list
                 /\ forallb is_path_test l = true.
Proof.
  intros Hstat. unfold XiaohongshuPublish._validate_images, images_usable.
  destruct paths as [|p paths].
  - rewrite run_bind, run_logger. cbn [run]. eexists.
    split; [reflexivity|]. split; [reflexivity|].
    exists []. cbn. rewrite app_nil_r. auto.
  - rewrite run_and_then.
    destruct (publisher_images_loop (p :: paths) w Hstat)
      as [w' [Hrun [Hfiles [l [Hl Hq]]]]].
    rewrite Hrun.
    destruct (forallb (regular_file (files w)) (p :: paths)).
    + rewrite run_bind, run_logger. cbn [run]. eexists.
      split; [reflexivity|]. split; [exact Hfiles|]. exists l. auto.
    + exists w'. split; [reflexivity|]. split; [exact Hfiles|].
      exists l. auto.
Qed.

(** X17.  When the operating system answers the [stat] of every path,
    [_validate_images] returns whether the list is non-empty and every
    path is an existing regular file, whatever its suffix; it only tests
    paths.  When it refuses, [publish_content] returns false having made
    no call but those path tests: the browser is not touched.  An error
    of the operating system on the first path is raised by
    [_validate_images]; [publish_content] logs it and returns false,
    again without touching the browser. *)
Theorem publish_content_image_check (self : XiaohongshuPublish.t)
        (title content : string) (paths : list string) (w : world) :
  (stat_ok E paths ->
   exists w',
     run E (XiaohongshuPublish._validate_images paths) w
     = (Ok (images_usable (files w) paths), w')
     /\ files w' = files w
     /\ exists l, calls w' = (calls w ++ l)%list
                  /\ forallb is_path_test l = true)
  /\
  (stat_ok E paths ->
   images_usable (files w) paths = false ->
   exists w',
     run E (XiaohongshuPublish.publish_content self title content paths) w
     = (Ok false, w')
     /\ files w' = files w
     /\ exists l, calls w' = (calls w ++ l)%list
                  /\ forallb is_path_test l = true)
  /\
  (forall p ps e,
     paths = p :: ps ->
     io_fault E (calls w) (Stat p) = Some e ->
     run E (XiaohongshuPublish._validate_images paths) w
     = (Err e, record (Stat p) w)
     /\ run E (XiaohongshuPublish.publish_content self title content paths) w
        = (Ok false,
           add_log ERROR ("发布内容时出错: " ++ exn_msg e)
             (record (Stat p) (add_log INFO "开始发布内容..." w)))).
Proof.
  split; [apply validate_images_run|]. split.
  - intros Hstat Hbad. rewrite publish_content_run.
    destruct (validate_images_run paths (add_log INFO "开始发布内容..." w)
                Hstat)
      as [w' [Hrun [Hfiles [l [Hl Hq]]]]].
    cbn [files add_log calls] in *. rewrite Hrun, Hbad. cbv zeta.
    exists w'. split; [reflexivity|]. split; [exact Hfiles|]. exists l. auto.
  - intros p ps e Hp Hfault. subst paths.
    assert (Hv : forall w0,
      io_fault E (calls w0) (Stat p) = Some e ->
      run E (XiaohongshuPublish._validate_images (p :: ps)) w0
      = (Err e, record (Stat p) w0)).
    { intros w0 H0. unfold XiaohongshuPublish._validate_images.
      rewrite run_and_then. cbn [for_each]. rewrite run_bind, run_bind.
      rewrite (run_path_exists_fault E p w0 e) by exact H0. reflexivity. }
    split; [apply Hv; exact Hfault|].
    rewrite publish_content_run. rewrite Hv by exact Hfault. reflexivity.
Qed.

End ImageCheck.

Lemma publish_content_image_check_witness :
  exists w',
    run env_ok
        (XiaohongshuPublish.publish_content publisher0 "title" "content"
           ["/tmp/a.png"; "/tmp/missing.png"]) world_images
    = (Ok false, w')
    /\ files w' = files world_images
    /\ exists l, calls w' = (calls world_images ++ l)%list
                 /\ forallb is_path_test l = true.
Proof.
  apply (proj1 (proj2 (publish_content_image_check env_ok publisher0 "title"
                  "content" ["/tmp/a.png"; "/tmp/missing.png"] world_images))).
  - intros h p Hp. reflexivity.
  - reflexivity.
Defined.







(* ================================================================== *)
(** ** The outcome of a session wrapped in a handler *)

Lemma save_and_close_exit (self : BrowserManager.t) :
  emits session_exit (BrowserManager.save_and_close self).
Proof.
  unfold BrowserManager.save_and_close, BrowserManager.save_if_any,
    CookieManager.save_cookies.
  emits_tac.
Qed.

Section Outcomes.
Variable E : env.

Lemma after_finally_calls {A : Type} (f : prog unit) (r : res A)
      (w : world) :
  emits session_exit f ->
  exists l,
    calls (snd (after_finally (run E f w) r)) = (calls w ++ l)%list
    /\ Forall session_exit l.
Proof.
  intros Hf. destruct (emits_run session_exit E f Hf w) as [l [Hl HP]].
  exists l. split; [|exact HP].
  unfold after_finally. destruct (run E f w) as [[[]|e] w']; exact Hl.
Qed.

(** A session whose body ends at [w1] without a further call. *)
Lemma session_ends_after {A : Type} (self : BrowserManager.t)
      (body : Page -> prog A) (w w0 w1 : world) (r : res A) :
  run E (BrowserManager.session_entry self) w = (Ok tt, w0) ->
  run E (body ThePage) w0 = (r, w1) ->
  let out := run E (BrowserManager.get_page self body) w in
  (exists l, calls (snd out) = (calls w1 ++ l)%list /\ Forall session_exit l)
  /\ (fst out = r \/ exists e, fst out = Err e).
Proof.
  intros Hentry Hbody out. subst out.
  rewrite (get_page_entered E self body w w0 Hentry), Hbody.
  destruct (after_finally_calls (BrowserManager.save_and_close self) r w1
              (save_and_close_exit self)) as [l1 [Hl1 HP1]].
  assert (Hr1 : fst (after_finally
                       (run E (BrowserManager.save_and_close self) w1) r) = r
                \/ exists e, fst (after_finally
                       (run E (BrowserManager.save_and_close self) w1) r)
                             = Err e).
  { unfold after_finally.
    destruct (run E (BrowserManager.save_and_close self) w1) as [[[]|e] w'];
      cbn [fst]; eauto. }
  destruct (after_finally (run E (BrowserManager.save_and_close self) w1) r)
    as [r1 w2]. cbn [fst snd] in *.
  assert (Hclose : emits session_exit (await BrowserClose : prog unit))
    by emits_tac.
  destruct (after_finally_calls (await BrowserClose : prog unit) r1 w2 Hclose)
    as [l2 [Hl2 HP2]].
  assert (Hr2 : fst (after_finally
                       (run E (await BrowserClose : prog unit) w2) r1) = r1
                \/ exists e, fst (after_finally
                       (run E (await BrowserClose : prog unit) w2) r1)
                             = Err e).
  { unfold after_finally.
    destruct (run E (await BrowserClose : prog unit) w2) as [[[]|e] w'];
      cbn [fst]; eauto. }
  destruct (after_finally (run E (await BrowserClose : prog unit) w2) r1)
    as [r2 w3]. cbn [fst snd] in *.
  assert (Hstop : emits session_exit (await PlaywrightStop : prog unit))
    by emits_tac.
  destruct (after_finally_calls (await PlaywrightStop : prog unit) r2 w3 Hstop)
    as [l3 [Hl3 HP3]].
  split.
  - exists (l1 ++ l2 ++ l3)%list. rewrite Hl3, Hl2, Hl1, <- !app_assoc.
    split; [reflexivity|]. repeat (apply Forall_app; split); assumption.
  - unfold after_finally.
    destruct (run E (await PlaywrightStop : prog unit) w3) as [[[]|e] w'];
      cbn [fst]; [|eauto].
    destruct Hr2 as [Hr2|[e Hr2]]; [|right; eauto].
    destruct Hr1 as [Hr1|[e Hr1]]; [left; congruence|].
    right. exists e. congruence.
Qed.

Lemma check_login_status_returns (self : XiaohongshuLogin.t) (w : world) :
  exists b, fst (run E (XiaohongshuLogin.check_login_status self) w) = Ok b.
Proof.
  unfold XiaohongshuLogin.check_login_status. rewrite run_try_catch.
  destruct (run E _ w) as [[b|e] w'].
  - cbn [fst]. eauto.
  - rewrite run_bind, run_logger. cbn [run fst]. eauto.
Qed.

Lemma login_returns (self : XiaohongshuLogin.t) (w : world) :
  exists b, fst (run E (XiaohongshuLogin.login self) w) = Ok b.
Proof.
  unfold XiaohongshuLogin.login. rewrite run_try_catch.
  destruct (run E _ w) as [[b|e] w'].
  - cbn [fst]. eauto.
  - rewrite run_bind, run_logger. cbn [run fst]. eauto.
Qed.

Lemma publish_content_returns (self : XiaohongshuPublish.t)
      (title content : string) (paths : list string) (w : world) :
  exists b,
    fst (run E (XiaohongshuPublish.publish_content self title content paths)
           w) = Ok b.
Proof.
  unfold XiaohongshuPublish.publish_content. rewrite run_try_catch.
  destruct (run E _ w) as [[b|e] w'].
  - cbn [fst]. eauto.
  - rewrite run_bind, run_logger. cbn [run fst]. eauto.
Qed.

(** A session that cannot be entered raises; its body does not run. *)
Lemma get_page_not_entered {A : Type} (self : BrowserManager.t)
      (body : Page -> prog A) (w w0 : world) (e : exn) :
  run E (BrowserManager.session_entry self) w = (Err e, w0) ->
  exists e', fst (run E (BrowserManager.get_page self body) w) = Err e'.
Proof.
  unfold BrowserManager.session_entry, BrowserManager.get_page.
  rewrite !run_bind. repeat browser_step. cbv beta iota delta [ret].
  destruct (browser E (calls w) PlaywrightStart) as [[]|e0].
  2:{ intros _. cbn [fst]. eauto. }
  rewrite run_try_finally, !run_bind. repeat browser_step.
  cbv beta iota delta [ret].
  destruct (browser E _ (Launch _ _ _)) as [[]|e1].
  2:{ intros _. browser_step.
      destruct (browser E _ PlaywrightStop) as [[]|e2]; cbn [fst]; eauto. }
  intros Hopen. rewrite run_try_finally, run_bind, Hopen.
  browser_step. destruct (browser E _ BrowserClose) as [[]|e2];
    browser_step; destruct (browser E _ PlaywrightStop) as [[]|e3];
    cbn [fst]; eauto.
Qed.



End Outcomes.

(* ================================================================== *)
(** ** The commands and the tools *)

Section CommandLine.
Variable E : env.


End CommandLine.

Section LoginCommand.
Variable E : env.


End LoginCommand.

Section Tools.
Variable E : env.

(** X20.  The three tools of the server always return a string, never an
    exception.  In a session that was entered, the login tool returns its
    success message only when [login], run at the start of that session,
    returned true; the status tool only when [check_login_status] did;
    the publishing tool only when the status check at the start of that
    session returned true and [publish_content], run after it, returned
    true.  A session that cannot be entered makes the login and status
    tools return their error message. *)
Theorem server_tools_report (headless : bool) (chrome_path : option string)
        (title content : string) (paths : list string) (w : world) :
  let manager := Server.browser_manager headless chrome_path in
  let handler := XiaohongshuLogin.new ThePage in
  let login := run E (Server.xiaohongshu_login headless chrome_path) w in
  let status :=
    run E (Server.xiaohongshu_check_status headless chrome_path) w in
  let publish :=
    run E (Server.xiaohongshu_publish title content paths headless
             chrome_path) w in
  ((exists s, fst login = Ok s)
   /\ (forall w0,
         run E (BrowserManager.session_entry manager)
             (add_log INFO "开始小红书登录流程..." w) = (Ok tt, w0) ->
         fst login = Ok "✅ 小红书登录成功" ->
         fst (run E (XiaohongshuLogin.login handler) w0) = Ok true)
   /\ (forall e w0,
         run E (BrowserManager.session_entry manager)
             (add_log INFO "开始小红书登录流程..." w) = (Err e, w0) ->
         exists m, fst login = Ok ("❌ 登录过程中发生错误: " ++ m)))
  /\
  ((exists s, fst status = Ok s)
   /\ (forall w0,
         run E (BrowserManager.session_entry manager)
             (add_log INFO "检查小红书登录状态..." w) = (Ok tt, w0) ->
         fst status = Ok "✅ 小红书已登录" ->
         fst (run E (XiaohongshuLogin.check_login_status handler) w0)
         = Ok true)
   /\ (forall e w0,
         run E (BrowserManager.session_entry manager)
             (add_log INFO "检查小红书登录状态..." w) = (Err e, w0) ->
         exists m, fst status = Ok ("❌ 检查登录状态时发生错误: " ++ m)))
  /\
  ((exists s, fst publish = Ok s)
   /\ (forall w0,
         let entry :=
           add_log INFO ("图片: ['" ++ String.concat "', '" paths ++ "']")
             (add_log INFO (Cli.content_preview content)
                (add_log INFO ("标题: " ++ title)
                   (add_log INFO "开始发布小红书内容..." w))) in
         let checked :=
           run E (XiaohongshuLogin.check_login_status handler) w0 in
         let published :=
           run E (XiaohongshuPublish.publish_content
                    (XiaohongshuPublish.new ThePage) title content paths)
               (snd checked) in
         run E (BrowserManager.session_entry manager) entry = (Ok tt, w0) ->
         fst publish = Ok "🎉 小红书内容发布成功！" ->
         fst checked = Ok true /\ fst published = Ok true)).
Proof.
  intros manager handler login status publish.
  subst login status publish handler.
  split; [|split].
  - unfold Server.xiaohongshu_login. split; [|split].
    + rewrite run_try_catch.
      destruct (run E _ w) as [[s|e] w']; [cbn [fst]; eauto|].
      rewrite run_bind, run_logger. cbn [run fst]. eauto.
    + intros w0 Hentry.
      rewrite run_try_catch, run_bind, run_logger. fold manager.
      destruct (login_returns E (XiaohongshuLogin.new ThePage) w0)
        as [ok Hok].
      destruct (run E (XiaohongshuLogin.login (XiaohongshuLogin.new ThePage))
                  w0) as [rl wl] eqn:Hl.
      cbn [fst] in *. subst rl.
      match goal with
      | |- context [run E (BrowserManager.get_page manager ?body) ?w1] =>
          destruct (session_ends_after E manager body w1 w0
                      (add_log (if ok then SUCCESS else ERROR)
                         (if ok then "🎉 登录成功！" else "❌ 登录失败") wl)
                      (Ok (if ok then "✅ 小红书登录成功"
                           else "❌ 小红书登录失败")) Hentry)
            as [_ Hres]
      end.
      { rewrite run_bind, Hl. destruct ok; rewrite run_bind, run_logger;
          reflexivity. }
      destruct (run E (BrowserManager.get_page manager _) _) as [[s|e] w2];
        cbn [fst] in *.
      * intros Hs. inversion Hs; subst s.
        destruct Hres as [Hres|[e Hres]]; [|discriminate].
        destruct ok; [reflexivity | discriminate].
      * rewrite run_bind, run_logger. cbn [run fst]. discriminate.
    + intros e w0 Hentry.
      rewrite run_try_catch, run_bind, run_logger. fold manager.
      match goal with
      | |- context [run E (BrowserManager.get_page manager ?body) ?w1] =>
          destruct (get_page_not_entered E manager body w1 w0 e Hentry)
            as [e' He'];
          destruct (run E (BrowserManager.get_page manager body) w1)
            as [[s|e1] w2]; cbn [fst] in He'; [discriminate|]
      end.
      rewrite run_bind, run_logger. cbn [run fst]. eexists. reflexivity.
  - unfold Server.xiaohongshu_check_status. split; [|split].
    + rewrite run_try_catch.
      destruct (run E _ w) as [[s|e] w']; [cbn [fst]; eauto|].
      rewrite run_bind, run_logger. cbn [run fst]. eauto.
    + intros w0 Hentry.
      rewrite run_try_catch, run_bind, run_logger. fold manager.
      destruct (check_login_status_returns E (XiaohongshuLogin.new ThePage)
                  w0) as [ok Hok].
      destruct (run E (XiaohongshuLogin.check_login_status
                         (XiaohongshuLogin.new ThePage)) w0)
        as [rl wl] eqn:Hl.
      cbn [fst] in *. subst rl.
      match goal with
      | |- context [run E (BrowserManager.get_page manager ?body) ?w1] =>
          destruct (session_ends_after E manager body w1 w0
                      (add_log (if ok then SUCCESS else INFO)
                         (if ok then "✅ 已登录" else "❌ 未登录") wl)
                      (Ok (if ok then "✅ 小红书已登录"
                           else "❌ 小红书未登录，请先执行登录操作")) Hentry)
            as [_ Hres]
      end.
      { rewrite run_bind, Hl. destruct ok; rewrite run_bind, run_logger;
          reflexivity. }
      destruct (run E (BrowserManager.get_page manager _) _) as [[s|e] w2];
        cbn [fst] in *.
      * intros Hs. inversion Hs; subst s.
        destruct Hres as [Hres|[e Hres]]; [|discriminate].
        destruct ok; [reflexivity | discriminate].
      * rewrite run_bind, run_logger. cbn [run fst]. discriminate.
    + intros e w0 Hentry.
      rewrite run_try_catch, run_bind, run_logger. fold manager.
      match goal with
      | |- context [run E (BrowserManager.get_page manager ?body) ?w1] =>
          destruct (get_page_not_entered E manager body w1 w0 e Hentry)
            as [e' He'];
          destruct (run E (BrowserManager.get_page manager body) w1)
            as [[s|e1] w2]; cbn [fst] in He'; [discriminate|]
      end.
      rewrite run_bind, run_logger. cbn [run fst]. eexists. reflexivity.
  - unfold Server.xiaohongshu_publish. split.
    + rewrite run_try_catch.
      destruct (run E _ w) as [[s|e] w']; [cbn [fst]; eauto|].
      rewrite run_bind, run_logger. cbn [run fst]. eauto.
    + intros w0 Hentry.
      rewrite run_try_catch.
      destruct (strip_is_empty title); [cbn; discriminate|].
      destruct (40 <? py_len title)%nat; [cbn; discriminate|].
      destruct (strip_is_empty content); [cbn; discriminate|].
      destruct paths as [|p ps]; [cbn; discriminate|].
      repeat (rewrite run_bind, run_logger). fold manager.
      destruct (check_login_status_returns E (XiaohongshuLogin.new ThePage)
                  w0) as [b Hb].
      destruct (run E (XiaohongshuLogin.check_login_status
                         (XiaohongshuLogin.new ThePage)) w0)
        as [rc wc] eqn:Hc.
      cbn [fst snd] in *. subst rc.
      destruct (publish_content_returns E (XiaohongshuPublish.new ThePage)
                  title content (p :: ps) wc) as [ok Hok].
      destruct (run E (XiaohongshuPublish.publish_content
                         (XiaohongshuPublish.new ThePage) title content
                         (p :: ps)) wc) as [rp wp] eqn:Hp.
      cbn [fst] in *. subst rp.
      match goal with
      | |- context [run E (BrowserManager.get_page manager ?body) ?entry] =>
          destruct (session_ends_after E manager body entry w0
                      (if b then
                         add_log (if ok then SUCCESS else ERROR)
                           (if ok then "🎉 发布成功！" else "❌ 发布失败") wp
                       else wc)
                      (Ok (if b then
                             if ok then "🎉 小红书内容发布成功！"
                             else "❌ 小红书内容发布失败"
                           else "❌ 未登录，请先执行登录操作")) Hentry)
            as [_ Hres]
      end.
      { rewrite run_bind, Hc. destruct b; cbn [negb]; [|reflexivity].
        rewrite run_bind, Hp. destruct ok; rewrite run_bind, run_logger;
          reflexivity. }
      destruct (run E (BrowserManager.get_page manager _) _)
        as [[s|e] w2]; cbn [fst] in *.
      * intros Hs. inversion Hs; subst s.
        destruct Hres as [Hres|[e Hres]]; [|discriminate].
        destruct b; [|discriminate].
        destruct ok; [auto | discriminate].
      * rewrite run_bind, run_logger. cbn [run fst]. discriminate.
Qed.

End Tools.



Lemma server_tools_report_witness :
  let entered :=
    snd (run env_ok
           (BrowserManager.session_entry (Server.browser_manager true None))
           (add_log INFO "检查小红书登录状态..." world0)) in
  fst (run env_ok
         (XiaohongshuLogin.check_login_status (XiaohongshuLogin.new ThePage))
         entered) = Ok true.
Proof.
  pose proof (server_tools_report env_ok true None "title" "content"
                ["/tmp/a.png"] world0) as H.
  cbv zeta in H.
  destruct H as [_ [[_ [H2 _]] _]].
  refine (H2 _ _ _).
  - vm_compute. reflexivity.
  - vm_compute. reflexivity.
Defined.

(* ================================================================== *)
(** ** Publishing requires a login *)

Section RequiresLogin.
Variable E : env.


End RequiresLogin.

